(** * Stratux GPS front end (ry835ai.go): sentence codec, sentence parser,
    constellation tracker and validity predicates.

    The Go code of [src/main/ry835ai.go] is embedded function by function.
    Go strings are byte strings and are modelled by [string] (a list of
    8-bit [ascii]); fixed-width integers are [Z] with the wrap-around written
    out at each conversion; [float32] and [float64] are IEEE-754 values in
    the [spec_float] representation of the standard library; the
    [Satellites] map is a [gmap string SatelliteInfo.t]. *)

From Stdlib Require Import ZArith QArith Lia Bool List Ascii String.
From Stdlib Require Import Floats.SpecFloat.
From stdpp Require Import base option list strings gmap pretty.

Local Open Scope string_scope.
Local Open Scope Z_scope.

(** ** Fixed-width integers *)

Definition wrap_unsigned (bits : Z) (z : Z) : Z := z mod 2 ^ bits.

Definition wrap_signed (bits : Z) (z : Z) : Z :=
  (z + 2 ^ (bits - 1)) mod 2 ^ bits - 2 ^ (bits - 1).

Definition to_uint8 : Z -> Z := wrap_unsigned 8.
Definition to_uint16 : Z -> Z := wrap_unsigned 16.
Definition to_int8 : Z -> Z := wrap_signed 8.
Definition to_int16 : Z -> Z := wrap_signed 16.

(** The width of Go's [int] depends on the target (32 bits on the ARM
    boards the program is deployed on, 64 bits on amd64/arm64). *)
Inductive IntSize := Int32 | Int64.

Definition int_bits (isz : IntSize) : Z :=
  match isz with Int32 => 32 | Int64 => 64 end.

Definition to_int (isz : IntSize) : Z -> Z := wrap_signed (int_bits isz).

Definition in_int_range (isz : IntSize) (z : Z) : bool :=
  (- 2 ^ (int_bits isz - 1) <=? z) && (z <? 2 ^ (int_bits isz - 1)).

(** ** Bytes and strings *)

Definition byte_of (c : ascii) : Z := Z.of_N (N_of_ascii c).
Definition ascii_of_byte (b : Z) : ascii := ascii_of_N (Z.to_N b).

Definition bytes (s : string) : list Z := map byte_of (list_ascii_of_string s).

Definition len (s : string) : Z := Z.of_nat (String.length s).

(** [s[lo:]] and [s[:hi]] on byte strings, for indices already known to be
    in range; [str_slice] is the checked [s[lo:hi]]. *)
Fixpoint str_drop (n : nat) (s : string) : string :=
  match n, s with
  | O, _ => s
  | S k, String _ r => str_drop k r
  | S _, EmptyString => EmptyString
  end.

Fixpoint str_take (n : nat) (s : string) : string :=
  match n, s with
  | O, _ => EmptyString
  | S k, String c r => String c (str_take k r)
  | S _, EmptyString => EmptyString
  end.

(** [None] is Go's run-time panic "slice bounds out of range". *)
Definition str_slice (s : string) (lo hi : Z) : option string :=
  if (0 <=? lo) && (lo <=? hi) && (hi <=? len s)
  then Some (str_take (Z.to_nat (hi - lo)) (str_drop (Z.to_nat lo) s))
  else None.

(** [strings.HasPrefix(s, "$")], [strings.Contains(s, "*")] and
    [strings.TrimPrefix(s, "$")] for the one-byte patterns the program uses. *)
Definition HasPrefix1 (s : string) (c : ascii) : bool :=
  match s with
  | String d _ => Ascii.eqb d c
  | EmptyString => false
  end.

Fixpoint Contains1 (s : string) (c : ascii) : bool :=
  match s with
  | EmptyString => false
  | String d r => Ascii.eqb d c || Contains1 r c
  end.

Definition TrimPrefix1 (s : string) (c : ascii) : string :=
  match s with
  | String d r => if Ascii.eqb d c then r else s
  | EmptyString => s
  end.

(** [strings.Split(s, sep)] for a one-byte separator: the pieces between the
    occurrences of [sep]; the result is never empty. *)
Fixpoint Split1 (s : string) (sep : ascii) : list string :=
  match s with
  | EmptyString => [EmptyString]
  | String c r =>
      if Ascii.eqb c sep then EmptyString :: Split1 r sep
      else match Split1 r sep with
           | p :: ps => String c p :: ps
           | [] => [String c EmptyString]
           end
  end.

(** ** Iterating over a string with [for i := range s]

    Go's [range] over a string decodes UTF-8: the index variable takes the
    byte offset of each rune's first byte, and an ill-formed sequence
    counts as a one-byte rune.  [rune_width] follows the decoder of the Go
    run time (the [first] and [acceptRanges] tables of unicode/utf8). *)

Definition cont_byte (lo hi : Z) (s : string) : bool :=
  match s with
  | String c _ => (lo <=? byte_of c) && (byte_of c <=? hi)
  | EmptyString => false
  end.

Definition rune_shape (b0 : Z) : option (nat * Z * Z) :=
  if b0 <? 0xC2 then None
  else if b0 <? 0xE0 then Some (2%nat, 0x80, 0xBF)
  else if b0 =? 0xE0 then Some (3%nat, 0xA0, 0xBF)
  else if b0 =? 0xED then Some (3%nat, 0x80, 0x9F)
  else if b0 <? 0xF0 then Some (3%nat, 0x80, 0xBF)
  else if b0 =? 0xF0 then Some (4%nat, 0x90, 0xBF)
  else if b0 <? 0xF4 then Some (4%nat, 0x80, 0xBF)
  else if b0 =? 0xF4 then Some (4%nat, 0x80, 0x8F)
  else None.

Definition rune_width (s : string) : nat :=
  match s with
  | EmptyString => 0%nat
  | String c r =>
      match rune_shape (byte_of c) with
      | None => 1%nat
      | Some (sz, lo, hi) =>
          if negb (cont_byte lo hi r) then 1%nat
          else if (sz <=? 2)%nat then 2%nat
          else if negb (cont_byte 0x80 0xBF (str_drop 1 r)) then 1%nat
          else if (sz <=? 3)%nat then 3%nat
          else if negb (cont_byte 0x80 0xBF (str_drop 2 r)) then 1%nat
          else 4%nat
      end
  end.

(** [cs := byte(0); for i := range s { cs = cs ^ byte(s[i]) }]:
    [skip] counts the bytes of the current rune still to be passed over. *)
Fixpoint xor_range (skip : nat) (s : string) (acc : Z) : Z :=
  match s with
  | EmptyString => acc
  | String c r =>
      match skip with
      | S k => xor_range k r acc
      | O => xor_range (rune_width s - 1) r (Z.lxor acc (byte_of c))
      end
  end.

Definition xor_checksum (s : string) : Z := xor_range 0 s 0.

(** ** Hexadecimal formatting and parsing *)

Definition hex_digit (upper : bool) (d : Z) : ascii :=
  if d <? 10 then ascii_of_byte (48 + d)
  else ascii_of_byte ((if upper then 55 else 87) + d).

(** [fmt.Sprintf("%02x", b)] for a byte [b]. *)
Definition fmt_02x (b : Z) : string :=
  String (hex_digit false (b / 16)) (String (hex_digit false (b mod 16)) EmptyString).

(** [fmt.Sprintf("%#X", v)] for [0 <= v < 256]: ["0X"] and the digits
    without padding. *)
Definition fmt_sharpX (v : Z) : string :=
  "0X" ++ (if v <? 16 then String (hex_digit true v) EmptyString
           else String (hex_digit true (v / 16))
                  (String (hex_digit true (v mod 16)) EmptyString)).

Definition hex_value (c : ascii) : option Z :=
  let b := byte_of c in
  if (48 <=? b) && (b <=? 57) then Some (b - 48)
  else if (97 <=? b) && (b <=? 102) then Some (b - 87)
  else if (65 <=? b) && (b <=? 70) then Some (b - 55)
  else None.

(** [strconv.ParseUint(s, 16, 8)]: [None] stands for a non-nil error
    (empty input, a byte that is no hex digit, or a value above 255). *)
Fixpoint ParseUint_16_8_go (s : string) (acc : Z) : option Z :=
  match s with
  | EmptyString => Some acc
  | String c r =>
      match hex_value c with
      | None => None
      | Some d =>
          let acc' := acc * 16 + d in
          if 255 <? acc' then None else ParseUint_16_8_go r acc'
      end
  end.

Definition ParseUint_16_8 (s : string) : option Z :=
  match s with
  | EmptyString => None
  | _ => ParseUint_16_8_go s 0
  end.

(** ** Sentence codec *)

Module Codec.

(** [chksumUBX]: [ret[0] = ret[0] + msg[i]; ret[1] = ret[1] + ret[0]] on
    bytes. *)
Fixpoint chksumUBX_go (msg : list Z) (r0 r1 : Z) : list Z :=
  match msg with
  | [] => [r0; r1]
  | b :: rest =>
      let r0' := to_uint8 (r0 + b) in
      let r1' := to_uint8 (r1 + r0') in
      chksumUBX_go rest r0' r1'
  end.

Definition chksumUBX (msg : list Z) : list Z := chksumUBX_go msg 0 0.

Definition makeUBXCFG (class id : Z) (msglen : Z) (msg : list Z) : list Z :=
  let ret := [0xB5; 0x62; class; id;
              to_uint8 (Z.land msglen 0xFF);
              to_uint8 (Z.land (Z.shiftr msglen 8) 0xFF)] in
  let ret := (ret ++ msg)%list in
  let chk := chksumUBX (drop 2 ret) in
  let ret := (ret ++ [nth 0 chk 0])%list in
  let ret := (ret ++ [nth 1 chk 0])%list in
  ret.

Definition CRLF : string := String (ascii_of_byte 13) (String (ascii_of_byte 10) EmptyString).

Definition makeNMEACmd (cmd : string) : string :=
  let chk_sum := xor_checksum cmd in
  "$" ++ cmd ++ "*" ++ fmt_02x chk_sum ++ CRLF.

Definition validateNMEAChecksum (s : string) : string * bool :=
  if negb (HasPrefix1 s "$" && Contains1 s "*") then
    ("Invalid NMEA message", false)
  else
    let s_split := Split1 (TrimPrefix1 s "$") "*" in
    let s_out := nth 0 s_split EmptyString in
    let s_cs := nth 1 s_split EmptyString in
    if len s_cs <? 2 then
      ("Missing checksum. Fewer than two bytes after asterisk", false)
    else
      match ParseUint_16_8 (str_take 2 s_cs) with
      | None => ("Invalid checksum", false)
      | Some cs =>
          let cs_calc := xor_checksum s_out in
          if negb (cs_calc =? to_uint8 cs) then
            ("Checksum failed. Calculated " ++ fmt_sharpX cs_calc
               ++ "; expected " ++ fmt_sharpX cs, false)
          else (s_out, true)
      end.

End Codec.


(** ** Floating point

    [float32] and [float64] values are [spec_float]s of precision 24 and 53;
    arithmetic is the correctly rounded arithmetic of [SpecFloat], and an
    explicit conversion [float32(x)] rounds to nearest-even. *)

Abbreviation float32 := spec_float.
Abbreviation float64 := spec_float.

Definition f_zero : spec_float := S754_zero false.

Definition f64_mul : float64 -> float64 -> float64 := SFmul 53 1024.
Definition f64_div : float64 -> float64 -> float64 := SFdiv 53 1024.
Definition f64_ltb : float64 -> float64 -> bool := SFltb.
Definition f64_neg : float64 -> float64 := SFopp.

Definition f32_add : float32 -> float32 -> float32 := SFadd 24 128.
Definition f32_sub : float32 -> float32 -> float32 := SFsub 24 128.
Definition f32_neg : float32 -> float32 := SFopp.
Definition f32_ltb : float32 -> float32 -> bool := SFltb.

(** [float32(x)] for a [float64] [x]. *)
Definition float32_of_float64 (x : float64) : float32 :=
  match x with
  | S754_finite s m e => binary_round 24 128 s m e
  | _ => x
  end.

(** [float32(n)] for an integer [n]. *)
Definition float32_of_int (n : Z) : float32 := binary_normalize 24 128 n 0 false.

(** The value a decimal literal [n / 10^k] denotes once converted to the
    format of precision [prec]: the quotient rounded to nearest-even. *)
Definition decimal_literal (prec emax : Z) (n : positive) (k : Z) : spec_float :=
  SFdiv prec emax (S754_finite false n 0) (S754_finite false (Z.to_pos (10 ^ k)) 0).

Definition f64_lit : positive -> Z -> float64 := decimal_literal 53 1024.
Definition f32_lit : positive -> Z -> float32 := decimal_literal 24 128.

(** The integer part of a float, towards zero; [None] for NaN and
    infinities. *)
Definition float_trunc (x : spec_float) : option Z :=
  match x with
  | S754_zero _ => Some 0
  | S754_finite s m e =>
      let mag := if 0 <=? e then Z.pos m * 2 ^ e else Z.pos m / 2 ^ (- e) in
      Some (if s then - mag else mag)
  | _ => None
  end.

(** ** Time

    Instants and durations are counted in nanoseconds.  The zero
    [time.Time] is instant [0]. *)

Definition Time := Z.
Definition Duration := Z.
Definition Second : Duration := 1000000000.

(** Modelled from the spec: the monotonic clock source [stratuxClock] is an
    external collaborator; [stratuxClock.Since(t)] is "now - t", with [now]
    the clock's current [Time].  (Go saturates a [Duration] at the bounds of
    [int64]; the comparisons with 1 s to 15 s made below come out the same
    on the exact difference.) *)
Definition Since (now t : Time) : Duration := now - t.

(** ** Data model *)

Definition SAT_TYPE_UNKNOWN : Z := 0.
Definition SAT_TYPE_GPS : Z := 1.
Definition SAT_TYPE_GLONASS : Z := 2.
Definition SAT_TYPE_GALILEO : Z := 3.
Definition SAT_TYPE_BEIDOU : Z := 4.
Definition SAT_TYPE_SBAS : Z := 10.

Module SatelliteInfo.

(** The field [Type] of the Go struct is [Type_] here. *)
Record t := mk {
  SatelliteNMEA : Z;
  SatelliteID : string;
  Elevation : Z;
  Azimuth : Z;
  Signal : Z;
  Type_ : Z;
  TimeLastSolution : Time;
  TimeLastSeen : Time;
  TimeLastTracked : Time;
  InSolution : bool
}.

(** [var thisSatellite SatelliteInfo] *)
Definition zero : t := mk 0 EmptyString 0 0 0 0 0 0 0 false.

Definition set_SatelliteNMEA v s := mk v (SatelliteID s) (Elevation s) (Azimuth s) (Signal s) (Type_ s) (TimeLastSolution s) (TimeLastSeen s) (TimeLastTracked s) (InSolution s).
Definition set_SatelliteID v s := mk (SatelliteNMEA s) v (Elevation s) (Azimuth s) (Signal s) (Type_ s) (TimeLastSolution s) (TimeLastSeen s) (TimeLastTracked s) (InSolution s).
Definition set_Elevation v s := mk (SatelliteNMEA s) (SatelliteID s) v (Azimuth s) (Signal s) (Type_ s) (TimeLastSolution s) (TimeLastSeen s) (TimeLastTracked s) (InSolution s).
Definition set_Azimuth v s := mk (SatelliteNMEA s) (SatelliteID s) (Elevation s) v (Signal s) (Type_ s) (TimeLastSolution s) (TimeLastSeen s) (TimeLastTracked s) (InSolution s).
Definition set_Signal v s := mk (SatelliteNMEA s) (SatelliteID s) (Elevation s) (Azimuth s) v (Type_ s) (TimeLastSolution s) (TimeLastSeen s) (TimeLastTracked s) (InSolution s).
Definition set_Type v s := mk (SatelliteNMEA s) (SatelliteID s) (Elevation s) (Azimuth s) (Signal s) v (TimeLastSolution s) (TimeLastSeen s) (TimeLastTracked s) (InSolution s).
Definition set_TimeLastSolution v s := mk (SatelliteNMEA s) (SatelliteID s) (Elevation s) (Azimuth s) (Signal s) (Type_ s) v (TimeLastSeen s) (TimeLastTracked s) (InSolution s).
Definition set_TimeLastSeen v s := mk (SatelliteNMEA s) (SatelliteID s) (Elevation s) (Azimuth s) (Signal s) (Type_ s) (TimeLastSolution s) v (TimeLastTracked s) (InSolution s).
Definition set_TimeLastTracked v s := mk (SatelliteNMEA s) (SatelliteID s) (Elevation s) (Azimuth s) (Signal s) (Type_ s) (TimeLastSolution s) (TimeLastSeen s) v (InSolution s).
Definition set_InSolution v s := mk (SatelliteNMEA s) (SatelliteID s) (Elevation s) (Azimuth s) (Signal s) (Type_ s) (TimeLastSolution s) (TimeLastSeen s) (TimeLastTracked s) v.

End SatelliteInfo.

Module SituationData.

(** The two mutex pointers of the Go struct carry no data and are left out. *)
Record t := mk {
  LastFixSinceMidnightUTC : float32;
  Lat : float32;
  Lng : float32;
  Quality : Z;
  HeightAboveEllipsoid : float32;
  GeoidSep : float32;
  Satellites : Z;
  SatellitesTracked : Z;
  SatellitesSeen : Z;
  Accuracy : float32;
  NACp : Z;
  Alt : float32;
  AccuracyVert : float32;
  GPSVertVel : float32;
  LastFixLocalTime : Time;
  TrueCourse : float32;
  GroundSpeed : Z;
  LastGroundTrackTime : Time;
  GPSTime : Time;
  LastGPSTimeTime : Time;
  LastValidNMEAMessageTime : Time;
  LastValidNMEAMessage : string;
  Temp : float64;
  Pressure_alt : float64;
  LastTempPressTime : Time;
  Pitch : float64;
  Roll : float64;
  Yaw : float64;
  Gyro_heading : float64;
  LastAttitudeTime : Time
}.

Definition zero : t :=
  mk f_zero f_zero f_zero 0 f_zero f_zero 0 0 0 f_zero 0 f_zero f_zero f_zero 0 f_zero 0 0 0 0 0 EmptyString f_zero f_zero 0 f_zero f_zero f_zero f_zero 0.

(** Field assignments [s.F = v]. *)
Definition set_LastFixSinceMidnightUTC (v : float32) (s : t) : t :=
  mk v (Lat s) (Lng s) (Quality s) (HeightAboveEllipsoid s) (GeoidSep s) (Satellites s) (SatellitesTracked s) (SatellitesSeen s) (Accuracy s) (NACp s) (Alt s) (AccuracyVert s) (GPSVertVel s) (LastFixLocalTime s) (TrueCourse s) (GroundSpeed s) (LastGroundTrackTime s) (GPSTime s) (LastGPSTimeTime s) (LastValidNMEAMessageTime s) (LastValidNMEAMessage s) (Temp s) (Pressure_alt s) (LastTempPressTime s) (Pitch s) (Roll s) (Yaw s) (Gyro_heading s) (LastAttitudeTime s).
Definition set_Lat (v : float32) (s : t) : t :=
  mk (LastFixSinceMidnightUTC s) v (Lng s) (Quality s) (HeightAboveEllipsoid s) (GeoidSep s) (Satellites s) (SatellitesTracked s) (SatellitesSeen s) (Accuracy s) (NACp s) (Alt s) (AccuracyVert s) (GPSVertVel s) (LastFixLocalTime s) (TrueCourse s) (GroundSpeed s) (LastGroundTrackTime s) (GPSTime s) (LastGPSTimeTime s) (LastValidNMEAMessageTime s) (LastValidNMEAMessage s) (Temp s) (Pressure_alt s) (LastTempPressTime s) (Pitch s) (Roll s) (Yaw s) (Gyro_heading s) (LastAttitudeTime s).
Definition set_Lng (v : float32) (s : t) : t :=
  mk (LastFixSinceMidnightUTC s) (Lat s) v (Quality s) (HeightAboveEllipsoid s) (GeoidSep s) (Satellites s) (SatellitesTracked s) (SatellitesSeen s) (Accuracy s) (NACp s) (Alt s) (AccuracyVert s) (GPSVertVel s) (LastFixLocalTime s) (TrueCourse s) (GroundSpeed s) (LastGroundTrackTime s) (GPSTime s) (LastGPSTimeTime s) (LastValidNMEAMessageTime s) (LastValidNMEAMessage s) (Temp s) (Pressure_alt s) (LastTempPressTime s) (Pitch s) (Roll s) (Yaw s) (Gyro_heading s) (LastAttitudeTime s).
Definition set_Quality (v : Z) (s : t) : t :=
  mk (LastFixSinceMidnightUTC s) (Lat s) (Lng s) v (HeightAboveEllipsoid s) (GeoidSep s) (Satellites s) (SatellitesTracked s) (SatellitesSeen s) (Accuracy s) (NACp s) (Alt s) (AccuracyVert s) (GPSVertVel s) (LastFixLocalTime s) (TrueCourse s) (GroundSpeed s) (LastGroundTrackTime s) (GPSTime s) (LastGPSTimeTime s) (LastValidNMEAMessageTime s) (LastValidNMEAMessage s) (Temp s) (Pressure_alt s) (LastTempPressTime s) (Pitch s) (Roll s) (Yaw s) (Gyro_heading s) (LastAttitudeTime s).
Definition set_HeightAboveEllipsoid (v : float32) (s : t) : t :=
  mk (LastFixSinceMidnightUTC s) (Lat s) (Lng s) (Quality s) v (GeoidSep s) (Satellites s) (SatellitesTracked s) (SatellitesSeen s) (Accuracy s) (NACp s) (Alt s) (AccuracyVert s) (GPSVertVel s) (LastFixLocalTime s) (TrueCourse s) (GroundSpeed s) (LastGroundTrackTime s) (GPSTime s) (LastGPSTimeTime s) (LastValidNMEAMessageTime s) (LastValidNMEAMessage s) (Temp s) (Pressure_alt s) (LastTempPressTime s) (Pitch s) (Roll s) (Yaw s) (Gyro_heading s) (LastAttitudeTime s).
Definition set_GeoidSep (v : float32) (s : t) : t :=
  mk (LastFixSinceMidnightUTC s) (Lat s) (Lng s) (Quality s) (HeightAboveEllipsoid s) v (Satellites s) (SatellitesTracked s) (SatellitesSeen s) (Accuracy s) (NACp s) (Alt s) (AccuracyVert s) (GPSVertVel s) (LastFixLocalTime s) (TrueCourse s) (GroundSpeed s) (LastGroundTrackTime s) (GPSTime s) (LastGPSTimeTime s) (LastValidNMEAMessageTime s) (LastValidNMEAMessage s) (Temp s) (Pressure_alt s) (LastTempPressTime s) (Pitch s) (Roll s) (Yaw s) (Gyro_heading s) (LastAttitudeTime s).
Definition set_Satellites (v : Z) (s : t) : t :=
  mk (LastFixSinceMidnightUTC s) (Lat s) (Lng s) (Quality s) (HeightAboveEllipsoid s) (GeoidSep s) v (SatellitesTracked s) (SatellitesSeen s) (Accuracy s) (NACp s) (Alt s) (AccuracyVert s) (GPSVertVel s) (LastFixLocalTime s) (TrueCourse s) (GroundSpeed s) (LastGroundTrackTime s) (GPSTime s) (LastGPSTimeTime s) (LastValidNMEAMessageTime s) (LastValidNMEAMessage s) (Temp s) (Pressure_alt s) (LastTempPressTime s) (Pitch s) (Roll s) (Yaw s) (Gyro_heading s) (LastAttitudeTime s).
Definition set_SatellitesTracked (v : Z) (s : t) : t :=
  mk (LastFixSinceMidnightUTC s) (Lat s) (Lng s) (Quality s) (HeightAboveEllipsoid s) (GeoidSep s) (Satellites s) v (SatellitesSeen s) (Accuracy s) (NACp s) (Alt s) (AccuracyVert s) (GPSVertVel s) (LastFixLocalTime s) (TrueCourse s) (GroundSpeed s) (LastGroundTrackTime s) (GPSTime s) (LastGPSTimeTime s) (LastValidNMEAMessageTime s) (LastValidNMEAMessage s) (Temp s) (Pressure_alt s) (LastTempPressTime s) (Pitch s) (Roll s) (Yaw s) (Gyro_heading s) (LastAttitudeTime s).
Definition set_SatellitesSeen (v : Z) (s : t) : t :=
  mk (LastFixSinceMidnightUTC s) (Lat s) (Lng s) (Quality s) (HeightAboveEllipsoid s) (GeoidSep s) (Satellites s) (SatellitesTracked s) v (Accuracy s) (NACp s) (Alt s) (AccuracyVert s) (GPSVertVel s) (LastFixLocalTime s) (TrueCourse s) (GroundSpeed s) (LastGroundTrackTime s) (GPSTime s) (LastGPSTimeTime s) (LastValidNMEAMessageTime s) (LastValidNMEAMessage s) (Temp s) (Pressure_alt s) (LastTempPressTime s) (Pitch s) (Roll s) (Yaw s) (Gyro_heading s) (LastAttitudeTime s).
Definition set_Accuracy (v : float32) (s : t) : t :=
  mk (LastFixSinceMidnightUTC s) (Lat s) (Lng s) (Quality s) (HeightAboveEllipsoid s) (GeoidSep s) (Satellites s) (SatellitesTracked s) (SatellitesSeen s) v (NACp s) (Alt s) (AccuracyVert s) (GPSVertVel s) (LastFixLocalTime s) (TrueCourse s) (GroundSpeed s) (LastGroundTrackTime s) (GPSTime s) (LastGPSTimeTime s) (LastValidNMEAMessageTime s) (LastValidNMEAMessage s) (Temp s) (Pressure_alt s) (LastTempPressTime s) (Pitch s) (Roll s) (Yaw s) (Gyro_heading s) (LastAttitudeTime s).
Definition set_NACp (v : Z) (s : t) : t :=
  mk (LastFixSinceMidnightUTC s) (Lat s) (Lng s) (Quality s) (HeightAboveEllipsoid s) (GeoidSep s) (Satellites s) (SatellitesTracked s) (SatellitesSeen s) (Accuracy s) v (Alt s) (AccuracyVert s) (GPSVertVel s) (LastFixLocalTime s) (TrueCourse s) (GroundSpeed s) (LastGroundTrackTime s) (GPSTime s) (LastGPSTimeTime s) (LastValidNMEAMessageTime s) (LastValidNMEAMessage s) (Temp s) (Pressure_alt s) (LastTempPressTime s) (Pitch s) (Roll s) (Yaw s) (Gyro_heading s) (LastAttitudeTime s).
Definition set_Alt (v : float32) (s : t) : t :=
  mk (LastFixSinceMidnightUTC s) (Lat s) (Lng s) (Quality s) (HeightAboveEllipsoid s) (GeoidSep s) (Satellites s) (SatellitesTracked s) (SatellitesSeen s) (Accuracy s) (NACp s) v (AccuracyVert s) (GPSVertVel s) (LastFixLocalTime s) (TrueCourse s) (GroundSpeed s) (LastGroundTrackTime s) (GPSTime s) (LastGPSTimeTime s) (LastValidNMEAMessageTime s) (LastValidNMEAMessage s) (Temp s) (Pressure_alt s) (LastTempPressTime s) (Pitch s) (Roll s) (Yaw s) (Gyro_heading s) (LastAttitudeTime s).
Definition set_AccuracyVert (v : float32) (s : t) : t :=
  mk (LastFixSinceMidnightUTC s) (Lat s) (Lng s) (Quality s) (HeightAboveEllipsoid s) (GeoidSep s) (Satellites s) (SatellitesTracked s) (SatellitesSeen s) (Accuracy s) (NACp s) (Alt s) v (GPSVertVel s) (LastFixLocalTime s) (TrueCourse s) (GroundSpeed s) (LastGroundTrackTime s) (GPSTime s) (LastGPSTimeTime s) (LastValidNMEAMessageTime s) (LastValidNMEAMessage s) (Temp s) (Pressure_alt s) (LastTempPressTime s) (Pitch s) (Roll s) (Yaw s) (Gyro_heading s) (LastAttitudeTime s).
Definition set_GPSVertVel (v : float32) (s : t) : t :=
  mk (LastFixSinceMidnightUTC s) (Lat s) (Lng s) (Quality s) (HeightAboveEllipsoid s) (GeoidSep s) (Satellites s) (SatellitesTracked s) (SatellitesSeen s) (Accuracy s) (NACp s) (Alt s) (AccuracyVert s) v (LastFixLocalTime s) (TrueCourse s) (GroundSpeed s) (LastGroundTrackTime s) (GPSTime s) (LastGPSTimeTime s) (LastValidNMEAMessageTime s) (LastValidNMEAMessage s) (Temp s) (Pressure_alt s) (LastTempPressTime s) (Pitch s) (Roll s) (Yaw s) (Gyro_heading s) (LastAttitudeTime s).
Definition set_LastFixLocalTime (v : Time) (s : t) : t :=
  mk (LastFixSinceMidnightUTC s) (Lat s) (Lng s) (Quality s) (HeightAboveEllipsoid s) (GeoidSep s) (Satellites s) (SatellitesTracked s) (SatellitesSeen s) (Accuracy s) (NACp s) (Alt s) (AccuracyVert s) (GPSVertVel s) v (TrueCourse s) (GroundSpeed s) (LastGroundTrackTime s) (GPSTime s) (LastGPSTimeTime s) (LastValidNMEAMessageTime s) (LastValidNMEAMessage s) (Temp s) (Pressure_alt s) (LastTempPressTime s) (Pitch s) (Roll s) (Yaw s) (Gyro_heading s) (LastAttitudeTime s).
Definition set_TrueCourse (v : float32) (s : t) : t :=
  mk (LastFixSinceMidnightUTC s) (Lat s) (Lng s) (Quality s) (HeightAboveEllipsoid s) (GeoidSep s) (Satellites s) (SatellitesTracked s) (SatellitesSeen s) (Accuracy s) (NACp s) (Alt s) (AccuracyVert s) (GPSVertVel s) (LastFixLocalTime s) v (GroundSpeed s) (LastGroundTrackTime s) (GPSTime s) (LastGPSTimeTime s) (LastValidNMEAMessageTime s) (LastValidNMEAMessage s) (Temp s) (Pressure_alt s) (LastTempPressTime s) (Pitch s) (Roll s) (Yaw s) (Gyro_heading s) (LastAttitudeTime s).
Definition set_GroundSpeed (v : Z) (s : t) : t :=
  mk (LastFixSinceMidnightUTC s) (Lat s) (Lng s) (Quality s) (HeightAboveEllipsoid s) (GeoidSep s) (Satellites s) (SatellitesTracked s) (SatellitesSeen s) (Accuracy s) (NACp s) (Alt s) (AccuracyVert s) (GPSVertVel s) (LastFixLocalTime s) (TrueCourse s) v (LastGroundTrackTime s) (GPSTime s) (LastGPSTimeTime s) (LastValidNMEAMessageTime s) (LastValidNMEAMessage s) (Temp s) (Pressure_alt s) (LastTempPressTime s) (Pitch s) (Roll s) (Yaw s) (Gyro_heading s) (LastAttitudeTime s).
Definition set_LastGroundTrackTime (v : Time) (s : t) : t :=
  mk (LastFixSinceMidnightUTC s) (Lat s) (Lng s) (Quality s) (HeightAboveEllipsoid s) (GeoidSep s) (Satellites s) (SatellitesTracked s) (SatellitesSeen s) (Accuracy s) (NACp s) (Alt s) (AccuracyVert s) (GPSVertVel s) (LastFixLocalTime s) (TrueCourse s) (GroundSpeed s) v (GPSTime s) (LastGPSTimeTime s) (LastValidNMEAMessageTime s) (LastValidNMEAMessage s) (Temp s) (Pressure_alt s) (LastTempPressTime s) (Pitch s) (Roll s) (Yaw s) (Gyro_heading s) (LastAttitudeTime s).
Definition set_GPSTime (v : Time) (s : t) : t :=
  mk (LastFixSinceMidnightUTC s) (Lat s) (Lng s) (Quality s) (HeightAboveEllipsoid s) (GeoidSep s) (Satellites s) (SatellitesTracked s) (SatellitesSeen s) (Accuracy s) (NACp s) (Alt s) (AccuracyVert s) (GPSVertVel s) (LastFixLocalTime s) (TrueCourse s) (GroundSpeed s) (LastGroundTrackTime s) v (LastGPSTimeTime s) (LastValidNMEAMessageTime s) (LastValidNMEAMessage s) (Temp s) (Pressure_alt s) (LastTempPressTime s) (Pitch s) (Roll s) (Yaw s) (Gyro_heading s) (LastAttitudeTime s).
Definition set_LastGPSTimeTime (v : Time) (s : t) : t :=
  mk (LastFixSinceMidnightUTC s) (Lat s) (Lng s) (Quality s) (HeightAboveEllipsoid s) (GeoidSep s) (Satellites s) (SatellitesTracked s) (SatellitesSeen s) (Accuracy s) (NACp s) (Alt s) (AccuracyVert s) (GPSVertVel s) (LastFixLocalTime s) (TrueCourse s) (GroundSpeed s) (LastGroundTrackTime s) (GPSTime s) v (LastValidNMEAMessageTime s) (LastValidNMEAMessage s) (Temp s) (Pressure_alt s) (LastTempPressTime s) (Pitch s) (Roll s) (Yaw s) (Gyro_heading s) (LastAttitudeTime s).
Definition set_LastValidNMEAMessageTime (v : Time) (s : t) : t :=
  mk (LastFixSinceMidnightUTC s) (Lat s) (Lng s) (Quality s) (HeightAboveEllipsoid s) (GeoidSep s) (Satellites s) (SatellitesTracked s) (SatellitesSeen s) (Accuracy s) (NACp s) (Alt s) (AccuracyVert s) (GPSVertVel s) (LastFixLocalTime s) (TrueCourse s) (GroundSpeed s) (LastGroundTrackTime s) (GPSTime s) (LastGPSTimeTime s) v (LastValidNMEAMessage s) (Temp s) (Pressure_alt s) (LastTempPressTime s) (Pitch s) (Roll s) (Yaw s) (Gyro_heading s) (LastAttitudeTime s).
Definition set_LastValidNMEAMessage (v : string) (s : t) : t :=
  mk (LastFixSinceMidnightUTC s) (Lat s) (Lng s) (Quality s) (HeightAboveEllipsoid s) (GeoidSep s) (Satellites s) (SatellitesTracked s) (SatellitesSeen s) (Accuracy s) (NACp s) (Alt s) (AccuracyVert s) (GPSVertVel s) (LastFixLocalTime s) (TrueCourse s) (GroundSpeed s) (LastGroundTrackTime s) (GPSTime s) (LastGPSTimeTime s) (LastValidNMEAMessageTime s) v (Temp s) (Pressure_alt s) (LastTempPressTime s) (Pitch s) (Roll s) (Yaw s) (Gyro_heading s) (LastAttitudeTime s).

End SituationData.

(** ** Library calls taken as parameters

    The Go standard library and the host are not part of the program.  What
    the parser needs from them is gathered here:
    - [intSize]: the width of [int];
    - [ParseFloat s]: [strconv.ParseFloat(s, 32)], [None] for a non-nil error;
    - [Sprintf_gpsTime d hr min sec]:
      [fmt.Sprintf("%s %02d:%02d:%06.3f", d, hr, min, sec)];
    - [time_Parse s]: [time.Parse("020106 15:04:05.000", s)], [None] for a
      non-nil error;
    - [uint16_unrepresentable x]: the result of [uint16(x)] for a float whose
      integer part is no [uint16]; Go leaves it to the implementation;
    - [exec_date t now]: what the host's [time.Now()] reads once
      [exec.Command("date", "-s", <t formatted>).Run()] has been called with
      the host clock at [now]: [t] where the command sets the clock, [now]
      where it fails (the error is only logged). *)
Record GoRuntime := {
  intSize : IntSize;
  ParseFloat : string -> option float64;
  Sprintf_gpsTime : string -> Z -> Z -> float64 -> string;
  time_Parse : string -> option Time;
  uint16_unrepresentable : float64 -> Z;
  exec_date : Time -> Time -> Time
}.

(** [uint16(x)] for a [float64] [x]. *)
Definition uint16_of_float64 (rt : GoRuntime) (x : float64) : Z :=
  match float_trunc x with
  | Some z => if (0 <=? z) && (z <? 65536) then z
              else to_uint16 (uint16_unrepresentable rt x)
  | None => to_uint16 (uint16_unrepresentable rt x)
  end.

(** ** Decimal integers *)

Definition digit_value (c : ascii) : option Z :=
  let b := byte_of c in
  if (48 <=? b) && (b <=? 57) then Some (b - 48) else None.

Fixpoint parse_digits (s : string) (acc : Z) : option Z :=
  match s with
  | EmptyString => Some acc
  | String c r =>
      match digit_value c with
      | None => None
      | Some d => parse_digits r (acc * 10 + d)
      end
  end.

(** [strconv.Atoi(s)]: an optional sign and at least one decimal digit, the
    value within the range of [int]; [None] stands for a non-nil error. *)
Definition Atoi (isz : IntSize) (s : string) : option Z :=
  match s with
  | EmptyString => None
  | String c r =>
      let neg := Ascii.eqb c "-" in
      let body := if neg || Ascii.eqb c "+" then r else s in
      match body with
      | EmptyString => None
      | _ =>
          match parse_digits body 0 with
          | None => None
          | Some n =>
              let v := if neg then - n else n in
              if in_int_range isz v then Some v else None
          end
      end
  end.

(** [fmt.Sprintf("%d", n)] *)
Definition fmt_d (n : Z) : string := pretty n.

(** ** Program state

    The globals the functions read and write: [mySituation], the
    [Satellites] map, the current [stratuxClock.Time], the host's
    [time.Now()], [globalStatus.GPS_connected] and [globalSettings.DEBUG].
    Calls to the collaborators [logSituation], [setDataLogTimeWithGPS] and
    to the host's [date] command are recorded in [events], latest first;
    the [date] command also changes what [time_Now] reads afterwards.
    Log output is not modelled. *)

Inductive Event :=
  | EvLogSituation
  | EvSetDataLogTimeWithGPS
  | EvExecDate (gpsTime : Time).

Record World := mkWorld {
  mySituation : SituationData.t;
  Satellites : gmap string SatelliteInfo.t;
  stratuxClock : Time;
  time_Now : Time;
  GPS_connected : bool;
  DEBUG : bool;
  events : list Event
}.

Definition set_mySituation (v : SituationData.t) (w : World) : World :=
  mkWorld v (Satellites w) (stratuxClock w) (time_Now w) (GPS_connected w) (DEBUG w) (events w).
Definition set_Satellites (v : gmap string SatelliteInfo.t) (w : World) : World :=
  mkWorld (mySituation w) v (stratuxClock w) (time_Now w) (GPS_connected w) (DEBUG w) (events w).
Definition set_time_Now (v : Time) (w : World) : World :=
  mkWorld (mySituation w) (Satellites w) (stratuxClock w) v (GPS_connected w) (DEBUG w) (events w).
Definition emit (e : Event) (w : World) : World :=
  mkWorld (mySituation w) (Satellites w) (stratuxClock w) (time_Now w) (GPS_connected w) (DEBUG w)
          (e :: events w).

(** [initRY835AI] leaves [mySituation] at its zero value and makes the map. *)
Definition initWorld (clock now : Time) : World :=
  mkWorld SituationData.zero ∅ clock now false false [].

(** ** Constellation tracker *)

Definition Counters : Type := Z * Z * Z.

(** The body of the [range Satellites] loop of [updateConstellation]; the
    counters [sats], [tracked], [seen] are [uint8]. *)
Definition updateConstellation_body (now : Time) (svStr : string)
    (thisSatellite : SatelliteInfo.t)
    (acc : gmap string SatelliteInfo.t * Counters)
    : gmap string SatelliteInfo.t * Counters :=
  let '(m, (sats, tracked, seen)) := acc in
  if 10 * Second <? Since now (SatelliteInfo.TimeLastTracked thisSatellite) then
    (delete svStr m, (sats, tracked, seen))
  else
    let tracked := to_uint8 (tracked + 1) in
    let seen := if 0 <? SatelliteInfo.Signal thisSatellite
                then to_uint8 (seen + 1) else seen in
    let stale := 5 * Second <? Since now (SatelliteInfo.TimeLastSolution thisSatellite) in
    let thisSatellite :=
      if stale then SatelliteInfo.set_InSolution false thisSatellite else thisSatellite in
    let m := if stale then <[svStr := thisSatellite]> m else m in
    let sats := if SatelliteInfo.InSolution thisSatellite
                then to_uint8 (sats + 1) else sats in
    (m, (sats, tracked, seen)).

(** [updateConstellation]: every entry of the map is visited once; the
    entry under visit may be deleted or overwritten. *)
Definition updateConstellation (w : World) : World :=
  let '(m, (sats, tracked, seen)) :=
    map_fold (updateConstellation_body (stratuxClock w))
             (Satellites w, (0, 0, 0)) (Satellites w) in
  let s := mySituation w in
  let s := SituationData.set_Satellites (to_uint16 sats) s in
  let s := SituationData.set_SatellitesTracked (to_uint16 tracked) s in
  let s := SituationData.set_SatellitesSeen (to_uint16 seen) s in
  set_mySituation s (set_Satellites m w).

(** ** Validity predicates *)

Definition isGPSConnected (w : World) : bool :=
  Since (stratuxClock w) (SituationData.LastValidNMEAMessageTime (mySituation w))
    <? 5 * Second.

Definition isGPSValid (w : World) : bool * World :=
  if (Since (stratuxClock w) (SituationData.LastFixLocalTime (mySituation w))
        <? 15 * Second)
     && GPS_connected w
     && (0 <? SituationData.Quality (mySituation w))
  then (true, w)
  else
    let s := SituationData.set_Quality 0 (mySituation w) in
    let s := SituationData.set_Satellites 0 s in
    (false, set_mySituation s w).

Definition isGPSGroundTrackValid (w : World) : bool :=
  Since (stratuxClock w) (SituationData.LastGroundTrackTime (mySituation w))
    <? 15 * Second.


Definition isAHRSValid (w : World) : bool :=
  Since (stratuxClock w) (SituationData.LastAttitudeTime (mySituation w))
    <? 1 * Second.

Definition isTempPressValid (w : World) : bool :=
  Since (stratuxClock w) (SituationData.LastTempPressTime (mySituation w))
    <? 15 * Second.

(** ** Accuracy derivation *)

Definition calculateNACp (accuracy : float32) : Z :=
  if f32_ltb accuracy (f32_lit 3 0) then 11
  else if f32_ltb accuracy (f32_lit 10 0) then 10
  else if f32_ltb accuracy (f32_lit 30 0) then 9
  else if f32_ltb accuracy (f32_lit 926 1) then 8
  else if f32_ltb accuracy (f32_lit 1852 1) then 7
  else if f32_ltb accuracy (f32_lit 5556 1) then 6
  else 0.

(** ** Control flow of the parser

    A statement either falls through with a value, executes [return b], or
    panics at run time (index or slice out of range). *)

Inductive Res (A : Type) : Type :=
  | Val (a : A)
  | Ret (b : bool)
  | Panic.
Arguments Val {A} a.
Arguments Ret {A} b.
Arguments Panic {A}.

Definition M (A : Type) : Type := World -> Res A * World.

Definition pure {A} (a : A) : M A := fun w => (Val a, w).

Definition bind {A B} (m : M A) (k : A -> M B) : M B :=
  fun w =>
    match m w with
    | (Val a, w') => k a w'
    | (Ret b, w') => (Ret b, w')
    | (Panic, w') => (Panic, w')
    end.

Definition return_ {A} (b : bool) : M A := fun w => (Ret b, w).
Definition panic {A} : M A := fun w => (Panic, w).
Definition get : M World := fun w => (Val w, w).
Definition modify (f : World -> World) : M unit := fun w => (Val tt, f w).

Notation "'let*' x := m 'in' k" := (bind m (fun x => k))
  (at level 10, x name, m at level 100, k at level 200).
Notation "'run' m 'in' k" := (bind m (fun _ => k))
  (at level 10, m at level 100, k at level 200).

(** [x[i]] *)
Definition index (x : list string) (i : Z) : M string :=
  match (if 0 <=? i then x !! Z.to_nat i else None) with
  | Some s => pure s
  | None => panic
  end.

(** [s[lo:hi]] on a string and [x[lo:hi]] on a slice of strings *)
Definition slice (s : string) (lo hi : Z) : M string :=
  match str_slice s lo hi with
  | Some r => pure r
  | None => panic
  end.

Definition slice_list (x : list string) (lo hi : Z) : M (list string) :=
  if (0 <=? lo) && (lo <=? hi) && (hi <=? Z.of_nat (length x))
  then pure (take (Z.to_nat (hi - lo)) (drop (Z.to_nat lo) x))
  else panic.

(** [v, err := f(...); if err != nil { return false }] *)
Definition or_return_false {A} (o : option A) : M A :=
  match o with
  | Some a => pure a
  | None => return_ false
  end.

(** ** Satellite records *)

(** The lookup that opens every satellite update: the stored record, or a
    fresh one carrying identifier, NMEA number and family. *)
Definition lookup_or_create (m : gmap string SatelliteInfo.t)
    (svStr : string) (sv svType : Z) : SatelliteInfo.t :=
  match m !! svStr with
  | Some val => val
  | None =>
      SatelliteInfo.set_Type (to_uint8 svType)
        (SatelliteInfo.set_SatelliteNMEA (to_uint8 sv)
           (SatelliteInfo.set_SatelliteID svStr SatelliteInfo.zero))
  end.

(** [Satellites[thisSatellite.SatelliteID] = thisSatellite;
     updateConstellation()] *)
Definition store_satellite (thisSatellite : SatelliteInfo.t) : M unit :=
  modify (fun w =>
    updateConstellation
      (set_Satellites
         (<[SatelliteInfo.SatelliteID thisSatellite := thisSatellite]> (Satellites w)) w)).

(** Family and identifier of an NMEA satellite number, as the PUBX,03
    handler derives them; the third component is [sv] after the branch. *)
Definition classify_pubx03 (sv : Z) : Z * string * Z :=
  if sv <? 33 then (SAT_TYPE_GPS, "G" +:+ fmt_d sv, sv)
  else if sv <? 65 then (SAT_TYPE_SBAS, "S" +:+ fmt_d (sv + 87), sv)
  else if sv <? 97 then (SAT_TYPE_GLONASS, "R" +:+ fmt_d (sv - 64), sv)
  else if (120 <=? sv) && (sv <? 162) then (SAT_TYPE_SBAS, "S" +:+ fmt_d sv, sv - 87)
  else (SAT_TYPE_UNKNOWN, "U" +:+ fmt_d sv, sv).

(** The same for the GSA and GSV handlers, which have no PRN branch. *)
Definition classify_nmea (sv : Z) : Z * string :=
  if sv <? 33 then (SAT_TYPE_GPS, "G" +:+ fmt_d sv)
  else if sv <? 65 then (SAT_TYPE_SBAS, "S" +:+ fmt_d (sv + 87))
  else if sv <? 97 then (SAT_TYPE_GLONASS, "R" +:+ fmt_d (sv - 64))
  else (SAT_TYPE_UNKNOWN, "U" +:+ fmt_d sv).

(** *** PUBX,03 *)

(** The update of one satellite record by the PUBX,03 handler: [prev] is
    the record looked up or created, the four texts are the fields
    [x[6+6i]], [x[5+6i]], [x[7+6i]] and [x[4+6i]]. *)
Definition pubx03_record (isz : IntSize) (now : Time) (prev : SatelliteInfo.t)
    (elevTxt azTxt cnoTxt statusTxt : string) : SatelliteInfo.t :=
  let thisSatellite := SatelliteInfo.set_TimeLastTracked now prev in
  let elev := match Atoi isz elevTxt with Some v => v | None => -999 end in
  let thisSatellite := SatelliteInfo.set_Elevation (to_int16 elev) thisSatellite in
  let az := match Atoi isz azTxt with Some v => v | None => -999 end in
  let thisSatellite := SatelliteInfo.set_Azimuth (to_int16 az) thisSatellite in
  let cno := match Atoi isz cnoTxt with Some v => v | None => -99 end in
  let thisSatellite :=
    match Atoi isz cnoTxt with
    | None => thisSatellite
    | Some v => if 0 <? v then SatelliteInfo.set_TimeLastSeen now thisSatellite
                else thisSatellite
    end in
  let thisSatellite := SatelliteInfo.set_Signal (to_int8 cno) thisSatellite in
  if String.eqb statusTxt "U" then
    SatelliteInfo.set_TimeLastSolution now
      (SatelliteInfo.set_InSolution true thisSatellite)
  else if String.eqb statusTxt "e" then
    SatelliteInfo.set_InSolution false thisSatellite
  else
    SatelliteInfo.set_InSolution false thisSatellite.

(** One iteration of [for i := 0; i < satTracked; i++]. *)
Definition pubx03_satellite (isz : IntSize) (x : list string) (i : Z) : M unit :=
  let* svTxt := index x (3 + 6 * i) in
  let* sv := or_return_false (Atoi isz svTxt) in
  let '(svType, svStr, sv) := classify_pubx03 sv in
  let* w := get in
  let prev := lookup_or_create (Satellites w) svStr sv svType in
  let* elevTxt := index x (6 + 6 * i) in
  let* azTxt := index x (5 + 6 * i) in
  let* cnoTxt := index x (7 + 6 * i) in
  let* statusTxt := index x (4 + 6 * i) in
  store_satellite (pubx03_record isz (stratuxClock w) prev elevTxt azTxt cnoTxt statusTxt).

(** The loop, with [n] iterations left from index [i] on. *)
Fixpoint pubx03_loop (isz : IntSize) (x : list string) (n : nat) (i : Z) : M unit :=
  match n with
  | O => pure tt
  | S k => run pubx03_satellite isz x i in pubx03_loop isz x k (i + 1)
  end.

Definition handlePUBX03 (isz : IntSize) (x : list string) : M unit :=
  if Z.of_nat (length x) <? 3 then return_ false else
  let* x2 := index x 2 in
  let* satTracked := or_return_false (Atoi isz x2) in
  if Z.of_nat (length x) <? to_int isz (to_int isz (satTracked * 6) + 3)
  then return_ false else
  run modify (fun w =>
    set_mySituation
      (SituationData.set_SatellitesTracked (to_uint16 satTracked) (mySituation w)) w) in
  run pubx03_loop isz x (Z.to_nat satTracked) 0 in
  return_ true.

(** *** GSV *)

Definition gsv_record (isz : IntSize) (now : Time) (quality : Z)
    (prev : SatelliteInfo.t) (elevTxt azTxt cnoTxt : string) : SatelliteInfo.t :=
  let thisSatellite := SatelliteInfo.set_TimeLastTracked now prev in
  let elev := match Atoi isz elevTxt with Some v => v | None => -999 end in
  let thisSatellite := SatelliteInfo.set_Elevation (to_int16 elev) thisSatellite in
  let az := match Atoi isz azTxt with Some v => v | None => -999 end in
  let thisSatellite := SatelliteInfo.set_Azimuth (to_int16 az) thisSatellite in
  let cno := match Atoi isz cnoTxt with Some v => v | None => -99 end in
  let thisSatellite :=
    match Atoi isz cnoTxt with
    | None => SatelliteInfo.set_InSolution false thisSatellite
    | Some v => if 0 <? v then SatelliteInfo.set_TimeLastSeen now thisSatellite
                else thisSatellite
    end in
  let cno := if 127 <? cno then 127 else cno in
  let thisSatellite := SatelliteInfo.set_Signal (to_int8 cno) thisSatellite in
  if SatelliteInfo.Type_ thisSatellite =? SAT_TYPE_SBAS then
    if quality =? 2 then
      if 16 <? SatelliteInfo.Signal thisSatellite then
        SatelliteInfo.set_TimeLastSolution now
          (SatelliteInfo.set_InSolution true thisSatellite)
      else thisSatellite
    else SatelliteInfo.set_InSolution false thisSatellite
  else thisSatellite.

Definition gsv_satellite (isz : IntSize) (x : list string) (i : Z) : M unit :=
  let* svTxt := index x (4 + 4 * i) in
  let* sv := or_return_false (Atoi isz svTxt) in
  let '(svType, svStr) := classify_nmea sv in
  let* w := get in
  let prev := lookup_or_create (Satellites w) svStr sv svType in
  let* elevTxt := index x (5 + 4 * i) in
  let* azTxt := index x (6 + 4 * i) in
  let* cnoTxt := index x (7 + 4 * i) in
  store_satellite
    (gsv_record isz (stratuxClock w) (SituationData.Quality (mySituation w))
       prev elevTxt azTxt cnoTxt).

Fixpoint gsv_loop (isz : IntSize) (x : list string) (n : nat) (i : Z) : M unit :=
  match n with
  | O => pure tt
  | S k => run gsv_satellite isz x i in gsv_loop isz x k (i + 1)
  end.

Definition handleGSV (isz : IntSize) (x : list string) : M unit :=
  if Z.of_nat (length x) <? 4 then return_ false else
  let* x2 := index x 2 in
  let* msgNum := or_return_false (Atoi isz x2) in
  let* x2' := index x 2 in
  let* msgIndex := or_return_false (Atoi isz x2') in
  let lenGSV := Z.of_nat (length x) in
  let satsThisMsg := Z.quot (lenGSV - 4) 4 in
  run gsv_loop isz x (Z.to_nat satsThisMsg) 0 in
  return_ true.

(** *** GSA *)

(** Family, identifier, and whether the branch sets [svSBAS] or
    [svGLONASS]. *)
Definition classify_gsa (sv : Z) : Z * string * bool * bool :=
  if sv <? 33 then (SAT_TYPE_GPS, "G" +:+ fmt_d sv, false, false)
  else if sv <? 65 then (SAT_TYPE_SBAS, "S" +:+ fmt_d (sv + 87), true, false)
  else if sv <? 97 then (SAT_TYPE_GLONASS, "R" +:+ fmt_d (sv - 64), false, true)
  else (SAT_TYPE_UNKNOWN, "U" +:+ fmt_d sv, false, false).

Definition gsa_record (now : Time) (prev : SatelliteInfo.t) : SatelliteInfo.t :=
  SatelliteInfo.set_TimeLastTracked now
    (SatelliteInfo.set_TimeLastSeen now
       (SatelliteInfo.set_TimeLastSolution now
          (SatelliteInfo.set_InSolution true prev))).

(** [for _, svtxt := range x[3:15]], carrying [sat], [svSBAS] and
    [svGLONASS]. *)
Fixpoint gsa_loop (isz : IntSize) (ids : list string)
    (sat : Z) (svSBAS svGLONASS : bool) : M (Z * bool * bool) :=
  match ids with
  | [] => pure (sat, svSBAS, svGLONASS)
  | svtxt :: rest =>
      match Atoi isz svtxt with
      | None => gsa_loop isz rest sat svSBAS svGLONASS
      | Some sv =>
          let sat := sat + 1 in
          let '(svType, svStr, sbas, glonass) := classify_gsa sv in
          let svSBAS := svSBAS || sbas in
          let svGLONASS := svGLONASS || glonass in
          let* w := get in
          run store_satellite
                (gsa_record (stratuxClock w)
                   (lookup_or_create (Satellites w) svStr sv svType)) in
          gsa_loop isz rest sat svSBAS svGLONASS
      end
  end.

(** The step after the loop that updates [tmpSituation.Satellites]. *)
Definition gsa_count_update (tmpSituation : SituationData.t)
    (sat : Z) (svSBAS svGLONASS : bool) : SituationData.t :=
  if (sat <? 12) || (SituationData.Satellites tmpSituation <? 13) then
    let tmpSituation := SituationData.set_Satellites (to_uint16 sat) tmpSituation in
    if (SituationData.Quality tmpSituation =? 2) && negb svSBAS && negb svGLONASS
    then SituationData.set_Satellites
           (to_uint16 (SituationData.Satellites tmpSituation + 1)) tmpSituation
    else tmpSituation
  else tmpSituation.

(** [mySituation = tmpSituation; return true] *)
Definition commit (tmpSituation : SituationData.t) : M unit :=
  run modify (set_mySituation tmpSituation) in return_ true.

Definition handleGSA (rt : GoRuntime) (x : list string) : M unit :=
  let* w := get in
  let tmpSituation := mySituation w in
  if Z.of_nat (length x) <? 18 then return_ false else
  let* x2 := index x 2 in
  if String.eqb x2 "" || String.eqb x2 "1" then return_ false else
  let* ids := slice_list x 3 15 in
  let* r := gsa_loop (intSize rt) ids 0 false false in
  let '(sat, svSBAS, svGLONASS) := r in
  let tmpSituation := gsa_count_update tmpSituation sat svSBAS svGLONASS in
  let* x16 := index x 16 in
  let* hdop := or_return_false (ParseFloat rt x16) in
  let tmpSituation :=
    if SituationData.Quality tmpSituation =? 2
    then SituationData.set_Accuracy
           (float32_of_float64 (f64_mul hdop (f64_lit 4 0))) tmpSituation
    else SituationData.set_Accuracy
           (float32_of_float64 (f64_mul hdop (f64_lit 8 0))) tmpSituation in
  let tmpSituation :=
    SituationData.set_NACp (calculateNACp (SituationData.Accuracy tmpSituation))
      tmpSituation in
  let* x17 := index x 17 in
  let* vdop := or_return_false (ParseFloat rt x17) in
  let tmpSituation :=
    SituationData.set_AccuracyVert
      (float32_of_float64 (f64_mul vdop (f64_lit 5 0))) tmpSituation in
  commit tmpSituation.

(** *** Shared field decoders *)

(** [hr, err1 := strconv.Atoi(s[0:2]); min, err2 := strconv.Atoi(s[2:4]);
     sec, err3 := strconv.ParseFloat(s[4:], 32);
     if err1 != nil || err2 != nil || err3 != nil { return false }] *)
Definition parse_hms (rt : GoRuntime) (s : string) : M (Z * Z * float64) :=
  let* s_hr := slice s 0 2 in
  let* s_min := slice s 2 4 in
  let* s_sec := slice s 4 (len s) in
  match Atoi (intSize rt) s_hr, Atoi (intSize rt) s_min, ParseFloat rt s_sec with
  | Some hr, Some min, Some sec => pure (hr, min, sec)
  | _, _, _ => return_ false
  end.

(** [float32(3600*hr+60*min) + float32(sec)] *)
Definition seconds_since_midnight (rt : GoRuntime) (hr min : Z) (sec : float64)
    : float32 :=
  f32_add
    (float32_of_int
       (to_int (intSize rt)
          (to_int (intSize rt) (3600 * hr) + to_int (intSize rt) (60 * min))))
    (float32_of_float64 sec).

(** [hr, err1 = strconv.Atoi(s[0:k]); minf, err2 := strconv.ParseFloat(s[k:], 32);
     if err1 != nil || err2 != nil { return false }]
    followed by [float32(hr) + float32(minf/60.0)]. *)
Definition parse_deg_min (rt : GoRuntime) (s : string) (k : Z) : M float32 :=
  let* s_deg := slice s 0 k in
  let* s_min := slice s k (len s) in
  match Atoi (intSize rt) s_deg, ParseFloat rt s_min with
  | Some hr, Some minf =>
      pure (f32_add (float32_of_int hr)
              (float32_of_float64 (f64_div minf (f64_lit 60 0))))
  | _, _ => return_ false
  end.

(** The ground-track tail shared by PUBX,00, VTG and RMC:
    [if groundspeed > 3 { tmpSituation.TrueCourse = float32(tc) }]
    ([setTrueCourse] has an empty body). *)
Definition set_course (groundspeed tc : float64) (tmpSituation : SituationData.t)
    : SituationData.t :=
  if f64_ltb (f64_lit 3 0) groundspeed
  then SituationData.set_TrueCourse (float32_of_float64 tc) tmpSituation
  else tmpSituation.

(** [if time.Since(gpsTime) > 3*time.Second || time.Since(gpsTime) < -3*time.Second]
    the host's [date -s] is run, and the host clock is from then on what
    the host makes of it. *)
Definition sync_system_time (rt : GoRuntime) (gpsTime : Time) : M unit :=
  modify (fun w =>
    if (3 * Second <? time_Now w - gpsTime) || (time_Now w - gpsTime <? - 3 * Second)
    then emit (EvExecDate gpsTime)
              (set_time_Now (exec_date rt gpsTime (time_Now w)) w)
    else w).

(** *** PUBX,00 *)

Definition handlePUBX00 (rt : GoRuntime) (x : list string) : M unit :=
  if Z.of_nat (length x) <? 20 then return_ false else
  let* w := get in
  let tmpSituation := mySituation w in
  let* x8 := index x 8 in
  let* tmpSituation :=
    (if String.eqb x8 "D2" || String.eqb x8 "D3"
     then pure (SituationData.set_Quality 2 tmpSituation)
     else if String.eqb x8 "G2" || String.eqb x8 "G3"
     then pure (SituationData.set_Quality 1 tmpSituation)
     else if String.eqb x8 "DR" || String.eqb x8 "RK"
     then pure (SituationData.set_Quality 6 tmpSituation)
     else if String.eqb x8 "NF" then return_ false
     else return_ false) in
  let* x9 := index x 9 in
  let* hAcc := or_return_false (ParseFloat rt x9) in
  let tmpSituation :=
    SituationData.set_Accuracy
      (float32_of_float64 (f64_mul hAcc (f64_lit 2 0))) tmpSituation in
  let tmpSituation :=
    SituationData.set_NACp (calculateNACp (SituationData.Accuracy tmpSituation))
      tmpSituation in
  let* x10 := index x 10 in
  let* vAcc := or_return_false (ParseFloat rt x10) in
  let tmpSituation :=
    SituationData.set_AccuracyVert
      (float32_of_float64 (f64_mul vAcc (f64_lit 2 0))) tmpSituation in
  let* x2 := index x 2 in
  if len x2 <? 8 then return_ false else
  let* hms := parse_hms rt x2 in
  let '(hr, min, sec) := hms in
  let tmpSituation :=
    SituationData.set_LastFixSinceMidnightUTC
      (seconds_since_midnight rt hr min sec) tmpSituation in
  let* x3 := index x 3 in
  if len x3 <? 10 then return_ false else
  let* lat := parse_deg_min rt x3 2 in
  let tmpSituation := SituationData.set_Lat lat tmpSituation in
  let* x4 := index x 4 in
  let tmpSituation :=
    if String.eqb x4 "S"
    then SituationData.set_Lat (f32_neg (SituationData.Lat tmpSituation)) tmpSituation
    else tmpSituation in
  let* x5 := index x 5 in
  if len x5 <? 11 then return_ false else
  let* lng := parse_deg_min rt x5 3 in
  let tmpSituation := SituationData.set_Lng lng tmpSituation in
  let* x6 := index x 6 in
  let tmpSituation :=
    if String.eqb x6 "W"
    then SituationData.set_Lng (f32_neg (SituationData.Lng tmpSituation)) tmpSituation
    else tmpSituation in
  let* x7 := index x 7 in
  let* hae := or_return_false (ParseFloat rt x7) in
  let alt :=
    f32_sub (float32_of_float64 (f64_mul hae (f64_lit 328084 5)))
            (SituationData.GeoidSep tmpSituation) in
  let tmpSituation :=
    SituationData.set_HeightAboveEllipsoid
      (float32_of_float64 (f64_mul hae (f64_lit 328084 5))) tmpSituation in
  let tmpSituation := SituationData.set_Alt alt tmpSituation in
  let tmpSituation := SituationData.set_LastFixLocalTime (stratuxClock w) tmpSituation in
  let* x11 := index x 11 in
  let* groundspeed := or_return_false (ParseFloat rt x11) in
  let groundspeed := f64_mul groundspeed (f64_lit 540003 6) in
  let tmpSituation :=
    SituationData.set_GroundSpeed (uint16_of_float64 rt groundspeed) tmpSituation in
  let* x12 := index x 12 in
  let* tc := or_return_false (ParseFloat rt x12) in
  let tmpSituation := set_course groundspeed tc tmpSituation in
  let tmpSituation :=
    SituationData.set_LastGroundTrackTime (stratuxClock w) tmpSituation in
  let* x13 := index x 13 in
  let* vv := or_return_false (ParseFloat rt x13) in
  let tmpSituation :=
    SituationData.set_GPSVertVel
      (float32_of_float64 (f64_mul vv (f64_neg (f64_lit 328084 5)))) tmpSituation in
  let* x18 := index x 18 in
  let* sat := or_return_false (Atoi (intSize rt) x18) in
  let tmpSituation := SituationData.set_Satellites (to_uint16 sat) tmpSituation in
  commit tmpSituation.

(** *** PUBX,04 *)

(** Falls through (to the final [return false] of [processNMEALine]) when
    the date field is not six bytes long or [time.Parse] fails. *)
Definition handlePUBX04 (rt : GoRuntime) (x : list string) : M unit :=
  let* x5 := index x 5 in
  let* utcWeek := or_return_false (Atoi (intSize rt) x5) in
  if (utcWeek <? 1877) || (32767 <=? utcWeek) then return_ false else
  let* x2 := index x 2 in
  if len x2 <? 7 then return_ false else
  let* hms := parse_hms rt x2 in
  let '(hr, min, sec) := hms in
  let* x3 := index x 3 in
  if len x3 =? 6 then
    let gpsTimeStr := Sprintf_gpsTime rt x3 hr min sec in
    match time_Parse rt gpsTimeStr with
    | Some gpsTime =>
        run modify (fun w =>
          let s := mySituation w in
          let s := SituationData.set_LastGPSTimeTime (stratuxClock w) s in
          let s := SituationData.set_GPSTime gpsTime s in
          let s := SituationData.set_LastFixSinceMidnightUTC
                     (seconds_since_midnight rt hr min sec) s in
          set_mySituation s w) in
        run sync_system_time rt gpsTime in
        run modify (emit EvSetDataLogTimeWithGPS) in
        return_ true
    | None => pure tt
    end
  else pure tt.

(** *** VTG *)

Definition handleVTG (rt : GoRuntime) (x : list string) : M unit :=
  let* w := get in
  let tmpSituation := mySituation w in
  if Z.of_nat (length x) <? 9 then return_ false else
  let* x5 := index x 5 in
  let* groundspeed := or_return_false (ParseFloat rt x5) in
  let tmpSituation :=
    SituationData.set_GroundSpeed (uint16_of_float64 rt groundspeed) tmpSituation in
  let* x1 := index x 1 in
  let* tc := or_return_false (ParseFloat rt x1) in
  let tmpSituation := set_course groundspeed tc tmpSituation in
  let tmpSituation :=
    SituationData.set_LastGroundTrackTime (stratuxClock w) tmpSituation in
  commit tmpSituation.

(** *** GGA *)

Definition handleGGA (rt : GoRuntime) (x : list string) : M unit :=
  let* w := get in
  let tmpSituation := mySituation w in
  if Z.of_nat (length x) <? 15 then return_ false else
  let* x6 := index x 6 in
  let* q := or_return_false (Atoi (intSize rt) x6) in
  let tmpSituation := SituationData.set_Quality (to_uint8 q) tmpSituation in
  let* x1 := index x 1 in
  if len x1 <? 7 then return_ false else
  let* hms := parse_hms rt x1 in
  let '(hr, min, sec) := hms in
  let tmpSituation :=
    SituationData.set_LastFixSinceMidnightUTC
      (seconds_since_midnight rt hr min sec) tmpSituation in
  let* x2 := index x 2 in
  if len x2 <? 4 then return_ false else
  let* lat := parse_deg_min rt x2 2 in
  let tmpSituation := SituationData.set_Lat lat tmpSituation in
  let* x3 := index x 3 in
  let tmpSituation :=
    if String.eqb x3 "S"
    then SituationData.set_Lat (f32_neg (SituationData.Lat tmpSituation)) tmpSituation
    else tmpSituation in
  let* x4 := index x 4 in
  if len x4 <? 5 then return_ false else
  let* lng := parse_deg_min rt x4 3 in
  let tmpSituation := SituationData.set_Lng lng tmpSituation in
  let* x5 := index x 5 in
  let tmpSituation :=
    if String.eqb x5 "W"
    then SituationData.set_Lng (f32_neg (SituationData.Lng tmpSituation)) tmpSituation
    else tmpSituation in
  let* x9 := index x 9 in
  let* alt := or_return_false (ParseFloat rt x9) in
  let tmpSituation :=
    SituationData.set_Alt (float32_of_float64 (f64_mul alt (f64_lit 328084 5)))
      tmpSituation in
  let* x11 := index x 11 in
  let* geoidSep := or_return_false (ParseFloat rt x11) in
  let tmpSituation :=
    SituationData.set_GeoidSep
      (float32_of_float64 (f64_mul geoidSep (f64_lit 328084 5))) tmpSituation in
  let tmpSituation :=
    SituationData.set_HeightAboveEllipsoid
      (f32_add (SituationData.GeoidSep tmpSituation) (SituationData.Alt tmpSituation))
      tmpSituation in
  let tmpSituation := SituationData.set_LastFixLocalTime (stratuxClock w) tmpSituation in
  commit tmpSituation.

(** *** RMC *)

Definition handleRMC (rt : GoRuntime) (x : list string) : M unit :=
  let* w := get in
  let tmpSituation := mySituation w in
  if Z.of_nat (length x) <? 11 then return_ false else
  let* x2 := index x 2 in
  if negb (String.eqb x2 "A") then return_ false else
  let* x1 := index x 1 in
  if len x1 <? 7 then return_ false else
  let* hms := parse_hms rt x1 in
  let '(hr, min, sec) := hms in
  let tmpSituation :=
    SituationData.set_LastFixSinceMidnightUTC
      (seconds_since_midnight rt hr min sec) tmpSituation in
  let* x9 := index x 9 in
  let* tmpSituation :=
    (if len x9 =? 6 then
       let gpsTimeStr := Sprintf_gpsTime rt x9 hr min sec in
       match time_Parse rt gpsTimeStr with
       | Some gpsTime =>
           let tmpSituation :=
             SituationData.set_LastGPSTimeTime (stratuxClock w) tmpSituation in
           let tmpSituation := SituationData.set_GPSTime gpsTime tmpSituation in
           run sync_system_time rt gpsTime in
           pure tmpSituation
       | None => pure tmpSituation
       end
     else pure tmpSituation) in
  let* x3 := index x 3 in
  if len x3 <? 4 then return_ false else
  let* lat := parse_deg_min rt x3 2 in
  let tmpSituation := SituationData.set_Lat lat tmpSituation in
  let* x4 := index x 4 in
  let tmpSituation :=
    if String.eqb x4 "S"
    then SituationData.set_Lat (f32_neg (SituationData.Lat tmpSituation)) tmpSituation
    else tmpSituation in
  let* x5 := index x 5 in
  if len x5 <? 5 then return_ false else
  let* lng := parse_deg_min rt x5 3 in
  let tmpSituation := SituationData.set_Lng lng tmpSituation in
  let* x6 := index x 6 in
  let tmpSituation :=
    if String.eqb x6 "W"
    then SituationData.set_Lng (f32_neg (SituationData.Lng tmpSituation)) tmpSituation
    else tmpSituation in
  let tmpSituation := SituationData.set_LastFixLocalTime (stratuxClock w) tmpSituation in
  let* x7 := index x 7 in
  let* groundspeed := or_return_false (ParseFloat rt x7) in
  let tmpSituation :=
    SituationData.set_GroundSpeed (uint16_of_float64 rt groundspeed) tmpSituation in
  let* x8 := index x 8 in
  let* tc := or_return_false (ParseFloat rt x8) in
  let tmpSituation := set_course groundspeed tc tmpSituation in
  let tmpSituation :=
    SituationData.set_LastGroundTrackTime (stratuxClock w) tmpSituation in
  run modify (set_mySituation tmpSituation) in
  run modify (emit EvSetDataLogTimeWithGPS) in
  return_ true.

(** ** The sentence parser *)

(** The body of [processNMEALine] between the lock and the deferred
    function. *)
Definition processNMEALine_body (rt : GoRuntime) (l : string) : M unit :=
  let '(l_valid, validNMEAcs) := Codec.validateNMEAChecksum l in
  if negb validNMEAcs then return_ false else
  let x := Split1 l_valid "," in
  run modify (fun w =>
    let s := mySituation w in
    let s := SituationData.set_LastValidNMEAMessageTime (stratuxClock w) s in
    let s := SituationData.set_LastValidNMEAMessage l s in
    set_mySituation s w) in
  let* x0 := index x 0 in
  run (if String.eqb x0 "PUBX" then
         let* x1 := index x 1 in
         if String.eqb x1 "00" then handlePUBX00 rt x
         else if String.eqb x1 "03" then handlePUBX03 (intSize rt) x
         else if String.eqb x1 "04" then handlePUBX04 rt x
         else pure tt
       else if String.eqb x0 "GNVTG" || String.eqb x0 "GPVTG" then handleVTG rt x
       else if String.eqb x0 "GNGGA" || String.eqb x0 "GPGGA" then handleGGA rt x
       else if String.eqb x0 "GNRMC" || String.eqb x0 "GPRMC" then handleRMC rt x
       else if String.eqb x0 "GNGSA" || String.eqb x0 "GPGSA" then handleGSA rt x
       else pure tt) in
  if String.eqb x0 "GPGSV" || String.eqb x0 "GLGSV" then handleGSV (intSize rt) x
  else return_ false.

(** What a call of [processNMEALine] ends in: it returns [sentenceUsed], or
    a run-time panic unwinds it. *)
Inductive Outcome :=
  | Returned (sentenceUsed : bool)
  | Panicked.

(** [processNMEALine]: the body, then the deferred function, which calls
    [logSituation()] when [sentenceUsed || globalSettings.DEBUG]. *)
Definition processNMEALine (rt : GoRuntime) (l : string) (w : World)
    : Outcome * World :=
  let '(r, w') := processNMEALine_body rt l w in
  let out :=
    match r with
    | Ret b => Returned b
    | Val _ => Returned false
    | Panic => Panicked
    end in
  let sentenceUsed := match out with Returned b => b | Panicked => false end in
  (out, if sentenceUsed || DEBUG w' then emit EvLogSituation w' else w').

(** ** A runtime for running sentences

    [decimal_ParseFloat] is [strconv.ParseFloat(s, 32)] on plain decimal
    literals (an optional sign, digits, an optional point): the nearest
    [float32], widened to [float64], and a range error where the literal
    is beyond the [float32] range.  On every other input it reports an
    error, which the library does not always do; [decimal_runtime] is meant
    for running the sentences receivers emit, whose numbers have this form.
    It parses no dates ([time_Parse] always reports an error), and its host
    sets the clock when asked to. *)

Fixpoint count_digits (s : string) (acc : Z) (digits : Z) : option (Z * Z * string) :=
  match s with
  | EmptyString => Some (acc, digits, EmptyString)
  | String c r =>
      match digit_value c with
      | Some d => count_digits r (acc * 10 + d) (digits + 1)
      | None => Some (acc, digits, s)
      end
  end.

(** [float64(x)] for a [float32] [x]: exact. *)
Definition float64_of_float32 (x : float32) : float64 :=
  match x with
  | S754_finite s m e => binary_round 53 1024 s m e
  | _ => x
  end.

Definition decimal_ParseFloat (s : string) : option float64 :=
  let '(neg, body) :=
    match s with
    | String c r =>
        if Ascii.eqb c "-" then (true, r)
        else if Ascii.eqb c "+" then (false, r) else (false, s)
    | EmptyString => (false, s)
    end in
  match count_digits body 0 0 with
  | Some (ip, n1, rest) =>
      let frac :=
        match rest with
        | EmptyString => Some (ip, 0, EmptyString)
        | String c r =>
            if Ascii.eqb c "." then count_digits r ip 0 else None
        end in
      match frac with
      | Some (m, n2, EmptyString) =>
          if n1 + n2 =? 0 then None
          else
            match m with
            | Z.pos p =>
                match decimal_literal 24 128 p n2 with
                | S754_infinity _ => None
                | x =>
                    let v := float64_of_float32 x in
                    Some (if neg then f64_neg v else v)
                end
            | _ => Some (S754_zero neg)
            end
      | _ => None
      end
  | None => None
  end.

Definition decimal_runtime (isz : IntSize) : GoRuntime :=
  {| intSize := isz;
     ParseFloat := decimal_ParseFloat;
     Sprintf_gpsTime := fun d _ _ _ => d;
     time_Parse := fun _ => None;
     uint16_unrepresentable := fun _ => 0;
     exec_date := fun t _ => t |}.

(** ** Specification-side definitions

    These follow the words of the specification, to be compared with the
    code above. *)

(** "Checksum is Fletcher-8: [ck_a += b; ck_b += ck_a] for each byte, both
    8-bit wrapping". *)
Definition fletcher8 (bs : list Z) : Z * Z :=
  fold_left (fun '(ck_a, ck_b) b =>
               let ck_a := (ck_a + b) mod 256 in
               (ck_a, (ck_b + ck_a) mod 256))
            bs (0, 0).

(** The bytes of a frame from the class byte through the last payload
    byte, and its two trailing checksum bytes. *)
Definition unframe (frame : list Z) : list Z :=
  take (length frame - 4) (drop 2 frame).

Definition checksum_bytes (frame : list Z) : Z * Z :=
  (nth (length frame - 2) frame 0, nth (length frame - 1) frame 0).

(** An ASCII payload: every byte below 128. *)
Fixpoint is_ascii (s : string) : bool :=
  match s with
  | EmptyString => true
  | String c r => (byte_of c <? 128) && is_ascii r
  end.

(** What constellation maintenance does to one record at clock value
    [now]: dropped when last tracked more than 10 s ago, otherwise kept,
    with [InSolution] cleared when the last solution is more than 5 s old. *)
Definition maintained (now : Time) (s : SatelliteInfo.t) : option SatelliteInfo.t :=
  if 10 * Second <? Since now (SatelliteInfo.TimeLastTracked s) then None
  else Some (if 5 * Second <? Since now (SatelliteInfo.TimeLastSolution s)
             then SatelliteInfo.set_InSolution false s else s).

(** The number of entries of a map whose record satisfies [p]. *)
Definition count_where (p : SatelliteInfo.t -> bool)
    (m : gmap string SatelliteInfo.t) : Z :=
  Z.of_nat (size (filter (fun kv : string * SatelliteInfo.t => p kv.2 = true) m)).

Definition has_signal (s : SatelliteInfo.t) : bool := 0 <? SatelliteInfo.Signal s.

(** A constellation of [n] records [U200], [U201], ... all tracked at
    instant 0, and a world holding it at clock value 0. *)
Definition crowd (n : nat) : gmap string SatelliteInfo.t :=
  list_to_map
    (map (fun k : nat =>
            let svStr := "U" +:+ fmt_d (200 + Z.of_nat k) in
            (svStr, lookup_or_create ∅ svStr (200 + Z.of_nat k) SAT_TYPE_UNKNOWN))
         (seq 0 n)).

Definition crowded_world (n : nat) : World :=
  set_Satellites (crowd n) (initWorld 0 0).

(** The real value of a finite [float32], as a rational: every finite
    [float32] is an integer multiple of [2^-149]; [f32_scaled] is that
    integer. *)
Definition f32_scaled (x : float32) : Z :=
  match x with
  | S754_finite s m e => cond_Zopp s (Z.pos m * 2 ^ (e + 149))
  | _ => 0
  end.

Definition f32_toQ (x : float32) : Q := Qmake (f32_scaled x) (2 ^ 149).

Definition f_finite (x : spec_float) : bool :=
  match x with
  | S754_zero _ | S754_finite _ _ _ => true
  | _ => false
  end.

(** The satellite numbers present in fields 3-14 of a GSA sentence [x]:
    those of the twelve fields that parse as integers. *)
Definition gsa_ids (isz : IntSize) (x : list string) : list Z :=
  omap (Atoi isz) (take 12 (drop 3 x)).

(** NMEA numbers the handlers file under SBAS (33-64) and GLONASS (65-96). *)
Definition is_sbas_id (sv : Z) : bool := (33 <=? sv) && (sv <? 65).
Definition is_glonass_id (sv : Z) : bool := (65 <=? sv) && (sv <? 97).

(** A world with a differential fix (quality 2) and no satellites yet. *)
Definition dgps_world : World :=
  set_mySituation (SituationData.set_Quality 2 SituationData.zero)
                  (initWorld (60 * Second) 0).

(** A PUBX,03 sentence announcing [n] satellites numbered 200, 201, ...,
    with its checksum. *)
Definition crowded_sentence (n : nat) : string :=
  let payload :=
    "PUBX,03," +:+ fmt_d (Z.of_nat n) +:+
    String.concat ""
      (map (fun k : nat => "," +:+ fmt_d (200 + Z.of_nat k) +:+ ",-,,,,") (seq 0 n)) in
  "$" +:+ payload +:+ "*" +:+ fmt_02x (xor_checksum payload).

(** A statement is transactional when, unless it returns true, it leaves
    [mySituation] and the [Satellites] map as they were. *)
Definition transactional {A} (m : M A) : Prop :=
  forall w r w', m w = (r, w') ->
    r = Ret true \/ (mySituation w' = mySituation w /\ Satellites w' = Satellites w).

(** The sentences for which [processNMEALine] runs no satellite loop: all
    but PUBX,03, GSA and GSV. *)
Definition no_satellite_loop (x : list string) : bool :=
  match x with
  | x0 :: rest =>
      negb (String.eqb x0 "GNGSA" || String.eqb x0 "GPGSA"
            || String.eqb x0 "GPGSV" || String.eqb x0 "GLGSV")
      && negb (String.eqb x0 "PUBX"
               && match rest with x1 :: _ => String.eqb x1 "03" | [] => false end)
  | [] => true
  end.

(** * Further properties: definitions *)

(** ** Reasoning about statements

    [wp m Q w]: run from world [w], the statement [m] ends in a way [r]
    (falling through, returning, or panicking) and in a world [w'] with
    [Q r w']. *)
Definition wp {A} (m : M A) (Q : Res A -> World -> Prop) (w : World) : Prop :=
  Q (m w).1 (m w).2.

(** ** What a sentence may change

    The parts of the situation record that belong to the attitude and
    pressure sensors, and the two liveness fields. *)
Definition attitude_part (s : SituationData.t)
    : float64 * float64 * Time * float64 * float64 * float64 * float64 * Time :=
  (SituationData.Temp s, SituationData.Pressure_alt s,
   SituationData.LastTempPressTime s, SituationData.Pitch s,
   SituationData.Roll s, SituationData.Yaw s, SituationData.Gyro_heading s,
   SituationData.LastAttitudeTime s).

Definition liveness_part (s : SituationData.t) : Time * string :=
  (SituationData.LastValidNMEAMessageTime s, SituationData.LastValidNMEAMessage s).

(** The clock and the flags are as in [w0], and the event log has only
    grown.  (The host time is not part of it: a sentence that carries a
    date can have the host clock set.) *)
Definition frame_kept (w0 w : World) : Prop :=
  stratuxClock w = stratuxClock w0
  /\ GPS_connected w = GPS_connected w0
  /\ DEBUG w = DEBUG w0
  /\ exists new, events w = (new ++ events w0)%list.

(** The situation record [s] against an earlier one [s0], at clock value
    [c]: sensor and liveness fields equal, each GPS time stamp either the
    earlier one or [c], and [NACp] derived from [Accuracy] if it was. *)
Definition situation_step (c : Time) (s0 s : SituationData.t) : Prop :=
  attitude_part s = attitude_part s0
  /\ liveness_part s = liveness_part s0
  /\ (SituationData.LastFixLocalTime s = SituationData.LastFixLocalTime s0
      \/ SituationData.LastFixLocalTime s = c)
  /\ (SituationData.LastGroundTrackTime s = SituationData.LastGroundTrackTime s0
      \/ SituationData.LastGroundTrackTime s = c)
  /\ (SituationData.LastGPSTimeTime s = SituationData.LastGPSTimeTime s0
      \/ SituationData.LastGPSTimeTime s = c)
  /\ (SituationData.NACp s0 = calculateNACp (SituationData.Accuracy s0) ->
      SituationData.NACp s = calculateNACp (SituationData.Accuracy s)).

(** Every record is stored under its own identifier. *)
Definition well_filed (m : gmap string SatelliteInfo.t) : Prop :=
  forall k s, m !! k = Some s -> SatelliteInfo.SatelliteID s = k.

(** The map [m] against an earlier one [m0], at clock value [c]: a record
    is either stamped [c] as last tracked, or is the earlier record under
    that identifier up to [InSolution]. *)
Definition constellation_step (c : Time) (m0 m : gmap string SatelliteInfo.t) : Prop :=
  (forall k s', m !! k = Some s' ->
     SatelliteInfo.TimeLastTracked s' = c
     \/ exists s, m0 !! k = Some s
                  /\ s' = SatelliteInfo.set_InSolution (SatelliteInfo.InSolution s') s)
  /\ (well_filed m0 -> well_filed m).

Definition sentence_step (w0 w : World) : Prop :=
  frame_kept w0 w
  /\ situation_step (stratuxClock w0) (mySituation w0) (mySituation w)
  /\ constellation_step (stratuxClock w0) (Satellites w0) (Satellites w).

(** The three counters agree, modulo 256, with the map. *)
Definition counters_agree (w : World) : Prop :=
  SituationData.Satellites (mySituation w)
    = count_where SatelliteInfo.InSolution (Satellites w) mod 256
  /\ SituationData.SatellitesTracked (mySituation w)
    = Z.of_nat (size (Satellites w)) mod 256
  /\ SituationData.SatellitesSeen (mySituation w)
    = count_where has_signal (Satellites w) mod 256.

(** The map holds, under [k], a record of that identifier last tracked at
    [c]; and one that is moreover in solution since [c]. *)
Definition tracked_now (c : Time) (m : gmap string SatelliteInfo.t) (k : string)
    : Prop :=
  exists r, m !! k = Some r
            /\ SatelliteInfo.SatelliteID r = k
            /\ SatelliteInfo.TimeLastTracked r = c.

Definition in_solution_now (c : Time) (m : gmap string SatelliteInfo.t) (k : string)
    : Prop :=
  exists r, m !! k = Some r
            /\ SatelliteInfo.TimeLastTracked r = c
            /\ SatelliteInfo.TimeLastSolution r = c
            /\ SatelliteInfo.InSolution r = true.

(** The world after [Satellites[r.SatelliteID] = r; updateConstellation()]. *)
Definition stored (r : SatelliteInfo.t) (w : World) : World :=
  updateConstellation
    (set_Satellites (<[SatelliteInfo.SatelliteID r := r]> (Satellites w)) w).

(** The world after [processNMEALine] has written the two liveness fields
    for a line [l] with a valid checksum. *)
Definition stamp (l : string) (w : World) : World :=
  set_mySituation
    (SituationData.set_LastValidNMEAMessage l
       (SituationData.set_LastValidNMEAMessageTime (stratuxClock w) (mySituation w)))
    w.

(** When an out-of-range access can happen in [processNMEALine]: the
    fields [x] of the sentence start with ["PUBX"] and either there is no
    further field, or the sentence is a PUBX,04 with fewer than six fields,
    or a PUBX,03 whose satellite count [n] makes [n*6+3] overflow [int]. *)
Definition may_panic (isz : IntSize) (x : list string) : Prop :=
  x !! 0%nat = Some "PUBX"
  /\ (length x = 1%nat
      \/ (x !! 1%nat = Some "04" /\ Z.of_nat (length x) < 6)
      \/ (x !! 1%nat = Some "03"
          /\ exists t n, x !! 2%nat = Some t /\ Atoi isz t = Some n
                         /\ 0 < n /\ 2 ^ (int_bits isz - 1) <= 6 * n + 3)).

(** A runtime like [decimal_runtime] whose [time.Parse] takes every string
    for the instant [t]; it serves to run the handlers that set the clock. *)
Definition fixed_time_runtime (isz : IntSize) (t : Time) : GoRuntime :=
  {| intSize := isz;
     ParseFloat := decimal_ParseFloat;
     Sprintf_gpsTime := fun d _ _ _ => d;
     time_Parse := fun _ => Some t;
     uint16_unrepresentable := fun _ => 0;
     exec_date := fun t _ => t |}.

(** Of the situation record only the three satellite counters differ
    between [w] and [w'], and the event log is the same. *)
Definition counters_only (w w' : World) : Prop :=
  mySituation w' =
    SituationData.set_SatellitesSeen (SituationData.SatellitesSeen (mySituation w'))
      (SituationData.set_SatellitesTracked
         (SituationData.SatellitesTracked (mySituation w'))
         (SituationData.set_Satellites (SituationData.Satellites (mySituation w'))
            (mySituation w)))
  /\ events w' = events w.

(** ** Attitude report *)

(** [int16(x)] for a [float64] [x]: the integer part when it is an
    [int16]; otherwise Go leaves the result to the implementation, and
    [unrep] stands for it. *)
Definition int16_of_float64 (unrep : float64 -> Z) (x : float64) : Z :=
  match float_trunc x with
  | Some z => if (-32768 <=? z) && (z <? 32768) then z else to_int16 (unrep x)
  | None => to_int16 (unrep x)
  end.

(** [byte((v >> 8) & 0xFF)] and [byte(v & 0xFF)] *)
Definition hi_byte (v : Z) : Z := to_uint8 (Z.land (Z.shiftr v 8) 0xFF).
Definition lo_byte (v : Z) : Z := to_uint8 (Z.land v 0xFF).

(** [makeAHRSGDL90Report]: the sixteen bytes it hands to [prepareMessage]
    and [sendMsg], which belong to the network code. *)
Definition makeAHRSGDL90Report (rt : GoRuntime) (unrep : float64 -> Z)
    (s : SituationData.t) : list Z :=
  let msg := replicate 16 0 in
  let msg := <[0%nat := 0x4c]> msg in
  let msg := <[1%nat := 0x45]> msg in
  let msg := <[2%nat := 0x01]> msg in
  let msg := <[3%nat := 0x00]> msg in
  let pitch := int16_of_float64 unrep (f64_mul (SituationData.Pitch s) (f64_lit 10 0)) in
  let roll := int16_of_float64 unrep (f64_mul (SituationData.Roll s) (f64_lit 10 0)) in
  let hdg := uint16_of_float64 rt (f64_mul (SituationData.Gyro_heading s) (f64_lit 10 0)) in
  let slip_skid := int16_of_float64 unrep (f64_mul f_zero (f64_lit 10 0)) in
  let yaw_rate := int16_of_float64 unrep (f64_mul f_zero (f64_lit 10 0)) in
  let g := int16_of_float64 unrep (f64_mul (f64_lit 1 0) (f64_lit 10 0)) in
  let msg := <[4%nat := hi_byte roll]> msg in
  let msg := <[5%nat := lo_byte roll]> msg in
  let msg := <[6%nat := hi_byte pitch]> msg in
  let msg := <[7%nat := lo_byte pitch]> msg in
  let msg := <[8%nat := hi_byte hdg]> msg in
  let msg := <[9%nat := lo_byte hdg]> msg in
  let msg := <[10%nat := hi_byte slip_skid]> msg in
  let msg := <[11%nat := lo_byte slip_skid]> msg in
  let msg := <[12%nat := hi_byte yaw_rate]> msg in
  let msg := <[13%nat := lo_byte yaw_rate]> msg in
  let msg := <[14%nat := hi_byte g]> msg in
  let msg := <[15%nat := lo_byte g]> msg in
  msg.

(** ** Serial port set-up

    [initGPSSerial] talks to the host through [os.Stat], the serial
    library and [time.Sleep].  Its calls are recorded as a list of actions,
    in order; a port is named by the number of the [serial.OpenPort] call
    that returned it, counted from 0.  [OpenPort] carries the [Name], [Baud]
    and [ReadTimeout] of the configuration.  Log output is not modelled. *)

Definition Millisecond : Duration := 1000000.

Module Serial.

Inductive Action :=
  | OpenPort (name : string) (baud : Z) (readTimeout : Duration)
  | Write (port : nat) (data : list Z)
  | Close (port : nat)
  | Sleep (d : Duration).

(** What the host answers: whether [os.Stat] on a path returns no error,
    and whether the [n]-th call of [serial.OpenPort] returns no error. *)
Record Host := {
  Stat_ok : string -> bool;
  OpenPort_ok : nat -> bool
}.

End Serial.

(** The frames of the u-blox branch, in the order they are written. *)
Definition ubx_nav : list Z :=
  let nav := replicate 36 0 in
  let nav := <[0%nat := 0x05]> nav in
  let nav := <[1%nat := 0x00]> nav in
  let nav := <[2%nat := 0x07]> nav in
  let nav := <[3%nat := 0x02]> nav in
  nav.

Definition ubx_cfgGnss : list Z :=
  let cfgGnss := [0x00; 0x20; 0x20; 0x05] in
  let gps := [0x00; 0x08; 0x10; 0x00; 0x01; 0x00; 0x01; 0x01] in
  let sbas := [0x01; 0x02; 0x03; 0x00; 0x01; 0x00; 0x01; 0x01] in
  let beidou := [0x03; 0x00; 0x10; 0x00; 0x00; 0x00; 0x01; 0x01] in
  let qzss := [0x05; 0x00; 0x03; 0x00; 0x00; 0x00; 0x01; 0x01] in
  let glonass := [0x06; 0x08; 0x0E; 0x00; 0x01; 0x00; 0x01; 0x01] in
  let cfgGnss := (cfgGnss ++ gps)%list in
  let cfgGnss := (cfgGnss ++ sbas)%list in
  let cfgGnss := (cfgGnss ++ beidou)%list in
  let cfgGnss := (cfgGnss ++ qzss)%list in
  let cfgGnss := (cfgGnss ++ glonass)%list in
  cfgGnss.

Definition ubx_cfg : list Z :=
  let cfg := replicate 20 0 in
  let cfg := <[0%nat := 0x01]> cfg in
  let cfg := <[1%nat := 0x00]> cfg in
  let cfg := <[2%nat := 0x00]> cfg in
  let cfg := <[3%nat := 0x00]> cfg in
  let cfg := <[4%nat := 0xC0]> cfg in
  let cfg := <[5%nat := 0x08]> cfg in
  let cfg := <[6%nat := 0x00]> cfg in
  let cfg := <[7%nat := 0x00]> cfg in
  let bdrt := 38400 in
  let cfg := <[11%nat := to_uint8 (Z.land (Z.shiftr bdrt 24) 0xFF)]> cfg in
  let cfg := <[10%nat := to_uint8 (Z.land (Z.shiftr bdrt 16) 0xFF)]> cfg in
  let cfg := <[9%nat := to_uint8 (Z.land (Z.shiftr bdrt 8) 0xFF)]> cfg in
  let cfg := <[8%nat := to_uint8 (Z.land bdrt 0xFF)]> cfg in
  let cfg := <[12%nat := 0x03]> cfg in
  let cfg := <[13%nat := 0x00]> cfg in
  let cfg := <[14%nat := 0x02]> cfg in
  let cfg := <[15%nat := 0x00]> cfg in
  let cfg := <[16%nat := 0x00]> cfg in
  let cfg := <[17%nat := 0x00]> cfg in
  let cfg := <[18%nat := 0x00]> cfg in
  let cfg := <[19%nat := 0x00]> cfg in
  cfg.

Definition ubx_writes : list (list Z) :=
  [ Codec.makeUBXCFG 0x06 0x08 6 [0xc8; 0x00; 0x01; 0x00; 0x01; 0x00];
    Codec.makeUBXCFG 0x06 0x24 36 ubx_nav;
    Codec.makeUBXCFG 0x06 0x3E (to_uint16 (Z.of_nat (length ubx_cfgGnss))) ubx_cfgGnss;
    Codec.makeUBXCFG 0x06 0x16 8 [0x01; 0x07; 0x03; 0x00; 0x00; 0x00; 0x00; 0x00];
    Codec.makeUBXCFG 0x06 0x01 8 [0xF0; 0x00; 0x00; 0x05; 0x00; 0x05; 0x00; 0x01];
    Codec.makeUBXCFG 0x06 0x01 8 [0xF0; 0x01; 0x00; 0x00; 0x00; 0x00; 0x00; 0x01];
    Codec.makeUBXCFG 0x06 0x01 8 [0xF0; 0x02; 0x00; 0x00; 0x00; 0x00; 0x00; 0x01];
    Codec.makeUBXCFG 0x06 0x01 8 [0xF0; 0x03; 0x00; 0x00; 0x00; 0x00; 0x00; 0x01];
    Codec.makeUBXCFG 0x06 0x01 8 [0xF0; 0x04; 0x00; 0x00; 0x00; 0x00; 0x00; 0x01];
    Codec.makeUBXCFG 0x06 0x01 8 [0xF0; 0x05; 0x00; 0x00; 0x00; 0x00; 0x00; 0x01];
    Codec.makeUBXCFG 0x06 0x01 8 [0xF0; 0x06; 0x00; 0x00; 0x00; 0x00; 0x00; 0x00];
    Codec.makeUBXCFG 0x06 0x01 8 [0xF0; 0x07; 0x00; 0x00; 0x00; 0x00; 0x00; 0x00];
    Codec.makeUBXCFG 0x06 0x01 8 [0xF0; 0x08; 0x00; 0x00; 0x00; 0x00; 0x00; 0x00];
    Codec.makeUBXCFG 0x06 0x01 8 [0xF0; 0x09; 0x00; 0x00; 0x00; 0x00; 0x00; 0x00];
    Codec.makeUBXCFG 0x06 0x01 8 [0xF0; 0x0A; 0x00; 0x00; 0x00; 0x00; 0x00; 0x00];
    Codec.makeUBXCFG 0x06 0x01 8 [0xF0; 0x0D; 0x00; 0x00; 0x00; 0x00; 0x00; 0x00];
    Codec.makeUBXCFG 0x06 0x01 8 [0xF0; 0x0E; 0x00; 0x00; 0x00; 0x00; 0x00; 0x00];
    Codec.makeUBXCFG 0x06 0x01 8 [0xF0; 0x0F; 0x00; 0x00; 0x00; 0x00; 0x00; 0x00];
    Codec.makeUBXCFG 0x06 0x01 8 [0xF1; 0x00; 0x01; 0x01; 0x01; 0x01; 0x01; 0x00];
    Codec.makeUBXCFG 0x06 0x01 8 [0xF1; 0x03; 0x05; 0x05; 0x05; 0x05; 0x05; 0x00];
    Codec.makeUBXCFG 0x06 0x01 8 [0xF1; 0x04; 0x0A; 0x0A; 0x0A; 0x0A; 0x0A; 0x00];
    Codec.makeUBXCFG 0x06 0x00 20 ubx_cfg ].

(** The commands of the SiRF branch written after the port is re-opened. *)
Definition sirf_writes : list (list Z) :=
  [ bytes (Codec.makeNMEACmd "PSRF103,00,6,00,0");
    bytes (Codec.makeNMEACmd "PSRF103,00,00,01,01");
    bytes (Codec.makeNMEACmd "PSRF103,02,00,01,01");
    bytes (Codec.makeNMEACmd "PSRF103,04,00,01,01");
    bytes (Codec.makeNMEACmd "PSRF103,05,00,01,01");
    bytes (Codec.makeNMEACmd "PSRF103,03,00,05,01") ].

(** [initGPSSerial]: the value returned, the port assigned to
    [serialPort] if any, and the actions. *)
Definition initGPSSerial (h : Serial.Host)
    : bool * option nat * list Serial.Action :=
  let found :=
    if Serial.Stat_ok h "/dev/vk172" then Some ("/dev/vk172", 9600, false)
    else if Serial.Stat_ok h "/dev/vk162" then Some ("/dev/vk162", 9600, false)
    else if Serial.Stat_ok h "/dev/prolific0" then Some ("/dev/prolific0", 4800, true)
    else if Serial.Stat_ok h "/dev/ttyAMA0" then Some ("/dev/ttyAMA0", 9600, false)
    else None in
  match found with
  | None => (false, None, [])
  | Some (device, baudrate, isSirfIV) =>
      let t := [Serial.OpenPort device baudrate 0] in
      if negb (Serial.OpenPort_ok h 0) then (false, None, t) else
      let '(t, p, opened) :=
        if isSirfIV : bool then
          ((t ++ [Serial.Write 0 (bytes (Codec.makeNMEACmd "PSRF100,1,38400,8,1,0"));
                  Serial.Close 0;
                  Serial.Sleep (250 * Millisecond);
                  Serial.OpenPort device 38400 0]
              ++ map (Serial.Write 1) sirf_writes)%list, 1%nat, 2%nat)
        else ((t ++ map (Serial.Write 0) ubx_writes)%list, 0%nat, 1%nat) in
      let t := (t ++ [Serial.Close p;
                      Serial.Sleep (250 * Millisecond);
                      Serial.OpenPort device 38400 (2500 * Millisecond)])%list in
      if negb (Serial.OpenPort_ok h opened) then (false, None, t)
      else (true, Some opened, t)
  end.

(** Checkers for what is written: a frame that [makeUBXCFG] builds from
    its own class, id and payload with the payload's length as length
    argument; the bytes of a command that [makeNMEACmd] builds from a
    payload without ['*']. *)
Fixpoint list_Z_eqb (a b : list Z) : bool :=
  match a, b with
  | [], [] => true
  | x :: a', y :: b' => (x =? y) && list_Z_eqb a' b'
  | _, _ => false
  end.

Definition string_of_bytes (bs : list Z) : string :=
  string_of_list_ascii (map ascii_of_byte bs).

Definition ubx_payload (data : list Z) : list Z :=
  take (length data - 8) (drop 6 data).

Definition is_ubx_frame (data : list Z) : bool :=
  list_Z_eqb data
    (Codec.makeUBXCFG (nth 2 data 0) (nth 3 data 0)
       (Z.of_nat (length (ubx_payload data))) (ubx_payload data))
  && forallb (fun b => (0 <=? b) && (b <? 256)) data.

Definition nmea_payload (data : list Z) : string :=
  string_of_bytes (take (length data - 6) (drop 1 data)).

Definition is_nmea_command (data : list Z) : bool :=
  list_Z_eqb data (bytes (Codec.makeNMEACmd (nmea_payload data)))
  && negb (Contains1 (nmea_payload data) "*").

Definition write_ok (a : Serial.Action) : bool :=
  match a with
  | Serial.Write _ data => is_ubx_frame data || is_nmea_command data
  | _ => true
  end.

(** The port discipline.  [run_trace h t n live] follows the actions [t];
    [n] counts the [OpenPort] calls so far and [live] holds the ports that
    successful calls returned and that were not closed since.  The result
    is [None] if a port is written or closed that is not live, and the
    final count and live ports otherwise. *)
Fixpoint run_trace (h : Serial.Host) (t : list Serial.Action) (n : nat)
    (live : list nat) : option (nat * list nat) :=
  match t with
  | [] => Some (n, live)
  | Serial.OpenPort _ _ _ :: r =>
      run_trace h r (S n) (if Serial.OpenPort_ok h n then n :: live else live)
  | Serial.Write p _ :: r =>
      if existsb (Nat.eqb p) live then run_trace h r n live else None
  | Serial.Close p :: r =>
      if existsb (Nat.eqb p) live
      then run_trace h r n (filter (fun q => negb (Nat.eqb p q)) live)
      else None
  | Serial.Sleep _ :: r => run_trace h r n live
  end.

(** The SiRF branch is taken and its second [OpenPort] call fails. *)
Definition sirf_reopen_fails (h : Serial.Host) : bool :=
  negb (Serial.Stat_ok h "/dev/vk172") && negb (Serial.Stat_ok h "/dev/vk162")
  && Serial.Stat_ok h "/dev/prolific0"
  && Serial.OpenPort_ok h 0 && negb (Serial.OpenPort_ok h 1).

(** * Properties *)

(** ** Fixed-width integers *)

Lemma to_uint8_range z : 0 <= to_uint8 z < 256.
Proof. unfold to_uint8, wrap_unsigned. apply Z.mod_pos_bound. reflexivity. Qed.

Lemma to_uint8_small z : 0 <= z < 256 -> to_uint8 z = z.
Proof. intros H. unfold to_uint8, wrap_unsigned. apply Z.mod_small. exact H. Qed.

Lemma to_uint16_small z : 0 <= z < 65536 -> to_uint16 z = z.
Proof. intros H. unfold to_uint16, wrap_unsigned. apply Z.mod_small. exact H. Qed.

Lemma byte_of_range c : 0 <= byte_of c < 256.
Proof.
  unfold byte_of. pose proof (N_ascii_bounded c) as H.
  split; [apply N2Z.is_nonneg|]. change 256 with (Z.of_N 256). lia.
Qed.

(** ** Sentence codec: UBX frames *)

Example makeUBXCFG_rate :
  Codec.makeUBXCFG 0x06 0x08 6 [0xc8; 0x00; 0x01; 0x00; 0x01; 0x00] =
  [0xB5; 0x62; 0x06; 0x08; 0x06; 0x00; 0xc8; 0x00; 0x01; 0x00; 0x01; 0x00; 0xDE; 0x6A].
Proof. vm_compute. reflexivity. Qed.

(** The byte loop of [chksumUBX] computes the running Fletcher pair. *)
Lemma chksumUBX_go_fold msg : forall r0 r1,
  Codec.chksumUBX_go msg r0 r1 =
  let '(a, b) :=
    fold_left (fun '(ck_a, ck_b) b =>
                 let ck_a := (ck_a + b) mod 256 in
                 (ck_a, (ck_b + ck_a) mod 256))
              msg (r0, r1) in
  [a; b].
Proof.
  induction msg as [|b rest IH]; intros r0 r1; simpl.
  - reflexivity.
  - rewrite IH. reflexivity.
Qed.

Lemma chksumUBX_fletcher8 msg :
  Codec.chksumUBX msg = [fst (fletcher8 msg); snd (fletcher8 msg)].
Proof.
  unfold Codec.chksumUBX, fletcher8. rewrite chksumUBX_go_fold.
  destruct (fold_left _ msg (0, 0)); reflexivity.
Qed.

Lemma makeUBXCFG_layout class id msglen msg :
  Codec.makeUBXCFG class id msglen msg =
  ([0xB5; 0x62] ++
   ([class; id; to_uint8 (Z.land msglen 0xFF);
     to_uint8 (Z.land (Z.shiftr msglen 8) 0xFF)] ++ msg) ++
   (let ck := fletcher8 ([class; id; to_uint8 (Z.land msglen 0xFF);
                          to_uint8 (Z.land (Z.shiftr msglen 8) 0xFF)] ++ msg) in
    [fst ck; snd ck]))%list.
Proof.
  unfold Codec.makeUBXCFG. cbn [drop app].
  rewrite chksumUBX_fletcher8. cbn [nth app].
  rewrite <- List.app_assoc. reflexivity.
Qed.

Lemma unframe_layout (body ck : list Z) (h1 h2 : Z) :
  length ck = 2%nat ->
  unframe ([h1; h2] ++ body ++ ck)%list = body.
Proof.
  intros Hck. unfold unframe. cbn [app drop].
  rewrite !length_cons, length_app, Hck.
  replace (S (S (length body + 2)) - 4)%nat with (length body) by lia.
  apply take_app_length.
Qed.

Lemma checksum_bytes_layout (body : list Z) (h1 h2 a b : Z) :
  checksum_bytes ([h1; h2] ++ body ++ [a; b])%list = (a, b).
Proof.
  unfold checksum_bytes.
  replace ([h1; h2] ++ body ++ [a; b])%list with (([h1; h2] ++ body) ++ [a; b])%list
    by (rewrite <- List.app_assoc; reflexivity).
  rewrite length_app. cbn [length].
  rewrite !app_nth2 by lia.
  replace (length ([h1; h2] ++ body)%list + 2 - 2 - length ([h1; h2] ++ body)%list)%nat
    with 0%nat by lia.
  replace (length ([h1; h2] ++ body)%list + 2 - 1 - length ([h1; h2] ++ body)%list)%nat
    with 1%nat by lia.
  reflexivity.
Qed.

(** C9. For every class byte, id byte, length word and payload,
    [makeUBXCFG] produces the frame [0xB5 0x62 class id len_lo len_hi
    payload ck_a ck_b], and its last two bytes are the Fletcher-8 checksum
    of the bytes from the class byte through the last payload byte:
    [fletcher8 (unframe frame) = checksum_bytes frame]. *)
Theorem makeUBXCFG_fletcher8 (class id msglen : Z) (msg : list Z) :
  let frame := Codec.makeUBXCFG class id msglen msg in
  let len_lo := to_uint8 (Z.land msglen 0xFF) in
  let len_hi := to_uint8 (Z.land (Z.shiftr msglen 8) 0xFF) in
  (exists ck_a ck_b,
      frame = ([0xB5; 0x62; class; id; len_lo; len_hi] ++ msg ++ [ck_a; ck_b])%list /\
      fletcher8 ([class; id; len_lo; len_hi] ++ msg) = (ck_a, ck_b)) /\
  unframe frame = ([class; id; len_lo; len_hi] ++ msg)%list /\
  fletcher8 (unframe frame) = checksum_bytes frame.
Proof.
  intros frame len_lo len_hi.
  assert (Hl : frame =
    ([0xB5; 0x62] ++ ([class; id; len_lo; len_hi] ++ msg) ++
     [fst (fletcher8 ([class; id; len_lo; len_hi] ++ msg));
      snd (fletcher8 ([class; id; len_lo; len_hi] ++ msg))])%list)
    by apply makeUBXCFG_layout.
  assert (Hu : unframe frame = ([class; id; len_lo; len_hi] ++ msg)%list)
    by (rewrite Hl; apply unframe_layout; reflexivity).
  split; [|split].
  - exists (fst (fletcher8 ([class; id; len_lo; len_hi] ++ msg))),
           (snd (fletcher8 ([class; id; len_lo; len_hi] ++ msg))).
    split.
    + rewrite Hl. reflexivity.
    + destruct (fletcher8 _); reflexivity.
  - exact Hu.
  - rewrite Hu, Hl, checksum_bytes_layout.
    destruct (fletcher8 _); reflexivity.
Qed.

(** The checksum bytes are bytes. *)
Lemma fletcher8_range bs :
  0 <= fst (fletcher8 bs) < 256 /\ 0 <= snd (fletcher8 bs) < 256.
Proof.
  unfold fletcher8.
  assert (H : forall l a b, 0 <= a < 256 -> 0 <= b < 256 ->
    let r := fold_left (fun '(ck_a, ck_b) b0 =>
               let ck_a0 := (ck_a + b0) mod 256 in
               (ck_a0, (ck_b + ck_a0) mod 256)) l (a, b) in
    0 <= fst r < 256 /\ 0 <= snd r < 256).
  { induction l as [|x l IH]; intros a b Ha Hb; simpl.
    - split; assumption.
    - apply IH; apply Z.mod_pos_bound; reflexivity. }
  apply H; lia.
Qed.

(** ** Sentence codec: NMEA sentences *)

Example makeNMEACmd_psrf100 :
  Codec.makeNMEACmd "PSRF100,1,38400,8,1,0" =
  "$PSRF100,1,38400,8,1,0*3d" ++ Codec.CRLF.
Proof. vm_compute. reflexivity. Qed.

Example validate_garbled :
  Codec.validateNMEAChecksum "$GPGGA,garbled*00" =
  ("Checksum failed. Calculated 0X1; expected 0X0", false).
Proof. vm_compute. reflexivity. Qed.

Example validate_no_star :
  Codec.validateNMEAChecksum "$GPGGA,1,2" = ("Invalid NMEA message", false).
Proof. vm_compute. reflexivity. Qed.

Lemma lxor_byte a b : 0 <= a < 256 -> 0 <= b < 256 -> 0 <= Z.lxor a b < 256.
Proof.
  intros Ha Hb.
  assert (Hn : 0 <= Z.lxor a b) by (apply Z.lxor_nonneg; lia).
  split; [exact Hn|].
  assert (Hs : Z.shiftr (Z.lxor a b) 8 = 0).
  { rewrite Z.shiftr_lxor, !Z.shiftr_div_pow2 by lia.
    change (2 ^ 8) with 256.
    rewrite (Z.div_small a 256), (Z.div_small b 256) by lia. reflexivity. }
  rewrite Z.shiftr_div_pow2 in Hs by lia. change (2 ^ 8) with 256 in Hs.
  apply Z.div_small_iff in Hs; lia.
Qed.

Lemma xor_range_byte s : forall skip acc,
  0 <= acc < 256 -> 0 <= xor_range skip s acc < 256.
Proof.
  induction s as [|c r IH]; intros skip acc Hacc; simpl.
  - exact Hacc.
  - destruct skip as [|k].
    + apply IH. apply lxor_byte; [exact Hacc|apply byte_of_range].
    + apply IH. exact Hacc.
Qed.

Lemma xor_checksum_byte s : 0 <= xor_checksum s < 256.
Proof. apply xor_range_byte. lia. Qed.

(** On an ASCII string [range] visits every byte, so the checksum is the
    XOR of all bytes. *)
Lemma xor_range_ascii s : forall acc,
  is_ascii s = true ->
  xor_range 0 s acc = fold_left Z.lxor (bytes s) acc.
Proof.
  induction s as [|c r IH]; intros acc Ha; simpl in *.
  - reflexivity.
  - apply andb_true_iff in Ha as [Hc Hr].
    assert (Hw : rune_shape (byte_of c) = None).
    { unfold rune_shape. apply Z.ltb_lt in Hc.
      destruct (byte_of c <? 194) eqn:E; [reflexivity|].
      apply Z.ltb_ge in E. lia. }
    rewrite Hw. simpl. apply IH. exact Hr.
Qed.

Lemma bytes_all (P : Z -> bool) :
  forallb P (map Z.of_nat (seq 0 256)) = true ->
  forall b, 0 <= b < 256 -> P b = true.
Proof.
  intros H b Hb. rewrite forallb_forall in H. apply H.
  apply in_map_iff. exists (Z.to_nat b). split; [lia|].
  apply in_seq. lia.
Qed.

Lemma ParseUint_fmt_02x b :
  0 <= b < 256 -> ParseUint_16_8 (fmt_02x b) = Some b.
Proof.
  intros Hb.
  pose proof (bytes_all
    (fun b => match ParseUint_16_8 (fmt_02x b) with
              | Some v => v =? b
              | None => false
              end)) as H.
  specialize (H ltac:(vm_compute; reflexivity) b Hb). cbv beta in H.
  destruct (ParseUint_16_8 (fmt_02x b)) as [v|]; [|discriminate].
  apply Z.eqb_eq in H. congruence.
Qed.

Lemma fmt_02x_no_star b :
  0 <= b < 256 -> Contains1 (fmt_02x b ++ Codec.CRLF) "*" = false.
Proof.
  intros Hb.
  pose proof (bytes_all
    (fun b => negb (Contains1 (fmt_02x b ++ Codec.CRLF) "*"))) as H.
  specialize (H ltac:(vm_compute; reflexivity) b Hb). cbv beta in H.
  apply negb_true_iff in H. exact H.
Qed.

Lemma Contains1_app_char s t c : Contains1 (s ++ String c t) c = true.
Proof.
  induction s as [|d r IH]; simpl.
  - rewrite Ascii.eqb_refl. reflexivity.
  - rewrite IH. apply orb_true_r.
Qed.

Lemma Split1_nonempty s c : Split1 s c <> [].
Proof.
  induction s as [|d r IH]; simpl; [discriminate|].
  destruct (Ascii.eqb d c); [discriminate|].
  destruct (Split1 r c); discriminate.
Qed.

Lemma Split1_no_sep s c : Contains1 s c = false -> Split1 s c = [s].
Proof.
  induction s as [|d r IH]; simpl; intros H; [reflexivity|].
  apply orb_false_iff in H as [Hd Hr].
  rewrite Hd, (IH Hr). reflexivity.
Qed.

Lemma Split1_first s t c :
  Contains1 s c = false -> Split1 (s ++ String c t) c = s :: Split1 t c.
Proof.
  induction s as [|d r IH]; simpl; intros H.
  - rewrite Ascii.eqb_refl. reflexivity.
  - apply orb_false_iff in H as [Hd Hr].
    rewrite Hd, (IH Hr). reflexivity.
Qed.

(** The round trip needs only that the payload holds no ['*']. *)
Lemma validate_makeNMEACmd cmd :
  Contains1 cmd "*" = false ->
  Codec.validateNMEAChecksum (Codec.makeNMEACmd cmd) = (cmd, true).
Proof.
  intros Hstar.
  pose proof (xor_checksum_byte cmd) as Hcs.
  unfold Codec.makeNMEACmd, Codec.validateNMEAChecksum.
  change ("$" ++ cmd ++ "*" ++ fmt_02x (xor_checksum cmd) ++ Codec.CRLF)
    with (String "$" (cmd ++ String "*" (fmt_02x (xor_checksum cmd) ++ Codec.CRLF))).
  cbn [HasPrefix1 TrimPrefix1 Contains1].
  rewrite Ascii.eqb_refl, Contains1_app_char, orb_true_r. cbn [andb negb].
  rewrite (Split1_first _ _ _ Hstar).
  rewrite (Split1_no_sep _ _ (fmt_02x_no_star _ Hcs)).
  cbn [nth].
  change (if len (fmt_02x (xor_checksum cmd) ++ Codec.CRLF) <? 2 then _ else _)
    with (match ParseUint_16_8 (fmt_02x (xor_checksum cmd)) with
          | Some cs =>
              if negb (xor_checksum cmd =? to_uint8 cs)
              then ("Checksum failed. Calculated " ++ fmt_sharpX (xor_checksum cmd)
                      ++ "; expected " ++ fmt_sharpX cs, false)
              else (cmd, true)
          | None => ("Invalid checksum", false)
          end).
  rewrite (ParseUint_fmt_02x _ Hcs), (to_uint8_small _ Hcs), Z.eqb_refl.
  reflexivity.
Qed.

(** C8. For every ASCII payload [X] containing neither ['$'] nor ['*'],
    [validateNMEAChecksum] applied to [makeNMEACmd X] succeeds and returns
    exactly [X]. *)
Theorem nmea_roundtrip (X : string) :
  is_ascii X = true ->
  Contains1 X "$" = false ->
  Contains1 X "*" = false ->
  Codec.validateNMEAChecksum (Codec.makeNMEACmd X) = (X, true).
Proof. intros _ _ Hstar. apply validate_makeNMEACmd. exact Hstar. Qed.

Lemma nmea_roundtrip_witness :
  Codec.validateNMEAChecksum (Codec.makeNMEACmd "PSRF103,00,6,00,0")
  = ("PSRF103,00,6,00,0", true).
Proof. apply (nmea_roundtrip "PSRF103,00,6,00,0"); reflexivity. Defined.

(** For an ASCII payload the two hex digits [makeNMEACmd] appends are the
    XOR of all payload bytes. *)
Lemma makeNMEACmd_ascii X :
  is_ascii X = true ->
  Codec.makeNMEACmd X =
  "$" ++ X ++ "*" ++ fmt_02x (fold_left Z.lxor (bytes X) 0) ++ Codec.CRLF.
Proof.
  intros Ha. unfold Codec.makeNMEACmd, xor_checksum.
  rewrite (xor_range_ascii _ _ Ha). reflexivity.
Qed.

(** ** Validity predicates *)

(** C3. [isGPSValid] returns true if and only if less than 15 seconds
    have passed since [LastFixLocalTime], the GPS-connected flag is set and
    [Quality] is greater than 0 (and then it changes nothing); whenever it
    returns false it has set [Quality] and [Satellites] to 0, whatever the
    situation record held before. *)
Theorem isGPSValid_spec (w : World) :
  let '(valid, w') := isGPSValid w in
  (valid = true <->
     Since (stratuxClock w) (SituationData.LastFixLocalTime (mySituation w))
       < 15 * Second
     /\ GPS_connected w = true
     /\ 0 < SituationData.Quality (mySituation w))
  /\ (valid = true -> w' = w)
  /\ (valid = false ->
        SituationData.Quality (mySituation w') = 0
        /\ SituationData.Satellites (mySituation w') = 0).
Proof.
  unfold isGPSValid.
  destruct (Since (stratuxClock w) (SituationData.LastFixLocalTime (mySituation w))
              <? 15 * Second) eqn:Ht;
  destruct (GPS_connected w) eqn:Hc;
  destruct (0 <? SituationData.Quality (mySituation w)) eqn:Hq;
  cbn [andb];
  try apply Z.ltb_lt in Ht; try apply Z.ltb_ge in Ht;
  try apply Z.ltb_lt in Hq; try apply Z.ltb_ge in Hq;
  (split; [split; [intros H; try discriminate H; repeat split; auto
                  |intros (H1 & H2 & H3); try reflexivity; try discriminate; lia]
          |split; [intros H; try discriminate H; reflexivity
                  |intros H; try discriminate H; split; reflexivity]]).
Qed.

(** The other fields of the record, the map and the flags are not touched
    on the false path. *)
Lemma isGPSValid_false_frame (w : World) :
  fst (isGPSValid w) = false ->
  snd (isGPSValid w) =
  set_mySituation
    (SituationData.set_Satellites 0 (SituationData.set_Quality 0 (mySituation w))) w.
Proof.
  unfold isGPSValid.
  destruct (_ && _ && _); [discriminate|reflexivity].
Qed.

Example isGPSValid_stale :
  let w := mkWorld (SituationData.set_Satellites 7
                      (SituationData.set_Quality 1 SituationData.zero))
                   ∅ (16 * Second) 0 true false [] in
  fst (isGPSValid w) = false
  /\ SituationData.Quality (mySituation (snd (isGPSValid w))) = 0
  /\ SituationData.Satellites (mySituation (snd (isGPSValid w))) = 0.
Proof. vm_compute. repeat split. Qed.

(** ** Constellation tracker *)

Lemma count_where_empty p : count_where p ∅ = 0.
Proof. unfold count_where. rewrite map_filter_empty, map_size_empty. reflexivity. Qed.

Lemma count_where_insert p (m : gmap string SatelliteInfo.t) i x :
  m !! i = None ->
  count_where p (<[i:=x]> m) = count_where p m + (if p x then 1 else 0).
Proof.
  intros Hi. unfold count_where.
  destruct (p x) eqn:Hp.
  - rewrite map_filter_insert_True by exact Hp.
    rewrite map_size_insert_None; [lia|].
    apply map_lookup_filter_None_2. left. exact Hi.
  - rewrite map_filter_insert_False by (simpl; congruence).
    rewrite delete_id by exact Hi. lia.
Qed.

Lemma count_where_true (m : gmap string SatelliteInfo.t) :
  count_where (fun _ => true) m = Z.of_nat (size m).
Proof.
  unfold count_where. f_equal. f_equal.
  apply map_eq. intros k. apply option_eq. intros s.
  rewrite map_lookup_filter_Some. tauto.
Qed.

Lemma count_where_bound p (m : gmap string SatelliteInfo.t) :
  0 <= count_where p m <= Z.of_nat (size m).
Proof.
  unfold count_where. split; [lia|].
  apply inj_le. apply map_subseteq_size, map_filter_subseteq.
Qed.

Lemma to_uint8_succ n : to_uint8 (n mod 256 + 1) = (n + 1) mod 256.
Proof. unfold to_uint8, wrap_unsigned. change (2 ^ 8) with 256. apply Z.add_mod_idemp_l. lia. Qed.

(** The loop of [updateConstellation], run over a part [m] of the map
    [m0] it starts from. *)
Lemma updateConstellation_fold (now : Time) (m0 : gmap string SatelliteInfo.t) :
  forall m : gmap string SatelliteInfo.t,
    m ⊆ m0 ->
    let r := map_fold (updateConstellation_body now) (m0, (0, 0, 0)) m in
    let m' := omap (maintained now) m in
    (forall k, r.1 !! k = match m !! k with
                          | Some _ => m' !! k
                          | None => m0 !! k
                          end)
    /\ r.2 = (count_where SatelliteInfo.InSolution m' mod 256,
              Z.of_nat (size m') mod 256,
              count_where has_signal m' mod 256).
Proof.
  intros m.
  apply (map_fold_weak_ind
    (fun r m => m ⊆ m0 ->
       (forall k, r.1 !! k = match m !! k with
                             | Some _ => omap (maintained now) m !! k
                             | None => m0 !! k
                             end)
       /\ r.2 = (count_where SatelliteInfo.InSolution (omap (maintained now) m) mod 256,
                 Z.of_nat (size (omap (maintained now) m)) mod 256,
                 count_where has_signal (omap (maintained now) m) mod 256))).
  - intros _. split.
    + intros k. rewrite lookup_empty. reflexivity.
    + rewrite omap_empty, !count_where_empty, map_size_empty. reflexivity.
  - clear m. intros i x m [rm [[sats tracked] seen]] Hi IH Hsub.
    assert (Hm : m ⊆ m0).
    { etrans; [apply (insert_subseteq m i x Hi)|exact Hsub]. }
    assert (Hx : m0 !! i = Some x).
    { eapply lookup_weaken; [apply lookup_insert_eq|exact Hsub]. }
    destruct (IH Hm) as [IHm IHc]. simpl in IHm, IHc.
    injection IHc as Hsats Htracked Hseen.
    assert (Hoi : omap (maintained now) m !! i = None)
      by (rewrite lookup_omap, Hi; reflexivity).
    unfold updateConstellation_body.
    destruct (10 * Second <? Since now (SatelliteInfo.TimeLastTracked x)) eqn:Hstale.
    + (* stale: deleted *)
      assert (Hmx : maintained now x = None) by (unfold maintained; rewrite Hstale; reflexivity).
      rewrite (omap_insert_None _ _ _ _ Hmx), (delete_id _ _ Hoi).
      split; simpl.
      * intros k. destruct (decide (i = k)) as [->|Hne].
        -- rewrite lookup_delete_eq, lookup_insert_eq. symmetry. exact Hoi.
        -- rewrite lookup_delete_ne, lookup_insert_ne by exact Hne. apply IHm.
      * rewrite Hsats, Htracked, Hseen. reflexivity.
    + (* fresh: counted, and its in-solution flag aged *)
      set (y := if 5 * Second <? Since now (SatelliteInfo.TimeLastSolution x)
                then SatelliteInfo.set_InSolution false x else x).
      assert (Hmx : maintained now x = Some y)
        by (unfold maintained; rewrite Hstale; reflexivity).
      rewrite (omap_insert_Some _ _ _ _ _ Hmx).
      rewrite !(count_where_insert _ _ _ _ Hoi), (map_size_insert_None _ _ _ Hoi).
      split; simpl.
      * intros k. destruct (decide (i = k)) as [->|Hne].
        -- rewrite !lookup_insert_eq. subst y.
           destruct (5 * Second <? Since now (SatelliteInfo.TimeLastSolution x)).
           ++ apply lookup_insert_eq.
           ++ rewrite IHm, Hi. exact Hx.
        -- rewrite !(lookup_insert_ne _ i k) by exact Hne.
           destruct (5 * Second <? Since now (SatelliteInfo.TimeLastSolution x));
             [rewrite lookup_insert_ne by exact Hne|]; apply IHm.
      * assert (Hsig : has_signal y = has_signal x)
          by (subst y; destruct (5 * Second <? _); reflexivity).
        rewrite Hsig. unfold has_signal at 2.
        rewrite Hsats, Htracked, Hseen, Nat2Z.inj_succ, <- Z.add_1_r.
        subst y.
        destruct (5 * Second <? Since now (SatelliteInfo.TimeLastSolution x));
          destruct (0 <? SatelliteInfo.Signal x);
          cbn [SatelliteInfo.InSolution SatelliteInfo.set_InSolution];
          try destruct (SatelliteInfo.InSolution x);
          rewrite ?to_uint8_succ, ?Z.add_0_r; reflexivity.
Qed.

Lemma updateConstellation_unfold (w : World) :
  let m' := omap (maintained (stratuxClock w)) (Satellites w) in
  updateConstellation w =
  set_mySituation
    (SituationData.set_SatellitesSeen
       (to_uint16 (count_where has_signal m' mod 256))
       (SituationData.set_SatellitesTracked
          (to_uint16 (Z.of_nat (size m') mod 256))
          (SituationData.set_Satellites
             (to_uint16 (count_where SatelliteInfo.InSolution m' mod 256))
             (mySituation w))))
    (set_Satellites m' w).
Proof.
  intros m'. unfold updateConstellation.
  destruct (updateConstellation_fold (stratuxClock w) (Satellites w) (Satellites w))
    as [Hmap Hcnt]; [reflexivity|].
  destruct (map_fold _ _ _) as [rm [[sats tracked] seen]].
  simpl in Hmap, Hcnt. injection Hcnt as -> -> ->.
  assert (Hrm : rm = m').
  { apply map_eq. intros k. rewrite Hmap. subst m'.
    destruct (Satellites w !! k) eqn:E; [reflexivity|].
    rewrite lookup_omap, E. reflexivity. }
  rewrite Hrm. reflexivity.
Qed.

Lemma uint8_is_uint16 n : to_uint16 (n mod 256) = n mod 256.
Proof.
  apply to_uint16_small.
  pose proof (Z.mod_pos_bound n 256 ltac:(lia)). lia.
Qed.

(** The map after maintenance. *)
Lemma updateConstellation_map (w : World) :
  Satellites (updateConstellation w) =
  omap (maintained (stratuxClock w)) (Satellites w).
Proof. rewrite updateConstellation_unfold. reflexivity. Qed.

(** C4, as amended.  After [updateConstellation], at every clock value
    and for every map: no entry last tracked more than 10 s ago remains;
    every remaining entry whose last solution is more than 5 s old has
    [InSolution] false; and the counters [Satellites], [SatellitesTracked]
    and [SatellitesSeen] equal, modulo 256, the number of remaining entries
    that are in solution, the number of remaining entries, and the number of
    remaining entries with [Signal > 0].  With at most 255 entries left the
    counters are these numbers themselves. *)
Theorem updateConstellation_spec (w : World) :
  let w' := updateConstellation w in
  let now := stratuxClock w in
  (forall k s, Satellites w' !! k = Some s ->
     Since now (SatelliteInfo.TimeLastTracked s) <= 10 * Second)
  /\ (forall k s, Satellites w' !! k = Some s ->
        5 * Second < Since now (SatelliteInfo.TimeLastSolution s) ->
        SatelliteInfo.InSolution s = false)
  /\ SituationData.Satellites (mySituation w')
       = count_where SatelliteInfo.InSolution (Satellites w') mod 256
  /\ SituationData.SatellitesTracked (mySituation w')
       = Z.of_nat (size (Satellites w')) mod 256
  /\ SituationData.SatellitesSeen (mySituation w')
       = count_where has_signal (Satellites w') mod 256
  /\ (Z.of_nat (size (Satellites w')) <= 255 ->
        SituationData.Satellites (mySituation w')
          = count_where SatelliteInfo.InSolution (Satellites w')
        /\ SituationData.SatellitesTracked (mySituation w')
          = Z.of_nat (size (Satellites w'))
        /\ SituationData.SatellitesSeen (mySituation w')
          = count_where has_signal (Satellites w')).
Proof.
  intros w' now. subst w'. rewrite updateConstellation_unfold.
  cbn [Satellites set_Satellites set_mySituation mySituation
       SituationData.Satellites SituationData.SatellitesTracked
       SituationData.SatellitesSeen SituationData.set_Satellites
       SituationData.set_SatellitesTracked SituationData.set_SatellitesSeen].
  rewrite !uint8_is_uint16.
  set (m' := omap (maintained (stratuxClock w)) (Satellites w)).
  assert (Hkeep : forall k s, m' !! k = Some s ->
            exists s0, Satellites w !! k = Some s0 /\ maintained now s0 = Some s).
  { intros k s Hk. apply lookup_omap_Some in Hk as (s0 & H1 & H2). eauto. }
  repeat split.
  - intros k s Hk. destruct (Hkeep k s Hk) as (s0 & _ & Hs0).
    unfold maintained in Hs0.
    destruct (10 * Second <? Since now (SatelliteInfo.TimeLastTracked s0)) eqn:E;
      [discriminate|].
    apply Z.ltb_ge in E. injection Hs0 as <-.
    destruct (5 * Second <? _); exact E.
  - intros k s Hk Hold. destruct (Hkeep k s Hk) as (s0 & _ & Hs0).
    unfold maintained in Hs0.
    destruct (10 * Second <? _); [discriminate|]. injection Hs0 as <-.
    destruct (5 * Second <? Since now (SatelliteInfo.TimeLastSolution s0)) eqn:E.
    + reflexivity.
    + apply Z.ltb_ge in E. lia.
  - pose proof (count_where_bound SatelliteInfo.InSolution m'). apply Z.mod_small. lia.
  - apply Z.mod_small. lia.
  - pose proof (count_where_bound has_signal m'). apply Z.mod_small. lia.
Qed.

(** C4 as stated fails once 256 records are tracked at the same time: the
    tracker keeps all of them and reports a tracked count of 0. *)
Lemma updateConstellation_counters_wrap :
  let w' := updateConstellation (crowded_world 256) in
  Z.of_nat (size (Satellites w')) = 256
  /\ SituationData.SatellitesTracked (mySituation w') = 0
  /\ SituationData.SatellitesTracked (mySituation w')
       <> Z.of_nat (size (Satellites w')).
Proof. vm_compute. repeat split. discriminate. Qed.

(** ** Accuracy derivation *)

Lemma digits2_pos_bounds (m : positive) :
  2 ^ (Z.pos (digits2_pos m) - 1) <= Z.pos m < 2 ^ Z.pos (digits2_pos m).
Proof.
  induction m as [p IH|p IH|]; cbn [digits2_pos].
  - rewrite Pos2Z.inj_succ, (Pos2Z.inj_xI p).
    replace (Z.succ (Z.pos (digits2_pos p)) - 1) with (Z.succ (Z.pos (digits2_pos p) - 1)) by lia.
    rewrite !Z.pow_succ_r by lia. lia.
  - rewrite Pos2Z.inj_succ, (Pos2Z.inj_xO p).
    replace (Z.succ (Z.pos (digits2_pos p)) - 1) with (Z.succ (Z.pos (digits2_pos p) - 1)) by lia.
    rewrite !Z.pow_succ_r by lia. lia.
  - simpl. lia.
Qed.

(** What it means for a mantissa and exponent to be a [float32]. *)
Lemma bounded_binary32 m e :
  bounded 24 128 m e = true ->
  -149 <= e <= 104 /\ Z.pos m < 2 ^ 24 /\ (-149 < e -> 2 ^ 23 <= Z.pos m).
Proof.
  unfold bounded, canonical_mantissa, fexp, emin. intros H.
  apply andb_true_iff in H as [Hc He].
  apply Z.eqb_eq in Hc. apply Z.leb_le in He.
  pose proof (digits2_pos_bounds m) as [Hlo Hhi].
  set (d := Z.pos (digits2_pos m)) in *.
  assert (Hd : 0 < d) by (subst d; lia).
  assert (He1 : -149 <= e /\ d <= 24 /\ (d = 24 \/ e = -149)) by lia.
  destruct He1 as (He1 & Hd24 & Hor).
  split; [lia|]. split.
  - eapply Z.lt_le_trans; [exact Hhi|]. apply Z.pow_le_mono_r; lia.
  - intros He2. destruct Hor as [->|]; [|lia]. exact Hlo.
Qed.

Lemma magnitude_lt m1 e1 m2 e2 :
  bounded 24 128 m1 e1 = true -> bounded 24 128 m2 e2 = true ->
  e1 < e2 ->
  Z.pos m1 * 2 ^ (e1 + 149) < Z.pos m2 * 2 ^ (e2 + 149).
Proof.
  intros H1 H2 Hlt.
  apply bounded_binary32 in H1 as (He1 & Hm1 & _).
  apply bounded_binary32 in H2 as (He2 & _ & Hm2).
  specialize (Hm2 ltac:(lia)).
  replace (e2 + 149) with ((e1 + 149) + (e2 - e1)) by lia.
  rewrite (Z.pow_add_r 2 (e1 + 149) (e2 - e1)) by lia.
  assert (HP : 0 < 2 ^ (e1 + 149)) by (apply Z.pow_pos_nonneg; lia).
  assert (HD : 2 ^ 1 <= 2 ^ (e2 - e1)) by (apply Z.pow_le_mono_r; lia).
  change (2 ^ 1) with 2 in HD. change (2 ^ 24) with 16777216 in Hm1.
  change (2 ^ 23) with 8388608 in Hm2.
  set (P := 2 ^ (e1 + 149)) in *. set (D := 2 ^ (e2 - e1)) in *.
  assert (H1 : Z.pos m1 * P < 16777216 * P)
    by (apply Z.mul_lt_mono_pos_r; assumption).
  assert (H2 : 8388608 * 2 <= Z.pos m2 * D)
    by (apply Z.mul_le_mono_nonneg; lia).
  assert (H3 : 8388608 * 2 * P <= Z.pos m2 * D * P)
    by (apply Z.mul_le_mono_nonneg_r; lia).
  lia.
Qed.

Lemma magnitude_compare m1 e1 m2 e2 :
  bounded 24 128 m1 e1 = true -> bounded 24 128 m2 e2 = true ->
  match e1 ?= e2 with
  | Lt => Lt
  | Gt => Gt
  | Eq => Pos.compare_cont Eq m1 m2
  end = (Z.pos m1 * 2 ^ (e1 + 149) ?= Z.pos m2 * 2 ^ (e2 + 149)).
Proof.
  intros H1 H2. destruct (Z.compare_spec e1 e2) as [->|Hlt|Hgt].
  - pose proof (bounded_binary32 _ _ H2) as (He & _ & _).
    assert (HP : 0 < 2 ^ (e2 + 149)) by (apply Z.pow_pos_nonneg; lia).
    change (Pos.compare_cont Eq m1 m2) with (Z.pos m1 ?= Z.pos m2).
    destruct (Z.compare_spec (Z.pos m1) (Z.pos m2)) as [Heq|Hlt|Hgt]; symmetry.
    + rewrite Heq. apply Z.compare_refl.
    + apply Z.compare_lt_iff, Z.mul_lt_mono_pos_r; assumption.
    + apply Z.compare_gt_iff, Z.mul_lt_mono_pos_r; assumption.
  - symmetry. apply Z.compare_lt_iff. apply magnitude_lt; assumption.
  - symmetry. apply Z.compare_gt_iff. apply magnitude_lt; assumption.
Qed.

(** On [float32] values the comparison of [SpecFloat] is the order of the
    real values. *)
Lemma f32_compare_scaled (a b : float32) :
  valid_binary 24 128 a = true -> valid_binary 24 128 b = true ->
  f_finite a = true -> f_finite b = true ->
  SFcompare a b = Some (f32_scaled a ?= f32_scaled b).
Proof.
  intros Va Vb Fa Fb.
  destruct a as [sa| |  |sa ma ea]; try discriminate Fa;
  destruct b as [sb| |  |sb mb eb]; try discriminate Fb;
  cbn [valid_binary] in Va, Vb; cbn [SFcompare f32_scaled].
  - reflexivity.
  - pose proof (bounded_binary32 _ _ Vb) as (He & _ & _).
    assert (0 < Z.pos mb * 2 ^ (eb + 149))
      by (apply Z.mul_pos_pos; [lia|apply Z.pow_pos_nonneg; lia]).
    f_equal. symmetry. destruct sb; cbn [cond_Zopp].
    + apply Z.compare_gt_iff. lia.
    + apply Z.compare_lt_iff. lia.
  - pose proof (bounded_binary32 _ _ Va) as (He & _ & _).
    assert (0 < Z.pos ma * 2 ^ (ea + 149))
      by (apply Z.mul_pos_pos; [lia|apply Z.pow_pos_nonneg; lia]).
    f_equal. symmetry. destruct sa; cbn [cond_Zopp].
    + apply Z.compare_lt_iff. lia.
    + apply Z.compare_gt_iff. lia.
  - pose proof (bounded_binary32 _ _ Va) as (Hea & _ & _).
    pose proof (bounded_binary32 _ _ Vb) as (Heb & _ & _).
    assert (0 < Z.pos ma * 2 ^ (ea + 149))
      by (apply Z.mul_pos_pos; [lia|apply Z.pow_pos_nonneg; lia]).
    assert (0 < Z.pos mb * 2 ^ (eb + 149))
      by (apply Z.mul_pos_pos; [lia|apply Z.pow_pos_nonneg; lia]).
    f_equal. destruct sa, sb; cbn [cond_Zopp].
    + rewrite Z.compare_opp, (Z.compare_antisym (Z.pos ma * _)).
      rewrite <- (magnitude_compare _ _ _ _ Va Vb).
      destruct (ea ?= eb); reflexivity.
    + symmetry. apply Z.compare_lt_iff. lia.
    + symmetry. apply Z.compare_gt_iff. lia.
    + apply magnitude_compare; assumption.
Qed.

Lemma f32_ltb_scaled (a b : float32) :
  valid_binary 24 128 a = true -> valid_binary 24 128 b = true ->
  f_finite a = true -> f_finite b = true ->
  f32_ltb a b = (f32_scaled a <? f32_scaled b).
Proof.
  intros Va Vb Fa Fb. unfold f32_ltb, SFltb, Z.ltb.
  rewrite (f32_compare_scaled a b Va Vb Fa Fb).
  destruct (f32_scaled a ?= f32_scaled b); reflexivity.
Qed.

Lemma Qlt_f32 (a b : float32) :
  (f32_toQ a < f32_toQ b)%Q <-> f32_scaled a < f32_scaled b.
Proof.
  unfold Qlt, f32_toQ. cbn [Qnum Qden].
  symmetry. apply Z.mul_lt_mono_pos_r. reflexivity.
Qed.

Lemma Qle_f32 (a b : float32) :
  (f32_toQ a <= f32_toQ b)%Q <-> f32_scaled a <= f32_scaled b.
Proof.
  unfold Qle, f32_toQ. cbn [Qnum Qden].
  symmetry. apply Z.mul_le_mono_pos_r. reflexivity.
Qed.

(** The six bounds of the table as [float32] constants: 3, 10 and 30 are
    exact; 92.6, 185.2 and 555.6 are no [float32] values, and the constants
    are the nearest ones, less than half a unit in the last place below. *)
Lemma NACp_bounds_values :
  (f32_toQ (f32_lit 3 0) == 3)%Q /\
  (f32_toQ (f32_lit 10 0) == 10)%Q /\
  (f32_toQ (f32_lit 30 0) == 30)%Q /\
  (f32_toQ (f32_lit 926 1) == 12137267 # 131072)%Q /\
  (f32_toQ (f32_lit 1852 1) == 12137267 # 65536)%Q /\
  (f32_toQ (f32_lit 5556 1) == 9102950 # 16384)%Q /\
  (0 < (926 # 10) - (12137267 # 131072) < 1 # 262144)%Q /\
  (0 < (1852 # 10) - (12137267 # 65536) < 1 # 131072)%Q /\
  (0 < (5556 # 10) - (9102950 # 16384) < 1 # 32768)%Q.
Proof. repeat split; reflexivity. Qed.

(** Above a positive [float32] the next one is a unit in the last place
    away: no [float32] lies strictly between [m * 2^e] and
    [(m + 1) * 2^e]. *)
Lemma f32_gap (a : float32) (m : positive) (e : Z) :
  valid_binary 24 128 a = true ->
  bounded 24 128 m e = true ->
  Z.pos m * 2 ^ (e + 149) < f32_scaled a ->
  (Z.pos m + 1) * 2 ^ (e + 149) <= f32_scaled a.
Proof.
  intros Va Vb Hlt.
  pose proof (bounded_binary32 _ _ Vb) as (He & Hm & _).
  assert (HP : 0 < 2 ^ (e + 149)) by (apply Z.pow_pos_nonneg; lia).
  assert (H0 : 0 < Z.pos m * 2 ^ (e + 149)) by (apply Z.mul_pos_pos; lia).
  destruct a as [sa| | |sa ma ea]; cbn [f32_scaled] in Hlt |- *; try lia.
  cbn [valid_binary] in Va.
  pose proof (bounded_binary32 _ _ Va) as (Hea & Hma & Hma').
  assert (HPa : 0 < 2 ^ (ea + 149)) by (apply Z.pow_pos_nonneg; lia).
  destruct sa; cbn [cond_Zopp] in Hlt |- *.
  { assert (0 < Z.pos ma * 2 ^ (ea + 149)) by (apply Z.mul_pos_pos; lia). lia. }
  destruct (Z.compare_spec ea e) as [->|Hl|Hg].
  - apply Z.mul_le_mono_nonneg_r; [lia|].
    apply Z.mul_lt_mono_pos_r in Hlt; lia.
  - pose proof (magnitude_lt _ _ _ _ Va Vb Hl). lia.
  - specialize (Hma' ltac:(lia)).
    replace (ea + 149) with ((e + 149) + (ea - e)) by lia.
    rewrite (Z.pow_add_r 2 (e + 149) (ea - e)) by lia.
    assert (HD : 2 ^ 1 <= 2 ^ (ea - e)) by (apply Z.pow_le_mono_r; lia).
    change (2 ^ 1) with 2 in HD. change (2 ^ 24) with 16777216 in Hm.
    change (2 ^ 23) with 8388608 in Hma'.
    set (P := 2 ^ (e + 149)) in *. set (D := 2 ^ (ea - e)) in *.
    assert (H1 : (Z.pos m + 1) * P <= 16777216 * P)
      by (apply Z.mul_le_mono_nonneg_r; lia).
    assert (H2 : 8388608 * 2 <= Z.pos ma * D)
      by (apply Z.mul_le_mono_nonneg; lia).
    assert (H3 : 8388608 * 2 * P <= Z.pos ma * D * P)
      by (apply Z.mul_le_mono_nonneg_r; lia).
    lia.
Qed.

(** A decimal bound [d] that lies between the [float32] [b] and the next
    one separates the [float32] values as [b] does, but for [b] itself. *)
Lemma f32_below_decimal (a : float32) (m : positive) (e : Z) (d : Q) :
  valid_binary 24 128 a = true ->
  bounded 24 128 m e = true ->
  (f32_toQ (S754_finite false m e) < d)%Q ->
  (d < Qmake ((Z.pos m + 1) * 2 ^ (e + 149)) (2 ^ 149))%Q ->
  (f32_toQ a < d)%Q <-> (f32_toQ a <= f32_toQ (S754_finite false m e))%Q.
Proof.
  intros Va Vb Hlo Hhi. split; intros H.
  - apply Qnot_lt_le. intros Hgt.
    apply Qlt_f32 in Hgt. cbn [f32_scaled cond_Zopp] in Hgt.
    pose proof (f32_gap a m e Va Vb Hgt) as Hge.
    apply (Qlt_irrefl d). eapply Qlt_le_trans; [exact Hhi|].
    eapply Qle_trans; [|apply Qlt_le_weak; exact H].
    unfold Qle, f32_toQ. cbn [Qnum Qden].
    apply Z.mul_le_mono_nonneg_r; [lia|exact Hge].
  - eapply Qle_lt_trans; [exact H|exact Hlo].
Qed.

Lemma NACp_literals :
  f32_lit 926 1 = S754_finite false 12137267 (-17)
  /\ f32_lit 1852 1 = S754_finite false 12137267 (-16)
  /\ f32_lit 5556 1 = S754_finite false 9102950 (-14).
Proof. vm_compute. repeat split. Qed.

(** C7.  [calculateNACp] depends on the horizontal accuracy alone.  For a
    finite accuracy it follows the table: 11 below 3 m, 10 below 10 m, 9
    below 30 m, 8 below 92.6 m, 7 below 185.2 m, 6 below 555.6 m, and 0
    otherwise, where the last three bounds are the [float32] constants the
    literals denote (92.59999847412109375, 185.1999969482421875 and
    555.5999755859375).  An accuracy equal to a bound gets the lower class
    (3.0 m gives 10, not 11); an accuracy is below the decimal bound 92.6,
    185.2 or 555.6 exactly when it is at most the constant, so the decimal
    table holds but at these three constants.  NaN and +infinity give 0,
    -infinity gives 11. *)
Theorem calculateNACp_table (accuracy : float32) :
  valid_binary 24 128 accuracy = true ->
  let v := f32_toQ accuracy in
  let b3 := f32_toQ (f32_lit 3 0) in
  let b10 := f32_toQ (f32_lit 10 0) in
  let b30 := f32_toQ (f32_lit 30 0) in
  let b92_6 := f32_toQ (f32_lit 926 1) in
  let b185_2 := f32_toQ (f32_lit 1852 1) in
  let b555_6 := f32_toQ (f32_lit 5556 1) in
  (f_finite accuracy = true ->
     ((v < b3)%Q -> calculateNACp accuracy = 11) /\
     ((b3 <= v)%Q -> (v < b10)%Q -> calculateNACp accuracy = 10) /\
     ((b10 <= v)%Q -> (v < b30)%Q -> calculateNACp accuracy = 9) /\
     ((b30 <= v)%Q -> (v < b92_6)%Q -> calculateNACp accuracy = 8) /\
     ((b92_6 <= v)%Q -> (v < b185_2)%Q -> calculateNACp accuracy = 7) /\
     ((b185_2 <= v)%Q -> (v < b555_6)%Q -> calculateNACp accuracy = 6) /\
     ((b555_6 <= v)%Q -> calculateNACp accuracy = 0)) /\
  (f_finite accuracy = false ->
     calculateNACp accuracy
     = match accuracy with S754_infinity true => 11 | _ => 0 end) /\
  ((v < 926 # 10)%Q <-> (v <= b92_6)%Q) /\
  ((v < 1852 # 10)%Q <-> (v <= b185_2)%Q) /\
  ((v < 5556 # 10)%Q <-> (v <= b555_6)%Q) /\
  (b3 == 3)%Q /\ (b10 == 10)%Q /\ (b30 == 30)%Q /\
  (b92_6 == 12137267 # 131072)%Q /\
  (b185_2 == 12137267 # 65536)%Q /\
  (b555_6 == 9102950 # 16384)%Q /\
  calculateNACp (f32_lit 3 0) = 10 /\
  calculateNACp (f32_lit 10 0) = 9 /\
  calculateNACp (f32_lit 30 0) = 8 /\
  calculateNACp (f32_lit 926 1) = 7 /\
  calculateNACp (f32_lit 1852 1) = 6 /\
  calculateNACp (f32_lit 5556 1) = 0.
Proof.
  intros Hv v b3 b10 b30 b92_6 b185_2 b555_6.
  subst v b3 b10 b30 b92_6 b185_2 b555_6.
  split; [|split].
  - intros Hf.
    rewrite !Qlt_f32, !Qle_f32.
    unfold calculateNACp.
    rewrite !(f32_ltb_scaled accuracy) by (assumption || reflexivity).
    assert (H1 : f32_scaled (f32_lit 3 0) < f32_scaled (f32_lit 10 0)) by reflexivity.
    assert (H2 : f32_scaled (f32_lit 10 0) < f32_scaled (f32_lit 30 0)) by reflexivity.
    assert (H3 : f32_scaled (f32_lit 30 0) < f32_scaled (f32_lit 926 1)) by reflexivity.
    assert (H4 : f32_scaled (f32_lit 926 1) < f32_scaled (f32_lit 1852 1)) by reflexivity.
    assert (H5 : f32_scaled (f32_lit 1852 1) < f32_scaled (f32_lit 5556 1)) by reflexivity.
    generalize dependent (f32_scaled (f32_lit 3 0)).
    generalize dependent (f32_scaled (f32_lit 10 0)).
    generalize dependent (f32_scaled (f32_lit 30 0)).
    generalize dependent (f32_scaled (f32_lit 926 1)).
    generalize dependent (f32_scaled (f32_lit 1852 1)).
    generalize dependent (f32_scaled (f32_lit 5556 1)).
    generalize (f32_scaled accuracy).
    intros z c6 c5 H5 c4 H4 c3 H3 c2 H2 c1 H1.
    repeat match goal with
           | |- context [?a <? ?b] => destruct (Z.ltb_spec a b)
           end;
    repeat split; intros; try reflexivity; try lia.
  - intros Hf. destruct accuracy as [s|[|]| |s m e]; try discriminate Hf; reflexivity.
  - destruct NACp_literals as (-> & -> & ->).
    split; [|split; [|split]].
    + apply f32_below_decimal; [exact Hv|reflexivity|reflexivity|reflexivity].
    + apply f32_below_decimal; [exact Hv|reflexivity|reflexivity|reflexivity].
    + apply f32_below_decimal; [exact Hv|reflexivity|reflexivity|reflexivity].
    + repeat split.
Qed.

Lemma calculateNACp_table_witness :
  valid_binary 24 128 (f32_lit 42 1) = true
  /\ f_finite (f32_lit 42 1) = true
  /\ calculateNACp (f32_lit 42 1) = 10.
Proof.
  split; [reflexivity|]. split; [reflexivity|].
  destruct (calculateNACp_table (f32_lit 42 1) eq_refl) as (H & _).
  destruct (H eq_refl) as (_ & H10 & _).
  apply H10.
  - apply Qle_bool_iff. reflexivity.
  - reflexivity.
Defined.

(** C7 as stated fails at the constant for 92.6 m: that accuracy is at
    least 30 m and below 92.6 m, and its class is 7, not 8. *)
Lemma calculateNACp_below_92_6 :
  valid_binary 24 128 (f32_lit 926 1) = true
  /\ f_finite (f32_lit 926 1) = true
  /\ (30 <= f32_toQ (f32_lit 926 1))%Q
  /\ (f32_toQ (f32_lit 926 1) < 926 # 10)%Q
  /\ calculateNACp (f32_lit 926 1) = 7.
Proof.
  split; [reflexivity|]. split; [reflexivity|].
  split; [apply Qle_bool_iff; reflexivity|].
  split; reflexivity.
Qed.

(** Outside the finite values: NaN and +infinity compare below no bound,
    -infinity is below every bound. *)
Lemma calculateNACp_nonfinite :
  calculateNACp S754_nan = 0
  /\ calculateNACp (S754_infinity false) = 0
  /\ calculateNACp (S754_infinity true) = 11.
Proof. repeat split. Qed.

(** ** The sentence parser: run-time panics *)

Lemma validate_PUBX : Codec.validateNMEAChecksum "$PUBX*1F" = ("PUBX", true).
Proof. vm_compute. reflexivity. Qed.

Lemma validate_PUBX04 : Codec.validateNMEAChecksum "$PUBX,04*37" = ("PUBX,04", true).
Proof. vm_compute. reflexivity. Qed.

(** C10.  [processNMEALine] does not return a boolean for every line: a
    checksum-valid line whose payload is just [PUBX] makes the dispatch read
    [x[1]] of a one-element slice, and a [PUBX,04] line with fewer than six
    fields makes the clock handler read [x[5]]; both end in a run-time
    panic (after the liveness fields have been written), whatever the
    state and the platform. *)
Theorem processNMEALine_panics (rt : GoRuntime) (w : World) :
  fst (processNMEALine rt "$PUBX*1F" w) = Panicked
  /\ fst (processNMEALine rt "$PUBX,04*37" w) = Panicked
  /\ SituationData.LastValidNMEAMessage
       (mySituation (snd (processNMEALine rt "$PUBX*1F" w))) = "$PUBX*1F".
Proof.
  destruct w as [sit sats clock now conn dbg evs].
  unfold processNMEALine, processNMEALine_body.
  rewrite validate_PUBX, validate_PUBX04.
  destruct dbg; repeat split.
Qed.

(** ** The sentence parser: PUBX,03 *)

(** C1.  A rejected sentence can leave its mark on the GPS sub-record.
    The PUBX,03 sentence below announces two satellites and passes the
    length check (15 fields); its first record (G5) is well formed, the
    satellite number of its second record does not parse.
    [processNMEALine] returns false, yet [SatellitesTracked], [Satellites]
    and [SatellitesSeen] have changed from 0 to 1 and the map has gained the
    record [G5]. *)
Theorem processNMEALine_rejected_pubx03 (rt : GoRuntime) :
  let w := initWorld (60 * Second) 0 in
  let l := "$PUBX,03,2,5,U,100,45,40,010,x,U,000,00,00,000*66" in
  let w' := snd (processNMEALine rt l w) in
  fst (processNMEALine rt l w) = Returned false
  /\ SituationData.SatellitesTracked (mySituation w) = 0
  /\ SituationData.SatellitesTracked (mySituation w') = 1
  /\ SituationData.Satellites (mySituation w) = 0
  /\ SituationData.Satellites (mySituation w') = 1
  /\ SituationData.SatellitesSeen (mySituation w') = 1
  /\ Satellites w !! "G5" = None
  /\ SatelliteInfo.InSolution <$> (Satellites w' !! "G5") = Some true.
Proof.
  destruct rt as [isz pf sp tp cv].
  destruct isz; vm_compute; repeat split.
Qed.

(** The GSA handler, which works on [tmpSituation], does the same through
    its satellite loop: the sentence below is rejected for its HDOP field
    after satellite 5 was stored and counted. *)
Example processNMEALine_rejected_gsa :
  let w := initWorld (60 * Second) 0 in
  let r := processNMEALine (decimal_runtime Int32) "$GPGSA,A,3,05,,,,,,,,,,,,1.0,x,1.0*61" w in
  fst r = Returned false
  /\ SituationData.Satellites (mySituation (snd r)) = 1
  /\ SituationData.SatellitesTracked (mySituation (snd r)) = 1
  /\ SatelliteInfo.InSolution <$> (Satellites (snd r) !! "G5") = Some true.
Proof. vm_compute. repeat split. Qed.

(** What the two handlers store as [Signal]. *)
Lemma pubx03_record_Signal isz now prev elevTxt azTxt cnoTxt statusTxt :
  SatelliteInfo.Signal (pubx03_record isz now prev elevTxt azTxt cnoTxt statusTxt)
  = to_int8 (match Atoi isz cnoTxt with Some v => v | None => -99 end).
Proof.
  unfold pubx03_record.
  destruct (String.eqb statusTxt "U"); [|destruct (String.eqb statusTxt "e")];
    reflexivity.
Qed.

Lemma gsv_record_Signal isz now quality prev elevTxt azTxt cnoTxt :
  SatelliteInfo.Signal (gsv_record isz now quality prev elevTxt azTxt cnoTxt)
  = to_int8 (Z.min 127 (match Atoi isz cnoTxt with Some v => v | None => -99 end)).
Proof.
  unfold gsv_record.
  set (cno := match Atoi isz cnoTxt with Some v => v | None => -99 end).
  replace (if 127 <? cno then 127 else cno) with (Z.min 127 cno)
    by (destruct (Z.ltb_spec 127 cno); lia).
  cbn [SatelliteInfo.Type_ SatelliteInfo.set_Signal SatelliteInfo.Signal].
  destruct (_ =? SAT_TYPE_SBAS); [|reflexivity].
  destruct (quality =? 2); [|reflexivity].
  destruct (16 <? _); reflexivity.
Qed.

(** The GSV handler clamps: a signal field of 128 or more is stored as
    127, one within 0..127 as it is. *)
Lemma gsv_record_Signal_clamped isz now quality prev elevTxt azTxt cnoTxt c :
  Atoi isz cnoTxt = Some c ->
  (128 <= c ->
     SatelliteInfo.Signal (gsv_record isz now quality prev elevTxt azTxt cnoTxt) = 127)
  /\ (0 <= c <= 127 ->
     SatelliteInfo.Signal (gsv_record isz now quality prev elevTxt azTxt cnoTxt) = c).
Proof.
  intros Hc. rewrite gsv_record_Signal, Hc. split; intros H.
  - rewrite Z.min_l by lia. reflexivity.
  - rewrite Z.min_r by lia. unfold to_int8, wrap_signed.
    change (2 ^ (8 - 1)) with 128. change (2 ^ 8) with 256.
    rewrite Z.mod_small by lia. lia.
Qed.

(** C6.  The PUBX,03 handler stores [int8(cno)] without the clamp of the
    GSV handler: a signal reported as 128 is stored as -128, which is
    neither -999, -99 nor within 0..127. *)
Theorem processNMEALine_pubx03_signal_128 (rt : GoRuntime) :
  let w := initWorld (60 * Second) 0 in
  let l := "$PUBX,03,1,5,U,100,45,128,010*77" in
  fst (processNMEALine rt l w) = Returned true
  /\ SatelliteInfo.Signal <$> (Satellites (snd (processNMEALine rt l w)) !! "G5")
     = Some (-128).
Proof.
  destruct rt as [isz pf sp tp cv].
  destruct isz; vm_compute; repeat split.
Qed.

(** The same signal through the GSV handler is stored as 127; a negative
    signal field is stored as it is by both handlers. *)
Example processNMEALine_gsv_signal_128 :
  let w := initWorld (60 * Second) 0 in
  SatelliteInfo.Signal <$>
    (Satellites (snd (processNMEALine (decimal_runtime Int32)
                        "$GPGSV,1,1,01,05,30,180,128*7C" w)) !! "G5")
  = Some 127.
Proof. vm_compute. reflexivity. Qed.

Example processNMEALine_gsv_signal_negative :
  let w := initWorld (60 * Second) 0 in
  SatelliteInfo.Signal <$>
    (Satellites (snd (processNMEALine (decimal_runtime Int32)
                        "$GPGSV,1,1,01,05,30,180,-5*5F" w)) !! "G5")
  = Some (-5).
Proof. vm_compute. reflexivity. Qed.

(** ** The sentence parser: GSV *)

(** Where a stored record ends up: under its identifier, with the
    tracker's ageing of the in-solution flag applied. *)
Lemma store_satellite_lookup (r : SatelliteInfo.t) (w : World) :
  SatelliteInfo.TimeLastTracked r = stratuxClock w ->
  Satellites (snd (store_satellite r w)) !! SatelliteInfo.SatelliteID r
  = Some (if 5 * Second <? Since (stratuxClock w) (SatelliteInfo.TimeLastSolution r)
          then SatelliteInfo.set_InSolution false r else r).
Proof.
  intros Ht. unfold store_satellite, modify. cbn [snd].
  rewrite updateConstellation_map. cbn [Satellites set_Satellites stratuxClock].
  rewrite lookup_omap, lookup_insert_eq. cbn.
  unfold maintained. rewrite Ht. unfold Since. rewrite Z.sub_diag.
  reflexivity.
Qed.

Lemma gsv_record_TimeLastTracked isz now quality prev elevTxt azTxt cnoTxt :
  SatelliteInfo.TimeLastTracked (gsv_record isz now quality prev elevTxt azTxt cnoTxt)
  = now.
Proof.
  unfold gsv_record.
  destruct (Atoi isz cnoTxt) as [v|]; [destruct (0 <? v)|];
  cbn [SatelliteInfo.Type_ SatelliteInfo.set_Signal SatelliteInfo.set_TimeLastSeen
       SatelliteInfo.set_InSolution SatelliteInfo.set_Azimuth
       SatelliteInfo.set_Elevation SatelliteInfo.set_TimeLastTracked
       SatelliteInfo.Signal];
  destruct (_ =? SAT_TYPE_SBAS); try reflexivity;
  destruct (quality =? 2); try reflexivity;
  destruct (16 <? _); reflexivity.
Qed.




(** ** The sentence parser: GSA *)

Lemma bind_Ret_inv {A B} (m : M A) (k : A -> M B) w b w' :
  bind m k w = (Ret b, w') ->
  m w = (Ret b, w') \/ exists a w1, m w = (Val a, w1) /\ k a w1 = (Ret b, w').
Proof.
  unfold bind. destruct (m w) as [[a|b0|] w1]; intros H.
  - right. eauto.
  - left. injection H as -> ->. reflexivity.
  - discriminate.
Qed.

Lemma index_inv x i w r w1 :
  index x i w = (r, w1) ->
  w1 = w /\ ((exists s, r = Val s /\ x !! Z.to_nat i = Some s) \/ r = Panic).
Proof.
  unfold index, pure, panic.
  destruct (0 <=? i); [destruct (x !! Z.to_nat i) as [s|] eqn:E|];
    intros H; injection H as <- <-; eauto.
Qed.

Lemma or_return_false_inv {A} (o : option A) w r w1 :
  or_return_false o w = (r, w1) ->
  w1 = w /\ ((exists a, r = Val a /\ o = Some a) \/ r = Ret false).
Proof.
  unfold or_return_false, pure, return_.
  destruct o; intros H; injection H as <- <-; eauto.
Qed.

Lemma slice_list_inv x lo hi w r w1 :
  slice_list x lo hi w = (r, w1) ->
  w1 = w /\ (r = Val (take (Z.to_nat (hi - lo)) (drop (Z.to_nat lo) x)) \/ r = Panic).
Proof.
  unfold slice_list, pure, panic.
  destruct (_ && _ && _); intros H; injection H as <- <-; eauto.
Qed.

Lemma classify_gsa_flags sv :
  exists svType svStr,
    classify_gsa sv = (svType, svStr, is_sbas_id sv, is_glonass_id sv).
Proof.
  unfold classify_gsa, is_sbas_id, is_glonass_id.
  destruct (Z.ltb_spec sv 33); [|destruct (Z.ltb_spec sv 65); [|destruct (Z.ltb_spec sv 97)]];
    (do 2 eexists; f_equal; [f_equal|]);
    repeat match goal with
           | |- context [?a <=? ?b] => destruct (Z.leb_spec a b)
           | |- context [?a <? ?b] => destruct (Z.ltb_spec a b)
           end; try reflexivity; lia.
Qed.

(** The loop over fields 3-14 always runs to its end; it counts the
    numbers present and notes the SBAS and GLONASS ones. *)
Lemma gsa_loop_result isz ids : forall sat sb gl w,
  exists w',
    gsa_loop isz ids sat sb gl w =
    (Val (sat + Z.of_nat (length (omap (Atoi isz) ids)),
          sb || existsb is_sbas_id (omap (Atoi isz) ids),
          gl || existsb is_glonass_id (omap (Atoi isz) ids)), w').
Proof.
  induction ids as [|svtxt rest IH]; intros sat sb gl w; cbn [gsa_loop].
  - exists w. unfold pure. cbn. rewrite Z.add_0_r, !orb_false_r. reflexivity.
  - cbn [omap list_omap]. destruct (Atoi isz svtxt) as [sv|].
    + destruct (classify_gsa_flags sv) as (svType & svStr & ->).
      unfold bind at 1, get. unfold bind at 1, store_satellite at 1, modify.
      edestruct IH as (w' & ->). exists w'.
      cbn [length existsb]. rewrite Nat2Z.inj_succ, !orb_assoc.
      replace (sat + 1 + Z.of_nat (length (omap (Atoi isz) rest)))
        with (sat + Z.succ (Z.of_nat (length (omap (Atoi isz) rest)))) by lia.
      reflexivity.
    + apply IH.
Qed.

Lemma omap_length_le {A B} (f : A -> option B) (l : list A) :
  (length (omap f l) <= length l)%nat.
Proof.
  induction l as [|a l IH]; cbn [omap list_omap length]; [lia|].
  destruct (f a); cbn [length]; lia.
Qed.

Lemma gsa_ids_length isz x : 0 <= Z.of_nat (length (gsa_ids isz x)) <= 12.
Proof.
  unfold gsa_ids. split; [lia|].
  assert (H : (length (omap (Atoi isz) (take 12 (drop 3 x))) <= 12)%nat).
  { etrans; [apply omap_length_le|]. rewrite length_take. lia. }
  lia.
Qed.

Lemma gsa_count_update_Satellites tmp sat sb gl :
  0 <= sat <= 12 ->
  SituationData.Satellites (gsa_count_update tmp sat sb gl) =
  if (sat <? 12) || (SituationData.Satellites tmp <? 13)
  then sat + (if (SituationData.Quality tmp =? 2) && negb sb && negb gl
              then 1 else 0)
  else SituationData.Satellites tmp.
Proof.
  intros Hsat. unfold gsa_count_update.
  destruct ((sat <? 12) || (SituationData.Satellites tmp <? 13)); [|reflexivity].
  cbn [SituationData.Quality SituationData.set_Satellites SituationData.Satellites].
  assert (H1 : to_uint16 sat = sat) by (apply to_uint16_small; lia).
  assert (H2 : to_uint16 (sat + 1) = sat + 1) by (apply to_uint16_small; lia).
  destruct ((SituationData.Quality tmp =? 2) && negb sb && negb gl);
    cbn [SituationData.set_Satellites SituationData.Satellites];
    rewrite ?H1, ?H2; lia.
Qed.

Lemma bind_index_Ret {B} x i (k : string -> M B) w b w' :
  bind (index x i) k w = (Ret b, w') ->
  exists s, x !! Z.to_nat i = Some s /\ k s w = (Ret b, w').
Proof.
  intros H. apply bind_Ret_inv in H as [H|(s & w1 & Hs & H)].
  - apply index_inv in H as [_ [(s & Hs & _)|Hs]]; discriminate.
  - apply index_inv in Hs as [-> [(s' & Hs & Hl)|Hs]]; [|discriminate].
    injection Hs as ->. eauto.
Qed.

Lemma bind_or_return_false_true {A B} (o : option A) (k : A -> M B) w w' :
  bind (or_return_false o) k w = (Ret true, w') ->
  exists a, o = Some a /\ k a w = (Ret true, w').
Proof.
  intros H. apply bind_Ret_inv in H as [H|(a & w1 & Ha & H)].
  - apply or_return_false_inv in H as [_ [(a & Ha & _)|Ha]]; discriminate.
  - apply or_return_false_inv in Ha as [-> [(a' & Ha & Ho)|Ha]]; [|discriminate].
    injection Ha as ->. eauto.
Qed.

Lemma bind_slice_list_Ret {B} x lo hi (k : list string -> M B) w b w' :
  bind (slice_list x lo hi) k w = (Ret b, w') ->
  k (take (Z.to_nat (hi - lo)) (drop (Z.to_nat lo) x)) w = (Ret b, w').
Proof.
  intros H. apply bind_Ret_inv in H as [H|(s & w1 & Hs & H)].
  - apply slice_list_inv in H as [_ [H|H]]; discriminate.
  - apply slice_list_inv in Hs as [-> [Hs|Hs]]; [|discriminate].
    injection Hs as ->. exact H.
Qed.

(** What an accepted GSA sentence leaves in [Satellites]: the result of
    the count-update step on the record as it was before the call. *)
Lemma handleGSA_accept rt x w w' :
  handleGSA rt x w = (Ret true, w') ->
  SituationData.Satellites (mySituation w') =
  SituationData.Satellites
    (gsa_count_update (mySituation w)
       (Z.of_nat (length (gsa_ids (intSize rt) x)))
       (existsb is_sbas_id (gsa_ids (intSize rt) x))
       (existsb is_glonass_id (gsa_ids (intSize rt) x))).
Proof.
  unfold handleGSA. intros H.
  unfold bind at 1, get in H.
  destruct (Z.of_nat (length x) <? 18); [discriminate|].
  apply bind_index_Ret in H as (x2 & _ & H).
  destruct (String.eqb x2 "" || String.eqb x2 "1"); [discriminate|].
  apply bind_slice_list_Ret in H.
  change (Z.to_nat (15 - 3)) with 12%nat in H. change (Z.to_nat 3) with 3%nat in H.
  apply bind_Ret_inv in H as [H|(r & w1 & Hloop & H)];
    destruct (gsa_loop_result (intSize rt) (take 12 (drop 3 x)) 0 false false w)
      as (w2 & Heq).
  { rewrite Heq in H. discriminate. }
  rewrite Heq in Hloop. injection Hloop as <- <-.
  cbn [orb Z.add] in H. fold (gsa_ids (intSize rt) x) in H.
  apply bind_index_Ret in H as (x16 & _ & H).
  apply bind_or_return_false_true in H as (hdop & _ & H).
  apply bind_index_Ret in H as (x17 & _ & H).
  apply bind_or_return_false_true in H as (vdop & _ & H).
  unfold commit, bind, modify, return_ in H. injection H as <-.
  cbn [mySituation set_mySituation].
  destruct (SituationData.Quality _ =? 2); reflexivity.
Qed.

(** C2, as amended.  For every accepted GNGSA/GPGSA sentence: when fewer
    than 12 satellite numbers are present in fields 3-14, or the
    [Satellites] (in-solution) counter held less than 13 before the call,
    [Satellites] becomes the number of satellite numbers in the message,
    plus exactly 1 when the quality held before the call is 2 and neither
    an SBAS number (33-64) nor a GLONASS number (65-96) is among them;
    otherwise [Satellites] keeps the value it had before the call. *)
Theorem gsa_satellites_counter (rt : GoRuntime) (l payload : string) (w w' : World) :
  Codec.validateNMEAChecksum l = (payload, true) ->
  let x := Split1 payload "," in
  x !! 0%nat = Some "GNGSA" \/ x !! 0%nat = Some "GPGSA" ->
  processNMEALine rt l w = (Returned true, w') ->
  let ids := gsa_ids (intSize rt) x in
  let sat := Z.of_nat (length ids) in
  let before := SituationData.Satellites (mySituation w) in
  0 <= sat <= 12
  /\ SituationData.Satellites (mySituation w') =
     if (sat <? 12) || (before <? 13)
     then sat + (if (SituationData.Quality (mySituation w) =? 2)
                    && negb (existsb is_sbas_id ids)
                    && negb (existsb is_glonass_id ids)
                 then 1 else 0)
     else before.
Proof.
  intros Hv x Hx0 Hrun ids sat before.
  pose proof (gsa_ids_length (intSize rt) x) as Hsat. fold ids sat in Hsat.
  split; [exact Hsat|].
  unfold processNMEALine in Hrun.
  destruct (processNMEALine_body rt l w) as [r w1] eqn:Hbody.
  assert (Hr : r = Ret true /\ mySituation w' = mySituation w1).
  { destruct r as [u|b|]; try discriminate Hrun.
    injection Hrun as -> <-. split; [reflexivity|reflexivity]. }
  destruct Hr as [-> Hw']. rewrite Hw'. clear Hrun Hw'.
  unfold processNMEALine_body in Hbody. rewrite Hv in Hbody. cbn [negb] in Hbody.
  fold x in Hbody. unfold bind at 1, modify in Hbody.
  apply bind_index_Ret in Hbody as (x0 & Hx0' & Hbody).
  change (Z.to_nat 0) with 0%nat in Hx0'.
  assert (Hgsa :
    handleGSA rt x
      (set_mySituation
         (SituationData.set_LastValidNMEAMessage l
            (SituationData.set_LastValidNMEAMessageTime (stratuxClock w)
               (mySituation w))) w) = (Ret true, w1)).
  { destruct Hx0 as [Hx0|Hx0]; rewrite Hx0 in Hx0'; injection Hx0' as <-;
      cbn [String.eqb Ascii.eqb Bool.eqb orb] in Hbody;
      apply bind_Ret_inv in Hbody as [Hbody|(u & w2 & _ & Hbody)];
      [exact Hbody|discriminate|exact Hbody|discriminate]. }
  rewrite (handleGSA_accept _ _ _ _ Hgsa).
  fold ids sat. rewrite (gsa_count_update_Satellites _ _ _ _ Hsat).
  reflexivity.
Qed.

(** Spec scenario: seven GPS numbers, quality 2, no SBAS number: 7 + 1. *)
Lemma gsa_satellites_counter_witness :
  let rt := decimal_runtime Int32 in
  let l := "$GPGSA,A,3,01,02,03,04,05,06,07,,,,,,1.0,1.0,1.0*33" in
  SituationData.Satellites (mySituation (snd (processNMEALine rt l dgps_world))) = 8.
Proof.
  intros rt l.
  destruct (gsa_satellites_counter rt l
              "GPGSA,A,3,01,02,03,04,05,06,07,,,,,,1.0,1.0,1.0"
              dgps_world (snd (processNMEALine rt l dgps_world)))
    as [_ H].
  - reflexivity.
  - right. reflexivity.
  - vm_compute. reflexivity.
  - rewrite H. reflexivity.
Defined.

(** C2 as stated fails in both directions.  With quality 2 and the single
    GLONASS number 70 in the message the counter becomes 1, not 2; with
    twelve numbers in the message and a counter of 13 (13 satellites
    tracked) the counter stays 13 and is not set to 12. *)
Lemma gsa_counter_departs_from_claim :
  let rt := decimal_runtime Int32 in
  let r1 := processNMEALine rt "$GPGSA,A,3,70,,,,,,,,,,,,1.0,1.0,1.0*34" dgps_world in
  let w13 :=
    set_mySituation
      (SituationData.set_SatellitesTracked 13
         (SituationData.set_Satellites 13 SituationData.zero))
      (initWorld (60 * Second) 0) in
  let r2 := processNMEALine rt
              "$GPGSA,A,3,01,02,03,04,05,06,07,08,09,10,11,12,1.0,1.0,1.0*30" w13 in
  (fst r1 = Returned true
   /\ SituationData.Quality (mySituation dgps_world) = 2
   /\ SituationData.Satellites (mySituation (snd r1)) = 1)
  /\ (fst r2 = Returned true
      /\ SituationData.SatellitesTracked (mySituation w13) = 13
      /\ SituationData.Satellites (mySituation (snd r2)) = 13).
Proof. vm_compute. repeat split. Qed.

(** 256 tracked satellites are within reach of the parser: one PUBX,03
    sentence announcing them leaves a tracked count of 0. *)
Example crowded_sentence_wraps :
  let r := processNMEALine (decimal_runtime Int32) (crowded_sentence 256)
             (initWorld (60 * Second) 0) in
  fst r = Returned true
  /\ Z.of_nat (size (Satellites (snd r))) = 256
  /\ SituationData.SatellitesTracked (mySituation (snd r)) = 0.
Proof. vm_compute. repeat split. Qed.

(** ** The sentence parser: rejected sentences

    The handlers that work on the scratch copy [tmpSituation] and write it
    back on success keep their promise: a sentence they reject leaves the
    record and the map alone. *)

Lemma transactional_pure {A} (a : A) : transactional (pure a).
Proof. intros w r w' H. injection H as <- <-. right. split; reflexivity. Qed.

Lemma transactional_return {A} b : transactional (@return_ A b).
Proof. intros w r w' H. injection H as <- <-. right. split; reflexivity. Qed.

Lemma transactional_panic {A} : transactional (@panic A).
Proof. intros w r w' H. injection H as <- <-. right. split; reflexivity. Qed.

Lemma transactional_get : transactional get.
Proof. intros w r w' H. injection H as <- <-. right. split; reflexivity. Qed.

Lemma transactional_index x i : transactional (index x i).
Proof.
  unfold index. destruct (if 0 <=? i then x !! Z.to_nat i else None);
    [apply transactional_pure|apply transactional_panic].
Qed.

Lemma transactional_slice s lo hi : transactional (slice s lo hi).
Proof.
  unfold slice. destruct (str_slice s lo hi);
    [apply transactional_pure|apply transactional_panic].
Qed.

Lemma transactional_or_return_false {A} (o : option A) :
  transactional (or_return_false o).
Proof.
  unfold or_return_false. destruct o;
    [apply transactional_pure|apply transactional_return].
Qed.

Lemma transactional_bind {A B} (m : M A) (k : A -> M B) :
  transactional m -> (forall a, transactional (k a)) -> transactional (bind m k).
Proof.
  intros Hm Hk w r w' H. unfold bind in H.
  destruct (m w) as [[a|b|] w1] eqn:E.
  - destruct (Hm _ _ _ E) as [?|[Hs Hm1]]; [discriminate|].
    destruct (Hk a _ _ _ H) as [?|[Hs' Hm']]; [left; assumption|].
    right. split; congruence.
  - injection H as <- <-.
    destruct (Hm _ _ _ E) as [Hr|?]; [|right; assumption].
    injection Hr as ->. left. reflexivity.
  - injection H as <- <-.
    destruct (Hm _ _ _ E) as [?|?]; [discriminate|right; assumption].
Qed.

Lemma transactional_accepts {A} (m : M A) :
  (forall w, exists w', m w = (Ret true, w')) -> transactional m.
Proof.
  intros Hm w r w' H. destruct (Hm w) as (w1 & E). left. congruence.
Qed.

Lemma transactional_commit tmp : transactional (commit tmp).
Proof.
  apply transactional_accepts. intros w. eexists. reflexivity.
Qed.

Lemma transactional_sync_system_time rt gpsTime :
  transactional (sync_system_time rt gpsTime).
Proof.
  intros w r w' H. unfold sync_system_time, modify in H. injection H as <- <-.
  right. destruct (_ || _); split; reflexivity.
Qed.

Ltac transactional_step :=
  first
    [ apply transactional_commit
    | apply transactional_sync_system_time
    | apply transactional_accepts; intros ?; eexists; reflexivity
    | apply transactional_bind; [|intros ?]
    | apply transactional_pure
    | apply transactional_return
    | apply transactional_get
    | apply transactional_index
    | apply transactional_slice
    | apply transactional_or_return_false
    | match goal with
      | |- transactional (if ?c then _ else _) => destruct c
      | |- transactional (match ?o with Some _ => _ | None => _ end) => destruct o
      | |- transactional (let '(_, _) := ?p in _) => destruct p
      end ].

Lemma transactional_parse_hms rt s : transactional (parse_hms rt s).
Proof. unfold parse_hms. repeat transactional_step. Qed.

Lemma transactional_parse_deg_min rt s k : transactional (parse_deg_min rt s k).
Proof. unfold parse_deg_min. repeat transactional_step. Qed.

Lemma transactional_handleVTG rt x : transactional (handleVTG rt x).
Proof. unfold handleVTG. repeat transactional_step. Qed.

Lemma transactional_handleGGA rt x : transactional (handleGGA rt x).
Proof.
  unfold handleGGA.
  repeat first [apply transactional_parse_hms | apply transactional_parse_deg_min
               | transactional_step].
Qed.

Lemma transactional_handlePUBX00 rt x : transactional (handlePUBX00 rt x).
Proof.
  unfold handlePUBX00.
  repeat first [apply transactional_parse_hms | apply transactional_parse_deg_min
               | transactional_step].
Qed.

Lemma transactional_handleRMC rt x : transactional (handleRMC rt x).
Proof.
  unfold handleRMC.
  repeat first [apply transactional_parse_hms | apply transactional_parse_deg_min
               | transactional_step].
Qed.

Lemma transactional_handlePUBX04 rt x : transactional (handlePUBX04 rt x).
Proof.
  unfold handlePUBX04.
  repeat first [apply transactional_parse_hms | transactional_step].
Qed.

Lemma transactional_bind_index {B} x i (k : string -> M B) :
  (forall s, x !! Z.to_nat i = Some s -> transactional (k s)) ->
  transactional (bind (index x i) k).
Proof.
  intros Hk w r w' H. unfold bind in H.
  destruct (index x i w) as [[s|b|] w1] eqn:E;
    apply index_inv in E as [-> [(s' & Hs & Hl)|Hs]]; try discriminate.
  - injection Hs as <-. exact (Hk s Hl _ _ _ H).
  - injection H as <- <-. right. split; reflexivity.
Qed.

(** For every checksum-valid line that runs no satellite loop and is
    rejected, the record afterwards is the record before with the two
    liveness fields written, and the map is the map before. *)
Theorem rejected_sentence_untouched (rt : GoRuntime) (l payload : string)
    (w w' : World) :
  Codec.validateNMEAChecksum l = (payload, true) ->
  no_satellite_loop (Split1 payload ",") = true ->
  processNMEALine rt l w = (Returned false, w') ->
  mySituation w' =
    SituationData.set_LastValidNMEAMessage l
      (SituationData.set_LastValidNMEAMessageTime (stratuxClock w) (mySituation w))
  /\ Satellites w' = Satellites w.
Proof.
  intros Hv Hx Hrun.
  unfold processNMEALine in Hrun.
  destruct (processNMEALine_body rt l w) as [r w1] eqn:Hbody.
  assert (Hr : r <> Ret true
               /\ mySituation w' = mySituation w1 /\ Satellites w' = Satellites w1).
  { destruct r as [u|[|]|]; try discriminate Hrun;
      (split; [discriminate|]); cbn [orb] in Hrun;
      injection Hrun as <-; destruct (DEBUG w1); split; reflexivity. }
  destruct Hr as (Hne & -> & ->). clear Hrun.
  unfold processNMEALine_body in Hbody. rewrite Hv in Hbody. cbn [negb] in Hbody.
  unfold bind at 1, modify in Hbody.
  set (x := Split1 payload ",") in *.
  set (w0 := set_mySituation _ w) in Hbody.
  match type of Hbody with
  | ?m w0 = _ => assert (Ht : transactional m)
  end.
  { apply transactional_bind_index. intros x0 Hx0.
    destruct x as [|x0' rest]; [discriminate|]. injection Hx0 as ->.
    cbn [no_satellite_loop] in Hx.
    apply andb_true_iff in Hx as [Hsat Hpubx].
    apply negb_true_iff in Hsat, Hpubx.
    apply orb_false_iff in Hsat as [Hsat Hglgsv].
    apply orb_false_iff in Hsat as [Hsat Hgpgsv].
    apply orb_false_iff in Hsat as [Hgngsa Hgpgsa].
    rewrite Hgngsa, Hgpgsa, Hgpgsv, Hglgsv. cbn [orb].
    apply transactional_bind; [|intros _; apply transactional_return].
    destruct (String.eqb x0 "PUBX").
    - apply transactional_bind_index. intros x1 Hx1.
      destruct rest as [|x1' rest]; [discriminate|]. injection Hx1 as ->.
      cbn [andb] in Hpubx. rewrite Hpubx.
      destruct (String.eqb x1 "00"); [apply transactional_handlePUBX00|].
      destruct (String.eqb x1 "04"); [apply transactional_handlePUBX04|].
      apply transactional_pure.
    - destruct (_ || _); [apply transactional_handleVTG|].
      destruct (_ || _); [apply transactional_handleGGA|].
      destruct (_ || _); [apply transactional_handleRMC|].
      apply transactional_pure. }
  destruct (Ht _ _ _ Hbody) as [?|[Hs Hm]]; [contradiction|].
  rewrite Hs, Hm. split; reflexivity.
Qed.

Lemma rejected_sentence_untouched_witness :
  let rt := decimal_runtime Int32 in
  let w := initWorld (60 * Second) 0 in
  let l := "$GPGGA,123519,4807.038,N,01131.000,E,1,08,0.9,545.4,M,46.9,M,,*47" in
  Satellites (snd (processNMEALine rt l w)) = Satellites w.
Proof.
  intros rt w l.
  apply (rejected_sentence_untouched rt l
           "GPGGA,123519,4807.038,N,01131.000,E,1,08,0.9,545.4,M,46.9,M,,"
           w (snd (processNMEALine rt l w)));
    vm_compute; reflexivity.
Defined.

(** * Further properties *)

(** ** Checksum validation *)

Lemma Contains1_split s c :
  Contains1 s c = true ->
  exists a b, s = a ++ String c b /\ Contains1 a c = false
              /\ Split1 s c = a :: Split1 b c.
Proof.
  induction s as [|d r IH]; cbn [Contains1 Split1]; intros H; [discriminate|].
  destruct (Ascii.eqb_spec d c) as [->|Hne].
  - exists EmptyString, r. repeat split.
  - cbn [orb] in H. destruct (IH H) as (a & b & -> & Ha & Hs).
    exists (String d a), b. repeat split.
    + cbn [Contains1]. rewrite Ha. destruct (Ascii.eqb_spec d c); [contradiction|reflexivity].
    + rewrite Hs. reflexivity.
Qed.

(** The first piece of a split is a prefix of the string that holds no
    separator. *)
Lemma Split1_head s c :
  exists h t r, Split1 s c = h :: t /\ s = h ++ r /\ Contains1 h c = false.
Proof.
  induction s as [|d s IH]; cbn [Split1].
  - exists EmptyString, [], EmptyString. repeat split.
  - destruct (Ascii.eqb_spec d c) as [->|Hne].
    + exists EmptyString, (Split1 s c), (String c s). repeat split.
    + destruct IH as (h & t & r & -> & -> & Hh).
      exists (String d h), t, r. repeat split.
      cbn [Contains1]. rewrite Hh.
      destruct (Ascii.eqb_spec d c); [contradiction|reflexivity].
Qed.

Lemma ParseUint_16_8_go_range s : forall acc v,
  0 <= acc <= 255 -> ParseUint_16_8_go s acc = Some v -> 0 <= v <= 255.
Proof.
  induction s as [|c r IH]; cbn [ParseUint_16_8_go]; intros acc v Hacc H.
  - injection H as <-. exact Hacc.
  - destruct (hex_value c) as [d|] eqn:Hd; [|discriminate].
    assert (0 <= d <= 15).
    { unfold hex_value in Hd. pose proof (byte_of_range c).
      repeat match type of Hd with
             | (if ?b then _ else _) = _ =>
                 let E := fresh "E" in
                 destruct b eqn:E;
                 [let E1 := fresh "E" in let E2 := fresh "E" in
                  apply andb_true_iff in E as [E1 E2];
                  apply Z.leb_le in E1; apply Z.leb_le in E2|]
             end; try discriminate; injection Hd as <-; lia. }
    destruct (Z.ltb_spec 255 (acc * 16 + d)); [discriminate|].
    eapply IH; [|exact H]. lia.
Qed.

Lemma ParseUint_16_8_range s v : ParseUint_16_8 s = Some v -> 0 <= v <= 255.
Proof.
  unfold ParseUint_16_8. destruct s; [discriminate|].
  apply ParseUint_16_8_go_range. lia.
Qed.

Lemma hex_pair_no_star c1 c2 v :
  ParseUint_16_8 (String c1 (String c2 EmptyString)) = Some v ->
  Ascii.eqb c1 "*" = false /\ Ascii.eqb c2 "*" = false.
Proof.
  cbn [ParseUint_16_8 ParseUint_16_8_go]. intros H.
  destruct (hex_value c1) eqn:H1; [|discriminate].
  destruct (_ <? _); [discriminate|].
  destruct (hex_value c2) eqn:H2; [|discriminate].
  split.
  - destruct (Ascii.eqb_spec c1 "*") as [->|]; [discriminate H1|reflexivity].
  - destruct (Ascii.eqb_spec c2 "*") as [->|]; [discriminate H2|reflexivity].
Qed.

(** What an accepted string looks like. *)
Lemma validate_accepts_inv (s out : string) :
  Codec.validateNMEAChecksum s = (out, true) ->
  exists c1 c2 tail,
    s = "$" ++ out ++ "*" ++ String c1 (String c2 tail)
    /\ Contains1 out "*" = false
    /\ ParseUint_16_8 (String c1 (String c2 EmptyString)) = Some (xor_checksum out).
Proof.
  unfold Codec.validateNMEAChecksum. intros H.
  destruct s as [|d s']; [discriminate|].
  cbn [HasPrefix1 Contains1 TrimPrefix1] in H.
  destruct (Ascii.eqb_spec d "$") as [->|]; [|discriminate].
  cbn [orb andb] in H.
  destruct (Contains1 s' "*") eqn:Hc; [|discriminate]. cbn [negb] in H.
  destruct (Contains1_split _ _ Hc) as (a & b & -> & Ha & Hs).
  rewrite Hs in H. cbn [nth] in H.
  destruct (Split1_head b "*") as (h & t & r & Hb & -> & Hh).
  rewrite Hb in H. cbn [nth] in H.
  destruct h as [|c1 [|c2 h']]; try discriminate H.
  assert (E : (len (String c1 (String c2 h')) <? 2) = false).
  { apply Z.ltb_ge. unfold len. cbn [String.length]. lia. }
  rewrite E in H. cbn [str_take] in H.
  destruct (ParseUint_16_8 (String c1 (String c2 EmptyString))) as [cs|] eqn:Hp;
    [|discriminate].
  pose proof (ParseUint_16_8_range _ _ Hp) as Hr.
  rewrite to_uint8_small in H by lia.
  destruct (Z.eqb_spec (xor_checksum a) cs) as [<-|]; [|discriminate].
  cbn [negb] in H. injection H as <-.
  exists c1, c2, (h' ++ r). repeat split; assumption.
Qed.

(** Every string of that form is accepted. *)
Lemma validate_accepts_intro (out : string) (c1 c2 : ascii) (tail : string) :
  Contains1 out "*" = false ->
  ParseUint_16_8 (String c1 (String c2 EmptyString)) = Some (xor_checksum out) ->
  Codec.validateNMEAChecksum ("$" ++ out ++ "*" ++ String c1 (String c2 tail))
  = (out, true).
Proof.
  intros Hstar Hp.
  destruct (hex_pair_no_star _ _ _ Hp) as [H1 H2].
  pose proof (ParseUint_16_8_range _ _ Hp) as Hr.
  unfold Codec.validateNMEAChecksum.
  change ("$" ++ out ++ "*" ++ String c1 (String c2 tail))
    with (String "$" (out ++ String "*" (String c1 (String c2 tail)))).
  cbn [HasPrefix1 TrimPrefix1 Contains1].
  rewrite Ascii.eqb_refl, Contains1_app_char, orb_true_r. cbn [andb negb].
  rewrite (Split1_first _ _ _ Hstar). cbn [Split1]. rewrite H1, H2.
  destruct (Split1_head tail "*") as (h & t & r & -> & _ & _).
  cbn [nth str_take].
  assert (E : (len (String c1 (String c2 h)) <? 2) = false).
  { apply Z.ltb_ge. unfold len. cbn [String.length]. lia. }
  rewrite E, Hp, to_uint8_small, Z.eqb_refl by lia. reflexivity.
Qed.

(** X1. [validateNMEAChecksum] accepts a string exactly when it is ["$"],
    a payload without ['*'], ["*"], two hexadecimal digits (of either case)
    whose value is the XOR checksum of the payload, and then anything at
    all; what it returns is that payload. *)
Theorem validateNMEAChecksum_accepts_iff (s out : string) :
  Codec.validateNMEAChecksum s = (out, true) <->
  exists c1 c2 tail,
    s = "$" ++ out ++ "*" ++ String c1 (String c2 tail)
    /\ Contains1 out "*" = false
    /\ ParseUint_16_8 (String c1 (String c2 EmptyString)) = Some (xor_checksum out).
Proof.
  split.
  - apply validate_accepts_inv.
  - intros (c1 & c2 & tail & -> & Hstar & Hp).
    apply validate_accepts_intro; assumption.
Qed.

(** X2. Building a command and validating it gives the command back
    exactly when the command holds no ['*']: neither ASCII nor the absence
    of ['$'] is needed, and a ['*'] always breaks the round trip. *)
Theorem nmea_roundtrip_iff (cmd : string) :
  Codec.validateNMEAChecksum (Codec.makeNMEACmd cmd) = (cmd, true)
  <-> Contains1 cmd "*" = false.
Proof.
  split.
  - intros H. apply validate_accepts_inv in H.
    destruct H as (_ & _ & _ & _ & H & _). exact H.
  - apply validate_makeNMEACmd.
Qed.

(** ** What the checksum does not cover *)

Lemma append_cons c (r t : string) : String c r ++ t = String c (r ++ t).
Proof. reflexivity. Qed.

Lemma append_nil (t : string) : "" ++ t = t.
Proof. reflexivity. Qed.

Lemma Contains1_app s t c : Contains1 (s ++ t) c = Contains1 s c || Contains1 t c.
Proof.
  induction s as [|d s IH]; [reflexivity|].
  rewrite append_cons. cbn [Contains1]. rewrite IH, orb_assoc. reflexivity.
Qed.

Lemma string_app_inv_head (p x y : string) : p ++ x = p ++ y -> x = y.
Proof.
  induction p as [|c p IH]; intros H; [exact H|].
  rewrite !append_cons in H. injection H as H. exact (IH H).
Qed.

Lemma xor_range_ascii_app a : forall rest acc,
  is_ascii a = true ->
  xor_range 0 (a ++ rest) acc = xor_range 0 rest (xor_range 0 a acc).
Proof.
  induction a as [|c r IH]; intros rest acc Ha; [reflexivity|].
  cbn [is_ascii] in Ha. apply andb_true_iff in Ha as [Hc Hr].
  assert (Hw : rune_shape (byte_of c) = None).
  { unfold rune_shape. apply Z.ltb_lt in Hc.
    destruct (Z.ltb_spec (byte_of c) 194); [reflexivity|lia]. }
  rewrite append_cons. cbn [xor_range rune_width]. rewrite Hw.
  cbn [Nat.sub]. apply IH. exact Hr.
Qed.

(** [range] steps over the second byte of a two-byte sequence. *)
Lemma xor_range_two_byte c k rest acc :
  0xC2 <= byte_of c < 0xE0 -> 0x80 <= byte_of k <= 0xBF ->
  xor_range 0 (String c (String k rest)) acc
  = xor_range 0 rest (Z.lxor acc (byte_of c)).
Proof.
  intros Hc Hk. cbn [xor_range rune_width].
  assert (Hs : rune_shape (byte_of c) = Some (2%nat, 0x80, 0xBF)).
  { unfold rune_shape.
    destruct (Z.ltb_spec (byte_of c) 194); [lia|].
    destruct (Z.ltb_spec (byte_of c) 224); [reflexivity|lia]. }
  rewrite Hs. cbn [cont_byte].
  destruct (Z.leb_spec 128 (byte_of k)); [|lia].
  destruct (Z.leb_spec (byte_of k) 191); [|lia].
  reflexivity.
Qed.

(** X3. The checksum loops run [for i := range s] and so visit only the
    first byte of each UTF-8 sequence.  A valid line whose payload holds a
    two-byte sequence after an ASCII prefix stays valid, with the same
    checksum digits, when the second byte of the sequence is replaced by
    any other continuation byte. *)
Theorem checksum_skips_continuation_byte (a b cs : string) (c k1 k2 : ascii) :
  is_ascii a = true ->
  0xC2 <= byte_of c < 0xE0 ->
  0x80 <= byte_of k1 <= 0xBF ->
  0x80 <= byte_of k2 <= 0xBF ->
  Codec.validateNMEAChecksum ("$" ++ (a ++ String c (String k1 b)) ++ "*" ++ cs)
  = (a ++ String c (String k1 b), true) ->
  Codec.validateNMEAChecksum ("$" ++ (a ++ String c (String k2 b)) ++ "*" ++ cs)
  = (a ++ String c (String k2 b), true).
Proof.
  intros Ha Hc Hk1 Hk2 H.
  apply validate_accepts_inv in H as (c1 & c2 & tail & Heq & Hstar & Hp).
  rewrite !append_cons, !append_nil in Heq. injection Heq as Heq.
  apply string_app_inv_head in Heq. rewrite ?append_cons, ?append_nil in Heq.
  injection Heq as ->.
  assert (Hsum : xor_checksum (a ++ String c (String k2 b))
                 = xor_checksum (a ++ String c (String k1 b))).
  { unfold xor_checksum.
    rewrite !xor_range_ascii_app, !xor_range_two_byte by assumption. reflexivity. }
  apply validate_accepts_intro.
  - rewrite Contains1_app in Hstar |- *. cbn [Contains1] in Hstar |- *.
    apply orb_false_iff in Hstar as [-> Hstar].
    apply orb_false_iff in Hstar as [-> Hstar].
    apply orb_false_iff in Hstar as [_ ->].
    destruct (Ascii.eqb_spec k2 "*") as [->|]; [|reflexivity].
    vm_compute in Hk2. destruct Hk2 as [Hk2 _]. exfalso. apply Hk2. reflexivity.
  - rewrite Hsum. exact Hp.
Qed.

Lemma checksum_skips_continuation_byte_witness :
  Codec.validateNMEAChecksum
    ("$" ++ ("GPTXT," ++ String (ascii_of_byte 195) (String (ascii_of_byte 168) "t"))
         ++ "*" ++ "d4")
  = ("GPTXT," ++ String (ascii_of_byte 195) (String (ascii_of_byte 168) "t"), true).
Proof.
  apply (checksum_skips_continuation_byte "GPTXT," "t" "d4"
           (ascii_of_byte 195) (ascii_of_byte 169) (ascii_of_byte 168));
    vm_compute; try reflexivity; split; try discriminate; reflexivity.
Defined.

(** ** UBX frames: reading a frame back *)

Lemma length_word_le msglen :
  0 <= msglen < 65536 ->
  to_uint8 (Z.land msglen 0xFF)
  + 256 * to_uint8 (Z.land (Z.shiftr msglen 8) 0xFF) = msglen.
Proof.
  intros H.
  change 0xFF with (Z.ones 8). rewrite !Z.land_ones by lia.
  rewrite Z.shiftr_div_pow2 by lia. change (2 ^ 8) with 256.
  unfold to_uint8, wrap_unsigned. change (2 ^ 8) with 256.
  rewrite !Z.mod_mod by lia.
  assert (0 <= msglen / 256 < 256).
  { split; [apply Z.div_pos; lia|apply Z.div_lt_upper_bound; lia]. }
  rewrite (Z.mod_small (msglen / 256)) by lia.
  pose proof (Z.div_mod msglen 256 ltac:(lia)). lia.
Qed.

(** X4. A frame built by [makeUBXCFG] is eight bytes longer than its
    payload, starts with the sync bytes [0xB5 0x62], carries the length
    argument little-endian at offsets 4 and 5 (the argument, whatever the
    length of the payload is), the payload from offset 6 on, and ends in two
    checksum bytes that are bytes. *)
Theorem makeUBXCFG_frame (class id msglen : Z) (msg : list Z) :
  0 <= msglen < 65536 ->
  let frame := Codec.makeUBXCFG class id msglen msg in
  length frame = (length msg + 8)%nat
  /\ take 4 frame = [0xB5; 0x62; class; id]
  /\ nth 4 frame 0 + 256 * nth 5 frame 0 = msglen
  /\ take (length msg) (drop 6 frame) = msg
  /\ (forall b, b ∈ drop (length msg + 6) frame -> 0 <= b < 256).
Proof.
  intros Hlen frame. subst frame. rewrite makeUBXCFG_layout.
  set (body := ([class; id; _; _] ++ msg)%list).
  pose proof (fletcher8_range body) as [Ha Hb].
  generalize dependent (fletcher8 body). intros ck Ha Hb.
  cbn [app take drop nth length].
  repeat split.
  - rewrite length_app. subst body. cbn [length app]. lia.
  - apply length_word_le. exact Hlen.
  - apply take_app_length.
  - replace (length msg + 6)%nat with (6 + length msg)%nat in H by lia.
    subst body. cbn [Nat.add drop app] in H. rewrite drop_app_length in H.
    apply elem_of_cons in H as [->|H]; [lia|].
    apply list_elem_of_singleton in H as ->. lia.
  - replace (length msg + 6)%nat with (6 + length msg)%nat in H by lia.
    subst body. cbn [Nat.add drop app] in H. rewrite drop_app_length in H.
    apply elem_of_cons in H as [->|H]; [lia|].
    apply list_elem_of_singleton in H as ->. lia.
Qed.

Lemma makeUBXCFG_frame_witness :
  nth 4 (Codec.makeUBXCFG 6 0x24 36 (replicate 36 0)) 0
  + 256 * nth 5 (Codec.makeUBXCFG 6 0x24 36 (replicate 36 0)) 0 = 36.
Proof.
  destruct (makeUBXCFG_frame 6 0x24 36 (replicate 36 0)) as (_ & _ & H & _);
    [lia|exact H].
Defined.

(** ** Constellation tracker: what maintenance keeps *)

Lemma maintained_idempotent now s s' :
  maintained now s = Some s' -> maintained now s' = Some s'.
Proof.
  unfold maintained.
  destruct (10 * Second <? Since now (SatelliteInfo.TimeLastTracked s)) eqn:E1;
    [discriminate|].
  destruct (5 * Second <? Since now (SatelliteInfo.TimeLastSolution s)) eqn:E2;
    intros H; injection H as <-;
    cbn [SatelliteInfo.set_InSolution SatelliteInfo.TimeLastTracked
         SatelliteInfo.TimeLastSolution]; rewrite E1, E2; reflexivity.
Qed.

Lemma omap_maintained_idempotent now (m : gmap string SatelliteInfo.t) :
  omap (maintained now) (omap (maintained now) m) = omap (maintained now) m.
Proof.
  apply map_eq. intros k. rewrite !lookup_omap.
  destruct (m !! k) as [s|]; [|reflexivity]. cbn.
  destruct (maintained now s) as [s'|] eqn:E; [|reflexivity]. cbn.
  exact (maintained_idempotent _ _ _ E).
Qed.

(** X5. [updateConstellation] is idempotent: run again at the same clock
    value it changes neither the map nor the counters. *)
Theorem updateConstellation_idempotent (w : World) :
  updateConstellation (updateConstellation w) = updateConstellation w.
Proof.
  rewrite (updateConstellation_unfold (updateConstellation w)).
  cbn zeta. rewrite updateConstellation_map.
  rewrite (updateConstellation_unfold w). cbn zeta.
  cbn [stratuxClock set_mySituation set_Satellites].
  rewrite omap_maintained_idempotent. reflexivity.
Qed.

(** X6. Maintenance adds no entry, drops no entry tracked within the last
    10 s, changes nothing in a record it keeps but [InSolution], and never
    sets that flag; of the situation record it writes the three counters
    only, and it leaves the clock, the flags and the event log alone. *)
Theorem updateConstellation_keeps (w : World) :
  let w' := updateConstellation w in
  (forall k s', Satellites w' !! k = Some s' ->
     exists s, Satellites w !! k = Some s
               /\ s' = SatelliteInfo.set_InSolution (SatelliteInfo.InSolution s') s
               /\ (SatelliteInfo.InSolution s' = true ->
                   SatelliteInfo.InSolution s = true))
  /\ (forall k s, Satellites w !! k = Some s ->
        Since (stratuxClock w) (SatelliteInfo.TimeLastTracked s) <= 10 * Second ->
        is_Some (Satellites w' !! k))
  /\ (exists sats tracked seen,
        mySituation w' =
        SituationData.set_SatellitesSeen seen
          (SituationData.set_SatellitesTracked tracked
             (SituationData.set_Satellites sats (mySituation w))))
  /\ stratuxClock w' = stratuxClock w /\ time_Now w' = time_Now w
  /\ GPS_connected w' = GPS_connected w /\ DEBUG w' = DEBUG w
  /\ events w' = events w.
Proof.
  intros w'. subst w'. rewrite updateConstellation_unfold.
  cbn [Satellites set_Satellites set_mySituation mySituation stratuxClock time_Now
       GPS_connected DEBUG events].
  split; [|split; [|split; [|repeat split]]].
  - intros k s' Hk. apply lookup_omap_Some in Hk as (s & Hm & Hs).
    exists s. split; [exact Hs|].
    unfold maintained in Hm.
    destruct (10 * Second <? _); [discriminate|].
    destruct (5 * Second <? _); injection Hm as <-.
    + split; [reflexivity|]. cbn. discriminate.
    + split; [destruct s; reflexivity|]. tauto.
  - intros k s Hk Hfresh. rewrite lookup_omap, Hk. cbn.
    unfold maintained.
    destruct (Z.ltb_spec (10 * Second)
                (Since (stratuxClock w) (SatelliteInfo.TimeLastTracked s))); [lia|].
    eexists. reflexivity.
  - do 3 eexists. reflexivity.
Qed.

(** X7. While at most 255 records are left after maintenance, the
    counters are ordered: the numbers of satellites in solution and with a
    signal are at most the number tracked. *)
Theorem updateConstellation_counters_order (w : World) :
  let w' := updateConstellation w in
  Z.of_nat (size (Satellites w')) <= 255 ->
  SituationData.Satellites (mySituation w')
    <= SituationData.SatellitesTracked (mySituation w')
  /\ SituationData.SatellitesSeen (mySituation w')
    <= SituationData.SatellitesTracked (mySituation w').
Proof.
  intros w'. subst w'. rewrite updateConstellation_unfold.
  cbn [Satellites set_Satellites set_mySituation mySituation
       SituationData.Satellites SituationData.SatellitesTracked
       SituationData.SatellitesSeen SituationData.set_Satellites
       SituationData.set_SatellitesTracked SituationData.set_SatellitesSeen].
  rewrite !uint8_is_uint16.
  set (m' := omap (maintained (stratuxClock w)) (Satellites w)).
  intros Hsize.
  pose proof (count_where_bound SatelliteInfo.InSolution m').
  pose proof (count_where_bound has_signal m').
  rewrite !Z.mod_small by lia. lia.
Qed.

Lemma updateConstellation_counters_order_witness :
  SituationData.Satellites (mySituation (updateConstellation (crowded_world 3)))
    <= SituationData.SatellitesTracked
         (mySituation (updateConstellation (crowded_world 3))).
Proof.
  destruct (updateConstellation_counters_order (crowded_world 3)) as [H _];
    [vm_compute; discriminate|exact H].
Defined.

(** ** Satellite identifiers *)

Lemma key_eq_inv (c1 c2 : ascii) (a b : Z) :
  String c1 (fmt_d a) = String c2 (fmt_d b) -> c1 = c2 /\ a = b.
Proof.
  intros H. injection H as -> H. split; [reflexivity|].
  unfold fmt_d in H. exact (pretty_Z_inj _ _ H).
Qed.

Ltac classify_cases :=
  repeat match goal with
         | |- context [?a <=? ?b] => destruct (Z.leb_spec a b)
         | |- context [?a <? ?b] => destruct (Z.ltb_spec a b)
         | H : context [?a <=? ?b] |- _ => destruct (Z.leb_spec a b)
         | H : context [?a <? ?b] |- _ => destruct (Z.ltb_spec a b)
         end;
  cbn [andb fst snd] in *.

Ltac key_eq :=
  match goal with
  | H : _ +:+ fmt_d _ = _ +:+ fmt_d _ |- _ =>
      apply key_eq_inv in H as [? ?]; try discriminate
  end.

(** X8. The PUBX,03 handler files two satellite numbers under the same
    identifier exactly when they are equal or are the NMEA number [n]
    (33-64) and the PRN [n + 87] of one SBAS satellite; the two then get
    the same family and the same stored NMEA number as well. *)
Theorem classify_pubx03_same_key (a b : Z) :
  ((classify_pubx03 a).1.2 = (classify_pubx03 b).1.2 <->
   a = b \/ (33 <= a < 65 /\ b = a + 87) \/ (33 <= b < 65 /\ a = b + 87))
  /\ ((classify_pubx03 a).1.2 = (classify_pubx03 b).1.2 ->
      classify_pubx03 a = classify_pubx03 b).
Proof.
  assert (Hcond : a = b \/ (33 <= a < 65 /\ b = a + 87) \/ (33 <= b < 65 /\ a = b + 87)
                  -> classify_pubx03 a = classify_pubx03 b).
  { intros [->|[[Hr ->]|[Hr ->]]]; [reflexivity| |];
      unfold classify_pubx03; classify_cases; try lia;
      repeat f_equal; lia. }
  assert (Hkey : (classify_pubx03 a).1.2 = (classify_pubx03 b).1.2 ->
                 a = b \/ (33 <= a < 65 /\ b = a + 87) \/ (33 <= b < 65 /\ a = b + 87)).
  { unfold classify_pubx03. classify_cases; intros Hk; key_eq; lia. }
  split; [split|]; [exact Hkey| |].
  - intros H. rewrite (Hcond H). reflexivity.
  - intros H. exact (Hcond (Hkey H)).
Qed.

(** X9. The GSA and GSV handlers never file two different satellite
    numbers under one identifier, and they agree with each other on every
    number. *)
Theorem classify_nmea_injective (a b : Z) :
  ((classify_nmea a).2 = (classify_nmea b).2 <-> a = b)
  /\ (classify_gsa a).1.1 = classify_nmea a.
Proof.
  split; [split|].
  - unfold classify_nmea. classify_cases; intros Hk; key_eq; lia.
  - intros ->. reflexivity.
  - unfold classify_gsa, classify_nmea. classify_cases; reflexivity.
Qed.

(** X10. The PUBX,03 handler and the GSA/GSV handlers give a satellite
    number the same family and identifier except for the SBAS PRNs 120-161:
    PUBX,03 files these as SBAS under ["S<prn>"], GSA and GSV as unknown
    under ["U<prn>"], so that the two kinds of sentence keep separate
    records for such a satellite. *)
Theorem classify_handlers_agree (sv : Z) :
  ((classify_pubx03 sv).1 = classify_nmea sv <-> ~ (120 <= sv < 162))
  /\ (120 <= sv < 162 ->
      (classify_pubx03 sv).1 = (SAT_TYPE_SBAS, "S" +:+ fmt_d sv)
      /\ classify_nmea sv = (SAT_TYPE_UNKNOWN, "U" +:+ fmt_d sv)).
Proof.
  unfold classify_pubx03, classify_nmea. split; [split|].
  - classify_cases; intros Hk; try lia; discriminate Hk.
  - classify_cases; intros Hk; try reflexivity; lia.
  - intros Hk. classify_cases; try lia. split; reflexivity.
Qed.

Lemma classify_handlers_agree_witness :
  (classify_pubx03 138).1 = (SAT_TYPE_SBAS, "S" +:+ fmt_d 138)
  /\ classify_nmea 138 = (SAT_TYPE_UNKNOWN, "U" +:+ fmt_d 138).
Proof.
  destruct (classify_handlers_agree 138) as [_ H]. apply H. lia.
Defined.

(** ** Validity predicates: the no-fix latch *)

(** X11. Once [isGPSValid] has returned false it has latched: called on
    any world that holds the record it left, at whatever clock value and
    with whatever connection flag, it returns false again and changes
    nothing. *)
Theorem isGPSValid_latches (w w2 : World) :
  fst (isGPSValid w) = false ->
  mySituation w2 = mySituation (snd (isGPSValid w)) ->
  isGPSValid w2 = (false, w2).
Proof.
  intros Hf Hs. rewrite (isGPSValid_false_frame w Hf) in Hs.
  cbn [mySituation set_mySituation] in Hs.
  unfold isGPSValid. rewrite Hs.
  cbn [SituationData.Quality SituationData.set_Satellites SituationData.set_Quality].
  rewrite andb_false_r. f_equal.
  rewrite <- Hs. destruct w2 as [s m c n g d e].
  cbn [mySituation set_mySituation Satellites stratuxClock time_Now GPS_connected
       DEBUG events] in *.
  f_equal. rewrite Hs. reflexivity.
Qed.

Lemma isGPSValid_latches_witness :
  let w := mkWorld (SituationData.set_Satellites 7
                      (SituationData.set_Quality 1 SituationData.zero))
                   ∅ (16 * Second) 0 true false [] in
  let w2 := mkWorld (mySituation (snd (isGPSValid w))) ∅ (17 * Second) 5 true true [] in
  isGPSValid w2 = (false, w2).
Proof.
  intros w w2. apply (isGPSValid_latches w w2); reflexivity.
Defined.

(** ** Rules for statements *)

Lemma wp_pure {A} (a : A) (Q : Res A -> World -> Prop) w :
  Q (Val a) w -> wp (pure a) Q w.
Proof. exact id. Qed.

Lemma wp_return {A} b (Q : Res A -> World -> Prop) w :
  Q (Ret b) w -> wp (return_ b) Q w.
Proof. exact id. Qed.

Lemma wp_panic {A} (Q : Res A -> World -> Prop) w :
  Q Panic w -> wp panic Q w.
Proof. exact id. Qed.

Lemma wp_modify f (Q : Res unit -> World -> Prop) w :
  Q (Val tt) (f w) -> wp (modify f) Q w.
Proof. exact id. Qed.

Lemma wp_commit tmp (Q : Res unit -> World -> Prop) w :
  Q (Ret true) (set_mySituation tmp w) -> wp (commit tmp) Q w.
Proof. exact id. Qed.

Lemma wp_bind {A B} (m : M A) (k : A -> M B) (Q : Res B -> World -> Prop) w :
  wp m (fun r w1 => match r with
                    | Val a => wp (k a) Q w1
                    | Ret b => Q (Ret b) w1
                    | Panic => Q Panic w1
                    end) w ->
  wp (bind m k) Q w.
Proof. unfold wp, bind. destruct (m w) as [[a|b|] w1]; exact id. Qed.

Lemma wp_conseq {A} (m : M A) (Q Q' : Res A -> World -> Prop) w :
  (forall r w', Q r w' -> Q' r w') -> wp m Q w -> wp m Q' w.
Proof. unfold wp. auto. Qed.

Lemma wp_bind_pure {A B} (a : A) (k : A -> M B) (Q : Res B -> World -> Prop) w :
  wp (k a) Q w -> wp (bind (pure a) k) Q w.
Proof. exact id. Qed.

Lemma wp_bind_return {A B} b (k : A -> M B) (Q : Res B -> World -> Prop) w :
  Q (Ret b) w -> wp (bind (return_ b) k) Q w.
Proof. exact id. Qed.

Lemma wp_bind_assoc {A B C} (m : M A) (k1 : A -> M B) (k2 : B -> M C)
    (Q : Res C -> World -> Prop) w :
  wp (bind m (fun a => bind (k1 a) k2)) Q w -> wp (bind (bind m k1) k2) Q w.
Proof. unfold wp, bind. destruct (m w) as [[a|b|] w1]; exact id. Qed.

Lemma wp_bind_get {B} (k : World -> M B) (Q : Res B -> World -> Prop) w :
  wp (k w) Q w -> wp (bind get k) Q w.
Proof. exact id. Qed.

Lemma wp_bind_modify {B} f (k : unit -> M B) (Q : Res B -> World -> Prop) w :
  wp (k tt) Q (f w) -> wp (bind (modify f) k) Q w.
Proof. exact id. Qed.

Lemma wp_bind_index {B} x i (k : string -> M B) (Q : Res B -> World -> Prop) w :
  (forall s, 0 <= i -> x !! Z.to_nat i = Some s -> wp (k s) Q w) ->
  (i < 0 \/ Z.of_nat (length x) <= i -> Q Panic w) ->
  wp (bind (index x i) k) Q w.
Proof.
  intros Hk Hp. unfold wp, bind, index.
  destruct (Z.leb_spec 0 i).
  - destruct (x !! Z.to_nat i) as [s|] eqn:E.
    + apply Hk; [assumption|reflexivity].
    + apply Hp. right. apply lookup_ge_None in E. lia.
  - apply Hp. left. assumption.
Qed.

Lemma wp_bind_or_return_false {A B} (o : option A) (k : A -> M B)
    (Q : Res B -> World -> Prop) w :
  (forall a, o = Some a -> wp (k a) Q w) ->
  (o = None -> Q (Ret false) w) ->
  wp (bind (or_return_false o) k) Q w.
Proof.
  intros Hk Hn. destruct o as [a|]; [apply Hk|apply Hn]; reflexivity.
Qed.

Lemma wp_bind_slice {B} s lo hi (k : string -> M B) (Q : Res B -> World -> Prop) w :
  (0 <= lo <= hi -> hi <= len s ->
   wp (k (str_take (Z.to_nat (hi - lo)) (str_drop (Z.to_nat lo) s))) Q w) ->
  (~ (0 <= lo <= hi /\ hi <= len s) -> Q Panic w) ->
  wp (bind (slice s lo hi) k) Q w.
Proof.
  intros Hk Hp. unfold wp, bind, slice, str_slice.
  destruct (Z.leb_spec 0 lo); destruct (Z.leb_spec lo hi);
    destruct (Z.leb_spec hi (len s)); cbn [andb];
    try (apply Hp; lia).
  apply Hk; lia.
Qed.

Lemma wp_bind_slice_list {B} x lo hi (k : list string -> M B)
    (Q : Res B -> World -> Prop) w :
  (wp (k (take (Z.to_nat (hi - lo)) (drop (Z.to_nat lo) x))) Q w) ->
  (~ (0 <= lo <= hi /\ hi <= Z.of_nat (length x)) -> Q Panic w) ->
  wp (bind (slice_list x lo hi) k) Q w.
Proof.
  intros Hk Hp. unfold wp, bind, slice_list.
  destruct (Z.leb_spec 0 lo); destruct (Z.leb_spec lo hi);
    destruct (Z.leb_spec hi (Z.of_nat (length x))); cbn [andb];
    try (apply Hp; lia).
  exact Hk.
Qed.

(** The time-of-day decoder: with at least four bytes to slice it either
    yields three numbers or makes the caller return false. *)
Lemma wp_bind_parse_hms {B} rt s (k : Z * Z * float64 -> M B)
    (Q : Res B -> World -> Prop) w :
  4 <= len s ->
  (forall hms, wp (k hms) Q w) ->
  Q (Ret false) w ->
  wp (bind (parse_hms rt s) k) Q w.
Proof.
  intros Hlen Hk Hf. unfold parse_hms.
  pose proof (Nat2Z.is_nonneg (String.length s)) as Hnn. fold (len s) in Hnn.
  apply wp_bind_assoc, wp_bind_slice; [intros _ _|lia].
  apply wp_bind_assoc, wp_bind_slice; [intros _ _|lia].
  apply wp_bind_assoc, wp_bind_slice; [intros _ _|lia].
  destruct (Atoi _ _); [|exact Hf].
  destruct (Atoi _ _); [|exact Hf].
  destruct (ParseFloat rt _); [|exact Hf].
  apply Hk.
Qed.

(** The degrees-and-minutes decoder, splitting after [n] bytes. *)
Lemma wp_bind_parse_deg_min {B} rt s n (k : float32 -> M B)
    (Q : Res B -> World -> Prop) w :
  0 <= n <= len s ->
  (forall v, wp (k v) Q w) ->
  Q (Ret false) w ->
  wp (bind (parse_deg_min rt s n) k) Q w.
Proof.
  intros Hlen Hk Hf. unfold parse_deg_min.
  apply wp_bind_assoc, wp_bind_slice; [intros _ _|lia].
  apply wp_bind_assoc, wp_bind_slice; [intros _ _|lia].
  destruct (Atoi _ _); [|exact Hf].
  destruct (ParseFloat rt _); [|exact Hf].
  apply Hk.
Qed.

Lemma wp_bind_sync_system_time {B} rt gpsTime (k : unit -> M B)
    (Q : Res B -> World -> Prop) w :
  wp (k tt) Q
     (if (3 * Second <? time_Now w - gpsTime) || (time_Now w - gpsTime <? - 3 * Second)
      then emit (EvExecDate gpsTime)
                (set_time_Now (exec_date rt gpsTime (time_Now w)) w)
      else w) ->
  wp (bind (sync_system_time rt gpsTime) k) Q w.
Proof. exact id. Qed.

Ltac norm_index H i :=
  lazymatch i with
  | Z.pos _ => let n := eval cbv in (Z.to_nat i) in change (Z.to_nat i) with n in H
  | Z0 => change (Z.to_nat 0) with 0%nat in H
  | _ => idtac
  end.

(** One step of symbolic execution. *)
Ltac wp_step :=
  cbv beta zeta;
  lazymatch goal with
  | |- wp (bind (index _ ?i) _) _ _ =>
      apply wp_bind_index;
      [let H := fresh "Hx" in intros ? _ H; norm_index H i|intros ?]
  | |- wp (bind (or_return_false _) _) _ _ =>
      apply wp_bind_or_return_false; [intros ? ?|intros ?]
  | |- wp (bind get _) _ _ => apply wp_bind_get
  | |- wp (bind (modify _) _) _ _ => apply wp_bind_modify
  | |- wp (bind (sync_system_time _ _) _) _ _ =>
      apply wp_bind_sync_system_time;
      match goal with |- wp _ _ (if ?c then _ else _) => destruct c eqn:? end
  | |- wp (bind (parse_hms _ _) _) _ _ =>
      apply wp_bind_parse_hms; [|intros [[? ?] ?]|]
  | |- wp (bind (parse_deg_min _ _ _) _) _ _ =>
      apply wp_bind_parse_deg_min; [|intros ?|]
  | |- wp (bind (slice_list _ _ _) _) _ _ =>
      apply wp_bind_slice_list; [|intros ?]
  | |- wp (bind (pure _) _) _ _ => apply wp_bind_pure
  | |- wp (bind (return_ _) _) _ _ => apply wp_bind_return
  | |- wp (bind (bind _ _) _) _ _ => apply wp_bind_assoc
  | |- wp (bind (if ?c then _ else _) _) _ _ => destruct c eqn:?
  | |- wp (bind (match ?o with Some _ => _ | None => _ end) _) _ _ => destruct o eqn:?
  | |- wp (if ?a <? ?b then _ else _) _ _ => destruct (Z.ltb_spec a b)
  | |- wp (if ?c then _ else _) _ _ => destruct c eqn:?
  | |- wp (match ?o with Some _ => _ | None => _ end) _ _ => destruct o eqn:?
  | |- wp (commit _) _ _ => apply wp_commit
  | |- wp (return_ _) _ _ => apply wp_return
  | |- wp (pure _) _ _ => apply wp_pure
  end.

Lemma frame_kept_refl w : frame_kept w w.
Proof. repeat split. exists []. reflexivity. Qed.


(** A world reached by writing back a scratch copy of the record, and
    logging events, is a [sentence_step] away from [w0] if the world the
    copy was taken from is. *)
Ltac split_ifs :=
  unfold set_course, gsa_count_update;
  repeat match goal with
         | |- context [if ?c then _ else _] => destruct c
         end.

Ltac sentence_step_leaf HR :=
  let Hc := fresh "Hc" in let Hg := fresh "Hg" in
  let Hd := fresh "Hd" in let new := fresh "new" in let He := fresh "He" in
  let Ha := fresh "Ha" in let Hl := fresh "Hl" in let Hfix := fresh "Hfix" in
  let Hgt := fresh "Hgt" in let Hgps := fresh "Hgps" in let Hnacp := fresh "Hnacp" in
  let Hmap := fresh "Hmap" in
  pose proof HR as ((Hc & Hg & Hd & new & He)
                    & (Ha & Hl & Hfix & Hgt & Hgps & Hnacp) & Hmap);
  split_ifs;
  (split;
   [ repeat split; try assumption;
     cbn [events emit set_mySituation set_Satellites set_time_Now] in He |- *; rewrite He;
     eexists; rewrite ?app_comm_cons; reflexivity
   | split;
     [ unfold situation_step;
       (split; [exact Ha|]);
       (split; [exact Hl|]);
       (split; [first [exact Hfix | right; exact Hc]|]);
       (split; [first [exact Hgt | right; exact Hc]|]);
       (split; [first [exact Hgps | right; exact Hc]|]);
       first [exact Hnacp | intros _; reflexivity]
     | exact Hmap ] ]).


Ltac reject_leaf HR :=
  cbv beta;
  repeat match goal with |- _ /\ _ => split end;
  first [exact HR | discriminate | (let Heq := fresh in intros Heq; discriminate Heq)].

(** *** VTG *)

Lemma handleVTG_spec rt x w0 w :
  sentence_step w0 w ->
  wp (handleVTG rt x)
     (fun r w' =>
        sentence_step w0 w' /\ r <> Panic /\ r <> Val tt
        /\ (r = Ret true ->
            let s := mySituation w in
            let s' := mySituation w' in
            (exists t5 t1 gs tc,
                x !! 5%nat = Some t5 /\ ParseFloat rt t5 = Some gs
                /\ x !! 1%nat = Some t1 /\ ParseFloat rt t1 = Some tc
                /\ SituationData.GroundSpeed s' = uint16_of_float64 rt gs
                /\ SituationData.TrueCourse s' =
                   if f64_ltb (f64_lit 3 0) gs then float32_of_float64 tc
                   else SituationData.TrueCourse s)
            /\ s' = SituationData.set_LastGroundTrackTime (stratuxClock w)
                      (SituationData.set_TrueCourse (SituationData.TrueCourse s')
                         (SituationData.set_GroundSpeed
                            (SituationData.GroundSpeed s') s))
            /\ Satellites w' = Satellites w
            /\ events w' = events w)) w.
Proof.
  intros HR. unfold handleVTG.
  repeat wp_step.
  all: try lia.
  all: try (reject_leaf HR; fail).
  cbv beta. split; [sentence_step_leaf HR|].
  split; [discriminate|]. split; [discriminate|]. intros _. cbv zeta.
  split; [unfold set_course; do 4 eexists;
          (split; [eassumption|]); (split; [eassumption|]);
          (split; [eassumption|]); (split; [eassumption|]);
          destruct (f64_ltb _ _); split; reflexivity|].
  split; [|split; reflexivity].
  unfold set_course. destruct (f64_ltb _ _); destruct (mySituation w); reflexivity.
Qed.

(** Projections of records built by field assignments. *)
Ltac sit_cbn :=
  cbn [
      SituationData.LastFixSinceMidnightUTC SituationData.Lat
      SituationData.Lng SituationData.Quality
      SituationData.HeightAboveEllipsoid SituationData.GeoidSep
      SituationData.Satellites SituationData.SatellitesTracked
      SituationData.SatellitesSeen SituationData.Accuracy SituationData.NACp
      SituationData.Alt SituationData.AccuracyVert SituationData.GPSVertVel
      SituationData.LastFixLocalTime SituationData.TrueCourse
      SituationData.GroundSpeed SituationData.LastGroundTrackTime
      SituationData.GPSTime SituationData.LastGPSTimeTime
      SituationData.LastValidNMEAMessageTime
      SituationData.LastValidNMEAMessage SituationData.Temp
      SituationData.Pressure_alt SituationData.LastTempPressTime
      SituationData.Pitch SituationData.Roll SituationData.Yaw
      SituationData.Gyro_heading SituationData.LastAttitudeTime
      SituationData.set_LastFixSinceMidnightUTC SituationData.set_Lat
      SituationData.set_Lng SituationData.set_Quality
      SituationData.set_HeightAboveEllipsoid SituationData.set_GeoidSep
      SituationData.set_Satellites SituationData.set_SatellitesTracked
      SituationData.set_SatellitesSeen SituationData.set_Accuracy
      SituationData.set_NACp SituationData.set_Alt
      SituationData.set_AccuracyVert SituationData.set_GPSVertVel
      SituationData.set_LastFixLocalTime SituationData.set_TrueCourse
      SituationData.set_GroundSpeed SituationData.set_LastGroundTrackTime
      SituationData.set_GPSTime SituationData.set_LastGPSTimeTime
      SituationData.set_LastValidNMEAMessageTime
      SituationData.set_LastValidNMEAMessage mySituation Satellites
      stratuxClock time_Now GPS_connected DEBUG events set_mySituation
      set_Satellites set_time_Now emit].

Ltac sit_cbn_in H :=
  cbn [
      SituationData.LastFixSinceMidnightUTC SituationData.Lat
      SituationData.Lng SituationData.Quality
      SituationData.HeightAboveEllipsoid SituationData.GeoidSep
      SituationData.Satellites SituationData.SatellitesTracked
      SituationData.SatellitesSeen SituationData.Accuracy SituationData.NACp
      SituationData.Alt SituationData.AccuracyVert SituationData.GPSVertVel
      SituationData.LastFixLocalTime SituationData.TrueCourse
      SituationData.GroundSpeed SituationData.LastGroundTrackTime
      SituationData.GPSTime SituationData.LastGPSTimeTime
      SituationData.LastValidNMEAMessageTime
      SituationData.LastValidNMEAMessage SituationData.Temp
      SituationData.Pressure_alt SituationData.LastTempPressTime
      SituationData.Pitch SituationData.Roll SituationData.Yaw
      SituationData.Gyro_heading SituationData.LastAttitudeTime
      SituationData.set_LastFixSinceMidnightUTC SituationData.set_Lat
      SituationData.set_Lng SituationData.set_Quality
      SituationData.set_HeightAboveEllipsoid SituationData.set_GeoidSep
      SituationData.set_Satellites SituationData.set_SatellitesTracked
      SituationData.set_SatellitesSeen SituationData.set_Accuracy
      SituationData.set_NACp SituationData.set_Alt
      SituationData.set_AccuracyVert SituationData.set_GPSVertVel
      SituationData.set_LastFixLocalTime SituationData.set_TrueCourse
      SituationData.set_GroundSpeed SituationData.set_LastGroundTrackTime
      SituationData.set_GPSTime SituationData.set_LastGPSTimeTime
      SituationData.set_LastValidNMEAMessageTime
      SituationData.set_LastValidNMEAMessage mySituation Satellites
      stratuxClock time_Now GPS_connected DEBUG events set_mySituation
      set_Satellites set_time_Now emit] in H.

Ltac sit_cbn_all :=
  cbn [
      SituationData.LastFixSinceMidnightUTC SituationData.Lat
      SituationData.Lng SituationData.Quality
      SituationData.HeightAboveEllipsoid SituationData.GeoidSep
      SituationData.Satellites SituationData.SatellitesTracked
      SituationData.SatellitesSeen SituationData.Accuracy SituationData.NACp
      SituationData.Alt SituationData.AccuracyVert SituationData.GPSVertVel
      SituationData.LastFixLocalTime SituationData.TrueCourse
      SituationData.GroundSpeed SituationData.LastGroundTrackTime
      SituationData.GPSTime SituationData.LastGPSTimeTime
      SituationData.LastValidNMEAMessageTime
      SituationData.LastValidNMEAMessage SituationData.Temp
      SituationData.Pressure_alt SituationData.LastTempPressTime
      SituationData.Pitch SituationData.Roll SituationData.Yaw
      SituationData.Gyro_heading SituationData.LastAttitudeTime
      SituationData.set_LastFixSinceMidnightUTC SituationData.set_Lat
      SituationData.set_Lng SituationData.set_Quality
      SituationData.set_HeightAboveEllipsoid SituationData.set_GeoidSep
      SituationData.set_Satellites SituationData.set_SatellitesTracked
      SituationData.set_SatellitesSeen SituationData.set_Accuracy
      SituationData.set_NACp SituationData.set_Alt
      SituationData.set_AccuracyVert SituationData.set_GPSVertVel
      SituationData.set_LastFixLocalTime SituationData.set_TrueCourse
      SituationData.set_GroundSpeed SituationData.set_LastGroundTrackTime
      SituationData.set_GPSTime SituationData.set_LastGPSTimeTime
      SituationData.set_LastValidNMEAMessageTime
      SituationData.set_LastValidNMEAMessage mySituation Satellites
      stratuxClock time_Now GPS_connected DEBUG events set_mySituation
      set_Satellites set_time_Now emit] in *.

Ltac parsed :=
  repeat match goal with |- exists _, _ => eexists end;
  repeat match goal with
         | |- (_ !! _ = Some _) /\ _ => split; [eassumption|]
         | |- (ParseFloat _ _ = Some _) /\ _ => split; [eassumption|]
         | |- (Atoi _ _ = Some _) /\ _ => split; [eassumption|]
         end.

Ltac record_eq w := split_ifs; destruct (mySituation w); reflexivity.

(** *** GGA *)

Lemma handleGGA_spec rt x w0 w :
  sentence_step w0 w ->
  wp (handleGGA rt x)
     (fun r w' =>
        sentence_step w0 w' /\ r <> Panic /\ r <> Val tt
        /\ (r = Ret true ->
            let s := mySituation w in
            let s' := mySituation w' in
            (exists t6 q t9 alt t11 sep,
                x !! 6%nat = Some t6 /\ Atoi (intSize rt) t6 = Some q
                /\ x !! 9%nat = Some t9 /\ ParseFloat rt t9 = Some alt
                /\ x !! 11%nat = Some t11 /\ ParseFloat rt t11 = Some sep
                /\ SituationData.Quality s' = to_uint8 q
                /\ SituationData.Alt s'
                   = float32_of_float64 (f64_mul alt (f64_lit 328084 5))
                /\ SituationData.GeoidSep s'
                   = float32_of_float64 (f64_mul sep (f64_lit 328084 5)))
            /\ SituationData.HeightAboveEllipsoid s'
               = f32_add (SituationData.GeoidSep s') (SituationData.Alt s')
            /\ SituationData.LastFixLocalTime s' = stratuxClock w
            /\ s' = SituationData.set_LastFixSinceMidnightUTC
                      (SituationData.LastFixSinceMidnightUTC s')
                   (SituationData.set_Lat (SituationData.Lat s')
                   (SituationData.set_Lng (SituationData.Lng s')
                   (SituationData.set_Quality (SituationData.Quality s')
                   (SituationData.set_Alt (SituationData.Alt s')
                   (SituationData.set_GeoidSep (SituationData.GeoidSep s')
                   (SituationData.set_HeightAboveEllipsoid
                      (SituationData.HeightAboveEllipsoid s')
                   (SituationData.set_LastFixLocalTime
                      (SituationData.LastFixLocalTime s') s)))))))
            /\ Satellites w' = Satellites w
            /\ events w' = events w)) w.
Proof.
  intros HR. unfold handleGGA.
  repeat wp_step.
  all: try lia.
  all: try (reject_leaf HR; fail).
  cbv beta. split; [sentence_step_leaf HR|].
  split; [discriminate|]. split; [discriminate|]. intros _. cbv zeta.
  split; [parsed; repeat split; split_ifs; reflexivity|].
  split; [split_ifs; reflexivity|].
  split; [split_ifs; reflexivity|].
  split; [record_eq w|split; reflexivity].
Qed.

(** *** PUBX,00 *)

Lemma handlePUBX00_spec rt x w0 w :
  sentence_step w0 w ->
  wp (handlePUBX00 rt x)
     (fun r w' =>
        sentence_step w0 w' /\ r <> Panic /\ r <> Val tt
        /\ (r = Ret true ->
            let s := mySituation w in
            let s' := mySituation w' in
            (SituationData.Quality s' = 1 \/ SituationData.Quality s' = 2
             \/ SituationData.Quality s' = 6)
            /\ (exists t9 hAcc t18 n,
                   x !! 9%nat = Some t9 /\ ParseFloat rt t9 = Some hAcc
                   /\ x !! 18%nat = Some t18 /\ Atoi (intSize rt) t18 = Some n
                   /\ SituationData.Accuracy s'
                      = float32_of_float64 (f64_mul hAcc (f64_lit 2 0))
                   /\ SituationData.Satellites s' = to_uint16 n)
            /\ SituationData.NACp s' = calculateNACp (SituationData.Accuracy s')
            /\ SituationData.Alt s'
               = f32_sub (SituationData.HeightAboveEllipsoid s')
                         (SituationData.GeoidSep s')
            /\ SituationData.LastFixLocalTime s' = stratuxClock w
            /\ SituationData.LastGroundTrackTime s' = stratuxClock w
            /\ SituationData.GeoidSep s' = SituationData.GeoidSep s
            /\ SituationData.SatellitesTracked s' = SituationData.SatellitesTracked s
            /\ SituationData.SatellitesSeen s' = SituationData.SatellitesSeen s
            /\ SituationData.GPSTime s' = SituationData.GPSTime s
            /\ SituationData.LastGPSTimeTime s' = SituationData.LastGPSTimeTime s
            /\ Satellites w' = Satellites w
            /\ events w' = events w)) w.
Proof.
  intros HR. unfold handlePUBX00.
  repeat wp_step.
  all: try lia.
  all: try (reject_leaf HR; fail).
  all: cbv beta; (split; [sentence_step_leaf HR|]);
    (split; [discriminate|]); (split; [discriminate|]); intros _; cbv zeta;
    (split; [split_ifs; sit_cbn; auto|]);
    (split; [parsed; split; split_ifs; reflexivity|]);
    split_ifs; repeat split.
Qed.

(** *** RMC *)

Lemma handleRMC_spec rt x w0 w :
  sentence_step w0 w ->
  wp (handleRMC rt x)
     (fun r w' =>
        sentence_step w0 w' /\ r <> Panic /\ r <> Val tt
        /\ (r = Ret true ->
            let s := mySituation w in
            let s' := mySituation w' in
            x !! 2%nat = Some "A"
            /\ (exists t7 t8 gs tc,
                x !! 7%nat = Some t7 /\ ParseFloat rt t7 = Some gs
                /\ x !! 8%nat = Some t8 /\ ParseFloat rt t8 = Some tc
                /\ SituationData.GroundSpeed s' = uint16_of_float64 rt gs
                /\ SituationData.TrueCourse s' =
                   if f64_ltb (f64_lit 3 0) gs then float32_of_float64 tc
                   else SituationData.TrueCourse s)
            /\ SituationData.LastFixLocalTime s' = stratuxClock w
            /\ SituationData.LastGroundTrackTime s' = stratuxClock w
            /\ ((SituationData.GPSTime s' = SituationData.GPSTime s
                 /\ SituationData.LastGPSTimeTime s' = SituationData.LastGPSTimeTime s
                 /\ events w' = EvSetDataLogTimeWithGPS :: events w)
                \/ (SituationData.LastGPSTimeTime s' = stratuxClock w
                    /\ events w' =
                       EvSetDataLogTimeWithGPS ::
                       (if (3 * Second <? time_Now w - SituationData.GPSTime s')
                           || (time_Now w - SituationData.GPSTime s' <? - 3 * Second)
                        then [EvExecDate (SituationData.GPSTime s')] else [])
                       ++ events w))
            /\ s' = SituationData.set_LastFixSinceMidnightUTC
                      (SituationData.LastFixSinceMidnightUTC s')
                   (SituationData.set_Lat (SituationData.Lat s')
                   (SituationData.set_Lng (SituationData.Lng s')
                   (SituationData.set_GPSTime (SituationData.GPSTime s')
                   (SituationData.set_LastGPSTimeTime (SituationData.LastGPSTimeTime s')
                   (SituationData.set_LastFixLocalTime (stratuxClock w)
                   (SituationData.set_GroundSpeed (SituationData.GroundSpeed s')
                   (SituationData.set_TrueCourse (SituationData.TrueCourse s')
                   (SituationData.set_LastGroundTrackTime (stratuxClock w) s))))))))
            /\ Satellites w' = Satellites w)) w.
Proof.
  intros HR. unfold handleRMC.
  repeat wp_step.
  all: try lia.
  all: try (reject_leaf HR; fail).
  all: try (cbv beta; repeat match goal with |- _ /\ _ => split end;
            first [sentence_step_leaf HR | discriminate
                  | (let Heq := fresh in intros Heq; discriminate Heq)]; fail).
  all: cbv beta; (split; [sentence_step_leaf HR|]);
    (split; [discriminate|]); (split; [discriminate|]); intros _; cbv zeta.
  all: split;
    [match goal with
     | H : negb (?t =? "A")%string = false |- _ =>
         apply negb_false_iff, String.eqb_eq in H; subst t; assumption
     end|].
  all: (split; [parsed; split_ifs; split; reflexivity|]).
  all: (split; [split_ifs; reflexivity|]).
  all: (split; [split_ifs; reflexivity|]).
  all: split; [|split; [record_eq w|reflexivity]].
  all: sit_cbn.
  all: try (left; split_ifs; repeat split; reflexivity).
  all: right;
    unfold set_course;
    repeat match goal with
           | |- context [if String.eqb ?a ?b then _ else _] => destruct (String.eqb a b)
           | |- context [if f64_ltb ?a ?b then _ else _] => destruct (f64_ltb a b)
           end;
    sit_cbn;
    repeat match goal with
           | H : _ = true |- _ => rewrite H
           | H : _ = false |- _ => rewrite H
           end; split; reflexivity.
Qed.

(** *** PUBX,04 *)

Lemma handlePUBX04_spec rt x w0 w :
  sentence_step w0 w ->
  wp (handlePUBX04 rt x)
     (fun r w' =>
        sentence_step w0 w'
        /\ (r = Panic -> Z.of_nat (length x) < 6)
        /\ (r = Ret true ->
            let s := mySituation w in
            let s' := mySituation w' in
            (exists t5 week,
                x !! 5%nat = Some t5 /\ Atoi (intSize rt) t5 = Some week
                /\ 1877 <= week < 32767)
            /\ SituationData.LastGPSTimeTime s' = stratuxClock w
            /\ s' = SituationData.set_LastFixSinceMidnightUTC
                      (SituationData.LastFixSinceMidnightUTC s')
                   (SituationData.set_GPSTime (SituationData.GPSTime s')
                   (SituationData.set_LastGPSTimeTime (stratuxClock w) s))
            /\ events w' =
               EvSetDataLogTimeWithGPS ::
               (if (3 * Second <? time_Now w - SituationData.GPSTime s')
                   || (time_Now w - SituationData.GPSTime s' <? - 3 * Second)
                then [EvExecDate (SituationData.GPSTime s')] else [])
               ++ events w
            /\ Satellites w' = Satellites w)) w.
Proof.
  intros HR. unfold handlePUBX04.
  repeat wp_step.
  all: try lia.
  all: cbv beta; (split; [sentence_step_leaf HR|]).
  all: (split; [let Heq := fresh in intros Heq; first [discriminate Heq | lia]|]).
  all: try (let Heq := fresh in intros Heq; discriminate Heq).
  all: intros _; cbv zeta.
  all: split;
    [parsed;
     match goal with
     | H : (?a <? 1877) || (32767 <=? ?a) = false |- _ =>
         apply orb_false_iff in H as [?%Z.ltb_ge ?%Z.leb_gt]; lia
     end|].
  all: (split; [reflexivity|]).
  all: (split; [destruct (mySituation w); reflexivity|]).
  all: split; [|reflexivity].
  all: sit_cbn_all;
    repeat match goal with
           | H : _ = true |- _ => rewrite H
           | H : _ = false |- _ => rewrite H
           end; reflexivity.
Qed.

(** ** Storing a satellite record *)

Lemma wp_bind_store_satellite {B} r (k : unit -> M B) (Q : Res B -> World -> Prop) w :
  wp (k tt) Q (stored r w) -> wp (bind (store_satellite r) k) Q w.
Proof. exact id. Qed.

Lemma wp_store_satellite r (Q : Res unit -> World -> Prop) w :
  Q (Val tt) (stored r w) -> wp (store_satellite r) Q w.
Proof. exact id. Qed.

Lemma maintained_Some now s s' :
  maintained now s = Some s' ->
  s' = SatelliteInfo.set_InSolution (SatelliteInfo.InSolution s') s
  /\ Since now (SatelliteInfo.TimeLastTracked s) <= 10 * Second.
Proof.
  unfold maintained.
  destruct (Z.ltb_spec (10 * Second) (Since now (SatelliteInfo.TimeLastTracked s)));
    [discriminate|].
  destruct (5 * Second <? _); intros E; injection E as <-; split; try assumption;
    destruct s; reflexivity.
Qed.

Lemma maintained_fresh c s :
  SatelliteInfo.TimeLastTracked s = c ->
  maintained c s =
  Some (if 5 * Second <? Since c (SatelliteInfo.TimeLastSolution s)
        then SatelliteInfo.set_InSolution false s else s).
Proof.
  intros Ht. unfold maintained. rewrite Ht. unfold Since at 1.
  rewrite Z.sub_diag. reflexivity.
Qed.

Lemma stored_map r w :
  Satellites (stored r w) =
  omap (maintained (stratuxClock w))
       (<[SatelliteInfo.SatelliteID r := r]> (Satellites w)).
Proof. unfold stored. rewrite updateConstellation_map. reflexivity. Qed.

Lemma updateConstellation_counters_agree w : counters_agree (updateConstellation w).
Proof.
  rewrite updateConstellation_unfold. unfold counters_agree.
  cbn [Satellites set_Satellites set_mySituation mySituation
       SituationData.Satellites SituationData.SatellitesTracked
       SituationData.SatellitesSeen SituationData.set_Satellites
       SituationData.set_SatellitesTracked SituationData.set_SatellitesSeen].
  rewrite !uint8_is_uint16. repeat split.
Qed.

Lemma stored_step w0 w r :
  sentence_step w0 w ->
  SatelliteInfo.TimeLastTracked r = stratuxClock w0 ->
  sentence_step w0 (stored r w).
Proof.
  intros ((Hc & Hg & Hd & new & He) & (Ha & Hl & Hfix & Hgt & Hgps & Hnacp)
          & (Hm1 & Hm2)) Ht.
  split; [|split].
  - unfold stored. rewrite updateConstellation_unfold.
    repeat split; try assumption. exists new. exact He.
  - unfold stored. rewrite updateConstellation_unfold.
    unfold situation_step. repeat split; assumption.
  - rewrite stored_map, Hc. split.
    + intros k s' Hk. apply lookup_omap_Some in Hk as (s1 & Hmt & Hs1).
      apply maintained_Some in Hmt as [E _].
      destruct (decide (k = SatelliteInfo.SatelliteID r)) as [->|Hne].
      * rewrite lookup_insert_eq in Hs1. injection Hs1 as <-.
        left. rewrite E. exact Ht.
      * rewrite lookup_insert_ne in Hs1 by congruence.
        destruct (Hm1 _ _ Hs1) as [Ht1|(s & Hs & E1)].
        -- left. rewrite E. exact Ht1.
        -- right. exists s. split; [exact Hs|].
           rewrite E at 1. rewrite E1. reflexivity.
    + intros Hwf k s' Hk. apply lookup_omap_Some in Hk as (s1 & Hmt & Hs1).
      apply maintained_Some in Hmt as [E _]. rewrite E.
      destruct (decide (k = SatelliteInfo.SatelliteID r)) as [->|Hne].
      * rewrite lookup_insert_eq in Hs1. injection Hs1 as <-. reflexivity.
      * rewrite lookup_insert_ne in Hs1 by congruence.
        exact (Hm2 Hwf _ _ Hs1).
Qed.

Lemma stored_tracked r w :
  SatelliteInfo.TimeLastTracked r = stratuxClock w ->
  tracked_now (stratuxClock w) (Satellites (stored r w)) (SatelliteInfo.SatelliteID r).
Proof.
  intros Ht. unfold tracked_now. rewrite stored_map, lookup_omap, lookup_insert_eq.
  cbn. rewrite (maintained_fresh _ _ Ht).
  eexists. split; [reflexivity|].
  destruct (5 * Second <? _); (split; [reflexivity|exact Ht]).
Qed.

Lemma stored_tracked_mono r w k :
  SatelliteInfo.TimeLastTracked r = stratuxClock w ->
  tracked_now (stratuxClock w) (Satellites w) k ->
  tracked_now (stratuxClock w) (Satellites (stored r w)) k.
Proof.
  intros Ht (r0 & Hk & Hid & Ht0).
  destruct (decide (k = SatelliteInfo.SatelliteID r)) as [->|Hne].
  - apply stored_tracked. exact Ht.
  - unfold tracked_now. rewrite stored_map, lookup_omap, lookup_insert_ne by congruence.
    rewrite Hk. cbn. rewrite (maintained_fresh _ _ Ht0).
    eexists. split; [reflexivity|].
    destruct (5 * Second <? _); (split; [exact Hid|exact Ht0]).
Qed.

Lemma not_stale c : (5 * Second <? Since c c) = false.
Proof. unfold Since. rewrite Z.sub_diag. reflexivity. Qed.

Lemma stored_in_solution r w :
  SatelliteInfo.TimeLastTracked r = stratuxClock w ->
  SatelliteInfo.TimeLastSolution r = stratuxClock w ->
  SatelliteInfo.InSolution r = true ->
  in_solution_now (stratuxClock w) (Satellites (stored r w))
                  (SatelliteInfo.SatelliteID r).
Proof.
  intros Ht Hs Hi. unfold in_solution_now.
  rewrite stored_map, lookup_omap, lookup_insert_eq.
  cbn. rewrite (maintained_fresh _ _ Ht), Hs, not_stale.
  eexists. split; [reflexivity|]. repeat split; assumption.
Qed.

Lemma stored_in_solution_mono r w k :
  SatelliteInfo.TimeLastTracked r = stratuxClock w ->
  SatelliteInfo.TimeLastSolution r = stratuxClock w ->
  SatelliteInfo.InSolution r = true ->
  in_solution_now (stratuxClock w) (Satellites w) k ->
  in_solution_now (stratuxClock w) (Satellites (stored r w)) k.
Proof.
  intros Ht Hs Hi (r0 & Hk & Ht0 & Hs0 & Hi0).
  destruct (decide (k = SatelliteInfo.SatelliteID r)) as [->|Hne].
  - apply stored_in_solution; assumption.
  - unfold in_solution_now.
    rewrite stored_map, lookup_omap, lookup_insert_ne by congruence.
    rewrite Hk. cbn. rewrite (maintained_fresh _ _ Ht0), Hs0, not_stale.
    eexists. split; [reflexivity|]. repeat split; assumption.
Qed.

Lemma stored_frame r w :
  stratuxClock (stored r w) = stratuxClock w.
Proof. unfold stored. rewrite updateConstellation_unfold. reflexivity. Qed.

Lemma stored_events r w : events (stored r w) = events w.
Proof. unfold stored. rewrite updateConstellation_unfold. reflexivity. Qed.

(** The record a handler starts from carries the identifier it was looked
    up under, provided the map is well filed. *)
Lemma lookup_or_create_ID m svStr sv svType :
  well_filed m ->
  SatelliteInfo.SatelliteID (lookup_or_create m svStr sv svType) = svStr.
Proof.
  intros Hwf. unfold lookup_or_create.
  destruct (m !! svStr) as [val|] eqn:E; [exact (Hwf _ _ E)|reflexivity].
Qed.

Lemma gsa_record_facts now prev :
  SatelliteInfo.SatelliteID (gsa_record now prev) = SatelliteInfo.SatelliteID prev
  /\ SatelliteInfo.TimeLastTracked (gsa_record now prev) = now
  /\ SatelliteInfo.TimeLastSolution (gsa_record now prev) = now
  /\ SatelliteInfo.InSolution (gsa_record now prev) = true.
Proof. repeat split. Qed.

Lemma pubx03_record_facts isz now prev elevTxt azTxt cnoTxt statusTxt :
  SatelliteInfo.SatelliteID (pubx03_record isz now prev elevTxt azTxt cnoTxt statusTxt)
  = SatelliteInfo.SatelliteID prev
  /\ SatelliteInfo.TimeLastTracked
       (pubx03_record isz now prev elevTxt azTxt cnoTxt statusTxt) = now.
Proof.
  unfold pubx03_record.
  destruct (Atoi isz cnoTxt) as [v|]; [destruct (0 <? v)|];
    (destruct (String.eqb statusTxt "U"); [|destruct (String.eqb statusTxt "e")]);
    split; reflexivity.
Qed.

Lemma gsv_record_facts isz now quality prev elevTxt azTxt cnoTxt :
  SatelliteInfo.SatelliteID (gsv_record isz now quality prev elevTxt azTxt cnoTxt)
  = SatelliteInfo.SatelliteID prev
  /\ SatelliteInfo.TimeLastTracked
       (gsv_record isz now quality prev elevTxt azTxt cnoTxt) = now.
Proof.
  split; [|apply gsv_record_TimeLastTracked].
  unfold gsv_record.
  destruct (Atoi isz cnoTxt) as [v|]; [destruct (0 <? v)|];
  cbn [SatelliteInfo.Type_ SatelliteInfo.set_Signal SatelliteInfo.set_TimeLastSeen
       SatelliteInfo.set_InSolution SatelliteInfo.set_Azimuth
       SatelliteInfo.set_Elevation SatelliteInfo.set_TimeLastTracked
       SatelliteInfo.Signal];
  destruct (_ =? SAT_TYPE_SBAS); try reflexivity;
  destruct (quality =? 2); try reflexivity;
  destruct (16 <? _); reflexivity.
Qed.

(** ** The satellite loops *)

Ltac wp_sat_step :=
  cbv beta zeta;
  lazymatch goal with
  | |- wp (let '(_, _) := ?p in _) _ _ => destruct p as [? ?] eqn:?
  | |- wp (bind (store_satellite _) _) _ _ => apply wp_bind_store_satellite
  | |- wp (store_satellite _) _ _ => apply wp_store_satellite
  | _ => wp_step
  end.

Lemma sentence_step_clock w0 w : sentence_step w0 w -> stratuxClock w = stratuxClock w0.
Proof. intros ((Hc & _) & _). exact Hc. Qed.

Lemma sentence_step_well_filed w0 w :
  sentence_step w0 w -> well_filed (Satellites w0) -> well_filed (Satellites w).
Proof. intros (_ & _ & _ & H). exact H. Qed.

(** *** GSV *)

Lemma gsv_satellite_spec isz x w0 i w :
  sentence_step w0 w ->
  0 <= i -> 4 * i + 8 <= Z.of_nat (length x) ->
  wp (gsv_satellite isz x i)
     (fun r w' =>
        sentence_step w0 w' /\ r <> Panic /\ r <> Ret true
        /\ (forall k, tracked_now (stratuxClock w0) (Satellites w) k ->
                      tracked_now (stratuxClock w0) (Satellites w') k)
        /\ (r = Val tt ->
            counters_agree w'
            /\ (well_filed (Satellites w0) ->
                exists t sv,
                  x !! Z.to_nat (4 + 4 * i) = Some t /\ Atoi isz t = Some sv
                  /\ tracked_now (stratuxClock w0) (Satellites w')
                                 (classify_nmea sv).2))) w.
Proof.
  intros HR Hi Hlen. unfold gsv_satellite.
  pose proof (sentence_step_clock _ _ HR) as Hc.
  repeat wp_sat_step.
  all: try lia.
  all: try (cbv beta; repeat match goal with |- _ /\ _ => split end;
            first [exact HR | discriminate | (intros k Hk; exact Hk)
                  | (let Heq := fresh in intros Heq; discriminate Heq)]; fail).
  cbv beta.
  match goal with
  | |- context [stored (gsv_record ?a ?b ?c (lookup_or_create ?m ?k ?sv ?ty) ?e ?f ?g) w] =>
      pose proof (gsv_record_facts a b c (lookup_or_create m k sv ty) e f g) as [Hid Ht];
      pose proof (fun Hwf => lookup_or_create_ID m k sv ty
                               (sentence_step_well_filed _ _ HR Hwf)) as Hkey;
      set (rec := gsv_record a b c (lookup_or_create m k sv ty) e f g) in *
  end.
  split; [apply stored_step; [exact HR|congruence]|].
  split; [discriminate|]. split; [discriminate|].
  split; [intros k Hk; rewrite <- Hc in Hk |- *; apply stored_tracked_mono; assumption|].
  intros _. split; [apply updateConstellation_counters_agree|].
  intros Hwf. do 2 eexists. split; [eassumption|]. split; [eassumption|].
  rewrite <- Hc.
  match goal with H : classify_nmea _ = _ |- _ => rewrite H end. cbn [snd].
  rewrite <- (Hkey Hwf), <- Hid.
  apply stored_tracked. exact Ht.
Qed.

Lemma gsv_loop_spec isz x w0 n : forall i w,
  sentence_step w0 w ->
  0 <= i -> 4 * (i + Z.of_nat n) + 4 <= Z.of_nat (length x) ->
  wp (gsv_loop isz x n i)
     (fun r w' =>
        sentence_step w0 w' /\ r <> Panic /\ r <> Ret true
        /\ (forall k, tracked_now (stratuxClock w0) (Satellites w) k ->
                      tracked_now (stratuxClock w0) (Satellites w') k)
        /\ (r = Val tt ->
            ((0 < n)%nat \/ counters_agree w -> counters_agree w')
            /\ (well_filed (Satellites w0) ->
                forall j, i <= j < i + Z.of_nat n ->
                  exists t sv,
                    x !! Z.to_nat (4 + 4 * j) = Some t /\ Atoi isz t = Some sv
                    /\ tracked_now (stratuxClock w0) (Satellites w')
                                   (classify_nmea sv).2))) w.
Proof.
  induction n as [|n IH]; intros i w HR Hi Hlen; cbn [gsv_loop].
  - apply wp_pure. split; [exact HR|]. split; [discriminate|]. split; [discriminate|].
    split; [auto|]. intros _. split; [intros [?|?]; [lia|assumption]|].
    intros _ j Hj. lia.
  - apply wp_bind.
    eapply wp_conseq; [|apply (gsv_satellite_spec isz x w0 i w HR Hi); lia].
    intros r w1 (HR1 & Hnp & Hnt & Hmono & Hval).
    destruct r as [[]|b|]; [|cbv beta|contradiction].
    2: { split; [exact HR1|]. split; [discriminate|]. split; [exact Hnt|].
         split; [exact Hmono|]. intros Heq; discriminate Heq. }
    destruct (Hval eq_refl) as [Hcnt Hsat].
    eapply wp_conseq; [|apply (IH (i + 1) w1 HR1); lia].
    intros r w2 (HR2 & Hnp2 & Hnt2 & Hmono2 & Hval2).
    split; [exact HR2|]. split; [exact Hnp2|]. split; [exact Hnt2|].
    split; [auto|]. intros Hr.
    destruct (Hval2 Hr) as [Hcnt2 Hsat2].
    split; [intros _; apply Hcnt2; right; exact Hcnt|].
    intros Hwf j Hj.
    destruct (Z.eq_dec j i) as [->|Hne].
    + destruct (Hsat Hwf) as (t & sv & Ht & Hsv & Htr).
      exists t, sv. auto.
    + apply (Hsat2 Hwf). lia.
Qed.

(** What the GSV handler does. *)
Lemma handleGSV_spec isz x w0 w :
  sentence_step w0 w ->
  wp (handleGSV isz x)
     (fun r w' =>
        sentence_step w0 w' /\ r <> Panic /\ r <> Val tt
        /\ (r = Ret true ->
            (8 <= Z.of_nat (length x) \/ counters_agree w -> counters_agree w')
            /\ (well_filed (Satellites w0) ->
                forall j, 0 <= j -> 4 * j + 8 <= Z.of_nat (length x) ->
                  exists t sv,
                    x !! Z.to_nat (4 + 4 * j) = Some t /\ Atoi isz t = Some sv
                    /\ tracked_now (stratuxClock w0) (Satellites w')
                                   (classify_nmea sv).2))) w.
Proof.
  intros HR. unfold handleGSV.
  repeat wp_step.
  all: try lia.
  all: try (reject_leaf HR; fail).
  cbv beta zeta.
  set (n := Z.quot (Z.of_nat (length x) - 4) 4).
  assert (Hn : 0 <= n /\ 4 * n <= Z.of_nat (length x) - 4
               /\ Z.of_nat (length x) - 4 < 4 * n + 4).
  { subst n. rewrite Z.quot_div_nonneg by lia.
    pose proof (Z.div_mod (Z.of_nat (length x) - 4) 4 ltac:(lia)).
    pose proof (Z.mod_pos_bound (Z.of_nat (length x) - 4) 4 ltac:(lia)).
    split; [apply Z.div_pos; lia|lia]. }
  apply wp_bind.
  eapply wp_conseq; [|apply (gsv_loop_spec isz x w0 (Z.to_nat n) 0 w HR); lia].
  intros r w1 (HR1 & Hnp & Hnt & Hmono & Hval).
  destruct r as [[]|b|]; [|cbv beta|contradiction].
  2: { split; [exact HR1|]. split; [discriminate|]. split; [discriminate|].
       intros Heq. contradiction. }
  destruct (Hval eq_refl) as [Hcnt Hsat].
  apply wp_return. split; [exact HR1|]. split; [discriminate|]. split; [discriminate|].
  intros _. split.
  - intros [Hl|Hc]; apply Hcnt; [left; lia|right; exact Hc].
  - intros Hwf j Hj Hjl. apply (Hsat Hwf). lia.
Qed.

(** *** PUBX,03 *)

Lemma pubx03_satellite_spec isz x w0 i w :
  sentence_step w0 w ->
  wp (pubx03_satellite isz x i)
     (fun r w' =>
        sentence_step w0 w'
        /\ (r = Panic -> ~ (0 <= i /\ 6 * i + 8 <= Z.of_nat (length x)))
        /\ r <> Ret true
        /\ (forall k, tracked_now (stratuxClock w0) (Satellites w) k ->
                      tracked_now (stratuxClock w0) (Satellites w') k)
        /\ (r = Val tt ->
            counters_agree w'
            /\ (well_filed (Satellites w0) ->
                exists t sv,
                  x !! Z.to_nat (3 + 6 * i) = Some t /\ Atoi isz t = Some sv
                  /\ tracked_now (stratuxClock w0) (Satellites w')
                                 (classify_pubx03 sv).1.2))) w.
Proof.
  intros HR. unfold pubx03_satellite.
  pose proof (sentence_step_clock _ _ HR) as Hc.
  repeat wp_sat_step.
  all: try (cbv beta; repeat match goal with |- _ /\ _ => split end;
            first [exact HR | discriminate | (intros k Hk; exact Hk)
                  | (intros _ [? ?]; lia)
                  | (let Heq := fresh in intros Heq; discriminate Heq)]; fail).
  cbv beta.
  match goal with
  | |- context [stored (pubx03_record ?a ?b (lookup_or_create ?m ?k ?sv ?ty) ?e ?f ?g ?h) w] =>
      pose proof (pubx03_record_facts a b (lookup_or_create m k sv ty) e f g h)
        as [Hid Ht];
      pose proof (fun Hwf => lookup_or_create_ID m k sv ty
                               (sentence_step_well_filed _ _ HR Hwf)) as Hkey;
      set (rec := pubx03_record a b (lookup_or_create m k sv ty) e f g h) in *
  end.
  split; [apply stored_step; [exact HR|congruence]|].
  split; [discriminate|]. split; [discriminate|].
  split; [intros k Hk; rewrite <- Hc in Hk |- *; apply stored_tracked_mono; assumption|].
  intros _. split; [apply updateConstellation_counters_agree|].
  intros Hwf. do 2 eexists. split; [eassumption|]. split; [eassumption|].
  rewrite <- Hc.
  match goal with H : classify_pubx03 _ = _ |- _ => rewrite H end. cbn [fst snd].
  rewrite <- (Hkey Hwf), <- Hid.
  apply stored_tracked. exact Ht.
Qed.

Lemma pubx03_loop_spec isz x w0 n : forall i w,
  sentence_step w0 w ->
  wp (pubx03_loop isz x n i)
     (fun r w' =>
        sentence_step w0 w'
        /\ (r = Panic ->
            ~ (0 <= i /\ 6 * (i + Z.of_nat n) + 2 <= Z.of_nat (length x)))
        /\ r <> Ret true
        /\ (forall k, tracked_now (stratuxClock w0) (Satellites w) k ->
                      tracked_now (stratuxClock w0) (Satellites w') k)
        /\ (r = Val tt ->
            (n = 0%nat -> w' = w)
            /\ ((0 < n)%nat \/ counters_agree w -> counters_agree w')
            /\ (well_filed (Satellites w0) ->
                forall j, i <= j < i + Z.of_nat n ->
                  exists t sv,
                    x !! Z.to_nat (3 + 6 * j) = Some t /\ Atoi isz t = Some sv
                    /\ tracked_now (stratuxClock w0) (Satellites w')
                                   (classify_pubx03 sv).1.2))) w.
Proof.
  induction n as [|n IH]; intros i w HR; cbn [pubx03_loop].
  - apply wp_pure. split; [exact HR|]. split; [discriminate|]. split; [discriminate|].
    split; [auto|]. intros _. split; [reflexivity|].
    split; [intros [?|?]; [lia|assumption]|].
    intros _ j Hj. lia.
  - apply wp_bind.
    eapply wp_conseq; [|apply (pubx03_satellite_spec isz x w0 i w HR)].
    intros r w1 (HR1 & Hnp & Hnt & Hmono & Hval).
    destruct r as [[]|b|]; cbv beta.
    2: { split; [exact HR1|]. split; [discriminate|]. split; [exact Hnt|].
         split; [exact Hmono|]. intros Heq; discriminate Heq. }
    2: { split; [exact HR1|]. split; [intros _ [? ?]; apply (Hnp eq_refl); lia|].
         split; [discriminate|]. split; [exact Hmono|].
         intros Heq; discriminate Heq. }
    destruct (Hval eq_refl) as [Hcnt Hsat].
    eapply wp_conseq; [|apply (IH (i + 1) w1 HR1)].
    intros r w2 (HR2 & Hnp2 & Hnt2 & Hmono2 & Hval2).
    split; [exact HR2|].
    split; [intros Hr [? ?]; apply (Hnp2 Hr); lia|]. split; [exact Hnt2|].
    split; [auto|]. intros Hr.
    destruct (Hval2 Hr) as (_ & Hcnt2 & Hsat2).
    split; [discriminate|].
    split; [intros _; apply Hcnt2; right; exact Hcnt|].
    intros Hwf j Hj.
    destruct (Z.eq_dec j i) as [->|Hne].
    + destruct (Hsat Hwf) as (t & sv & Ht & Hsv & Htr).
      exists t, sv. auto.
    + apply (Hsat2 Hwf). lia.
Qed.

Lemma to_int_small isz z :
  - 2 ^ (int_bits isz - 1) <= z < 2 ^ (int_bits isz - 1) -> to_int isz z = z.
Proof.
  intros H. unfold to_int, wrap_signed.
  assert (E : 2 ^ int_bits isz = 2 * 2 ^ (int_bits isz - 1)).
  { destruct isz; reflexivity. }
  rewrite E, Z.mod_small by lia. lia.
Qed.

Lemma Atoi_range isz t n :
  Atoi isz t = Some n -> - 2 ^ (int_bits isz - 1) <= n < 2 ^ (int_bits isz - 1).
Proof.
  unfold Atoi. destruct t as [|c r]; [discriminate|]. cbv zeta.
  destruct (if Ascii.eqb c "-" || Ascii.eqb c "+" then r else String c r);
    [discriminate|].
  destruct (parse_digits _ 0) as [n0|]; [|discriminate].
  destruct (in_int_range isz (if Ascii.eqb c "-" then - n0 else n0)) eqn:E;
    [|discriminate].
  intros H. injection H as <-.
  unfold in_int_range in E. apply andb_true_iff in E as [E1 E2].
  apply Z.leb_le in E1. apply Z.ltb_lt in E2. lia.
Qed.

(** What the PUBX,03 handler does. *)
Lemma handlePUBX03_spec isz x w0 w :
  sentence_step w0 w ->
  wp (handlePUBX03 isz x)
     (fun r w' =>
        sentence_step w0 w' /\ r <> Val tt
        /\ (r = Panic \/ r = Ret true ->
            exists t n,
              x !! 2%nat = Some t /\ Atoi isz t = Some n
              /\ (r = Panic -> 0 < n /\ 2 ^ (int_bits isz - 1) <= 6 * n + 3)
              /\ (r = Ret true ->
                  (n <= 0 ->
                   w' = set_mySituation
                          (SituationData.set_SatellitesTracked (to_uint16 n)
                             (mySituation w)) w)
                  /\ (0 < n -> 6 * n + 3 < 2 ^ (int_bits isz - 1) ->
                      6 * n + 3 <= Z.of_nat (length x)
                      /\ counters_agree w'
                      /\ (well_filed (Satellites w0) ->
                          forall j, 0 <= j < n ->
                            exists t sv,
                              x !! Z.to_nat (3 + 6 * j) = Some t
                              /\ Atoi isz t = Some sv
                              /\ tracked_now (stratuxClock w0) (Satellites w')
                                             (classify_pubx03 sv).1.2))))) w.
Proof.
  intros HR. unfold handlePUBX03.
  repeat wp_step.
  all: try lia.
  all: try (cbv beta; split; [exact HR|]; split; [discriminate|];
            intros [Heq|Heq]; discriminate Heq).
  cbv beta zeta.
  match goal with
  | Hx : x !! 2%nat = Some ?t, Ha : Atoi isz ?t = Some ?n |- _ =>
      rename t into t2; rename n into n2; rename Ha into Hn2; rename Hx into Hx2
  end.
  match goal with
  | H : to_int isz _ <= _ |- _ => rename H into Hguard
  end.
  set (w1 := set_mySituation _ w).
  assert (HR1 : sentence_step w0 w1) by (subst w1; sentence_step_leaf HR).
  pose proof (Atoi_range _ _ _ Hn2) as Hrange.
  apply wp_bind.
  eapply wp_conseq; [|apply (pubx03_loop_spec isz x w0 (Z.to_nat n2) 0 w1 HR1)].
  intros r w2 (HR2 & Hnp & Hnt & Hmono & Hval).
  assert (Hsmall : 0 < n2 -> 6 * n2 + 3 < 2 ^ (int_bits isz - 1) ->
                   6 * n2 + 3 <= Z.of_nat (length x)).
  { intros Hpos Hin.
    rewrite (to_int_small isz (n2 * 6)) in Hguard by lia.
    rewrite to_int_small in Hguard by lia. lia. }
  destruct r as [[]|b|]; cbv beta.
  - apply wp_return. split; [exact HR2|]. split; [discriminate|].
    intros _. exists t2, n2. split; [exact Hx2|]. split; [exact Hn2|].
    split; [intros Heq; discriminate Heq|]. intros _.
    destruct (Hval eq_refl) as (Hzero & Hcnt & Hsat). split.
    + intros Hneg. apply Hzero. lia.
    + intros Hpos Hin. split; [exact (Hsmall Hpos Hin)|].
      split; [apply Hcnt; left; lia|].
      intros Hwf j Hj. apply (Hsat Hwf). lia.
  - split; [exact HR2|]. split; [discriminate|].
    intros [Heq|Heq]; [discriminate Heq|]. injection Heq as ->. contradiction.
  - split; [exact HR2|]. split; [discriminate|].
    intros _. exists t2, n2. split; [exact Hx2|]. split; [exact Hn2|].
    split; [|intros Heq; discriminate Heq]. intros _.
    destruct (Z.le_gt_cases n2 0) as [Hneg|Hpos].
    + exfalso. apply (Hnp eq_refl). replace (Z.to_nat n2) with 0%nat by lia.
      pose proof (Nat2Z.is_nonneg (length x)). lia.
    + split; [lia|].
      destruct (Z.le_gt_cases (2 ^ (int_bits isz - 1)) (6 * n2 + 3)) as [?|Hin];
        [assumption|].
      exfalso. apply (Hnp eq_refl). specialize (Hsmall ltac:(lia) ltac:(lia)). lia.
Qed.

(** *** GSA *)

Lemma classify_gsa_nmea sv : (classify_gsa sv).1.1 = classify_nmea sv.
Proof. unfold classify_gsa, classify_nmea. classify_cases; reflexivity. Qed.

Lemma gsa_count_update_frame tmp sat sb gl :
  gsa_count_update tmp sat sb gl =
  SituationData.set_Satellites
    (SituationData.Satellites (gsa_count_update tmp sat sb gl)) tmp.
Proof.
  unfold gsa_count_update.
  destruct (_ || _); [destruct (_ && _ && _)|]; destruct tmp; reflexivity.
Qed.

Lemma gsa_loop_spec isz w0 ids : forall sat sb gl w,
  sentence_step w0 w ->
  wp (gsa_loop isz ids sat sb gl)
     (fun r w' =>
        sentence_step w0 w'
        /\ r = Val (sat + Z.of_nat (length (omap (Atoi isz) ids)),
                    sb || existsb is_sbas_id (omap (Atoi isz) ids),
                    gl || existsb is_glonass_id (omap (Atoi isz) ids))
        /\ events w' = events w
        /\ (forall k, in_solution_now (stratuxClock w0) (Satellites w) k ->
                      in_solution_now (stratuxClock w0) (Satellites w') k)
        /\ (omap (Atoi isz) ids <> [] \/ counters_agree w -> counters_agree w')
        /\ (well_filed (Satellites w0) ->
            forall sv, sv ∈ omap (Atoi isz) ids ->
              in_solution_now (stratuxClock w0) (Satellites w')
                              (classify_nmea sv).2)) w.
Proof.
  induction ids as [|svtxt rest IH]; intros sat sb gl w HR; cbn [gsa_loop].
  - apply wp_pure. cbn [omap list_omap length existsb].
    rewrite Z.add_0_r, !orb_false_r.
    split; [exact HR|]. split; [reflexivity|]. split; [reflexivity|]. split; [auto|].
    split; [intros [?|?]; [contradiction|assumption]|].
    intros _ sv Hsv. apply elem_of_nil in Hsv. contradiction.
  - cbn [omap list_omap]. destruct (Atoi isz svtxt) as [sv|] eqn:Hsv.
    2: { apply IH. exact HR. }
    pose proof (sentence_step_clock _ _ HR) as Hc.
    destruct (classify_gsa_flags sv) as (svType & svStr & Hcl).
    pose proof (classify_gsa_nmea sv) as Hnm. rewrite Hcl in Hnm. cbn [fst] in Hnm.
    rewrite Hcl. apply wp_bind_get, wp_bind_store_satellite.
    set (rec := gsa_record (stratuxClock w)
                  (lookup_or_create (Satellites w) svStr sv svType)).
    destruct (gsa_record_facts (stratuxClock w)
                (lookup_or_create (Satellites w) svStr sv svType))
      as (Hid & Ht & Hs & Hi).
    fold rec in Hid, Ht, Hs, Hi.
    assert (HR1 : sentence_step w0 (stored rec w))
      by (apply stored_step; [exact HR|congruence]).
    eapply wp_conseq; [|apply (IH (sat + 1) (sb || is_sbas_id sv)
                                  (gl || is_glonass_id sv) _ HR1)].
    intros r w2 (HR2 & Hr & Hev2 & Hmono2 & Hcnt2 & Hsat2).
    split; [exact HR2|].
    split.
    { rewrite Hr. cbn [length existsb]. rewrite Nat2Z.inj_succ, !orb_assoc.
      replace (sat + 1 + Z.of_nat (length (omap (Atoi isz) rest)))
        with (sat + Z.succ (Z.of_nat (length (omap (Atoi isz) rest)))) by lia.
      reflexivity. }
    split; [rewrite Hev2; apply stored_events|].
    split; [intros k Hk; apply Hmono2; rewrite <- Hc in Hk |- *;
            apply stored_in_solution_mono; assumption|].
    split; [intros _; apply Hcnt2; right; apply updateConstellation_counters_agree|].
    intros Hwf sv' Hsv'. apply elem_of_cons in Hsv' as [->|Hin].
    + apply Hmono2. rewrite <- Hnm. cbn [snd].
      rewrite <- (lookup_or_create_ID (Satellites w) svStr sv svType
                    (sentence_step_well_filed _ _ HR Hwf)), <- Hid, <- Hc.
      apply stored_in_solution; assumption.
    + apply (Hsat2 Hwf). exact Hin.
Qed.

Lemma gsa_count_update_Quality tmp sat sb gl :
  SituationData.Quality (gsa_count_update tmp sat sb gl) = SituationData.Quality tmp.
Proof.
  unfold gsa_count_update.
  destruct (_ || _); [destruct (_ && _ && _)|]; reflexivity.
Qed.

(** What the GSA handler does. *)
Lemma handleGSA_spec rt x w0 w :
  sentence_step w0 w ->
  wp (handleGSA rt x)
     (fun r w' =>
        sentence_step w0 w' /\ r <> Panic /\ r <> Val tt
        /\ (r = Ret true ->
            let s := mySituation w in
            let s' := mySituation w' in
            s' = SituationData.set_Satellites (SituationData.Satellites s')
                   (SituationData.set_Accuracy (SituationData.Accuracy s')
                   (SituationData.set_NACp (SituationData.NACp s')
                   (SituationData.set_AccuracyVert (SituationData.AccuracyVert s') s)))
            /\ SituationData.NACp s' = calculateNACp (SituationData.Accuracy s')
            /\ (exists t16 hdop t17 vdop,
                   x !! 16%nat = Some t16 /\ ParseFloat rt t16 = Some hdop
                   /\ x !! 17%nat = Some t17 /\ ParseFloat rt t17 = Some vdop
                   /\ SituationData.Accuracy s'
                      = float32_of_float64
                          (f64_mul hdop (if SituationData.Quality s =? 2
                                         then f64_lit 4 0 else f64_lit 8 0))
                   /\ SituationData.AccuracyVert s'
                      = float32_of_float64 (f64_mul vdop (f64_lit 5 0)))
            /\ (well_filed (Satellites w0) ->
                forall sv, sv ∈ gsa_ids (intSize rt) x ->
                  in_solution_now (stratuxClock w0) (Satellites w')
                                  (classify_nmea sv).2)
            /\ events w' = events w)) w.
Proof.
  intros HR. unfold handleGSA.
  repeat wp_step.
  all: try lia.
  all: try (reject_leaf HR; fail).
  change (Z.to_nat (15 - 3)) with 12%nat. change (Z.to_nat 3) with 3%nat.
  fold (gsa_ids (intSize rt) x).
  apply wp_bind.
  eapply wp_conseq; [|apply (gsa_loop_spec (intSize rt) w0 _ 0 false false w HR)].
  intros r w1 (HR1 & -> & Hev & Hmono & Hcnt & Hsat).
  fold (gsa_ids (intSize rt) x) in Hsat |- *.
  assert (HRx : sentence_step w0 (set_mySituation (mySituation w) w1)).
  { destruct HR as (_ & Hs & _). destruct HR1 as (Hf & _ & Hm).
    split; [exact Hf|]. split; [exact Hs|exact Hm]. }
  repeat wp_step.
  all: try lia.
  all: try (reject_leaf HR1; fail).
  all: cbv beta; rewrite ?gsa_count_update_Quality;
    destruct (SituationData.Quality (mySituation w) =? 2) eqn:Hq.
  all: (split; [sentence_step_leaf HRx|]);
    (split; [discriminate|]); (split; [discriminate|]); intros _; cbv zeta.
  all: split;
    [rewrite (gsa_count_update_frame (mySituation w)); destruct (mySituation w);
     reflexivity|].
  all: (split; [reflexivity|]).
  all: split;
    [parsed; split; reflexivity|].
  all: split; [exact Hsat|].
  all: exact Hev.
Qed.

(** ** The sentence parser as a whole *)

Lemma sentence_step_refl w : sentence_step w w.
Proof.
  split; [apply frame_kept_refl|]. split.
  - unfold situation_step. repeat split; auto.
  - split; [|auto]. intros k s' Hk. right. exists s'. split; [exact Hk|].
    destruct s'; reflexivity.
Qed.

Lemma body_invalid rt l w msg :
  Codec.validateNMEAChecksum l = (msg, false) ->
  processNMEALine_body rt l w = (Ret false, w).
Proof. intros Hv. unfold processNMEALine_body. rewrite Hv. reflexivity. Qed.

Ltac eqb_facts :=
  repeat match goal with
         | H : String.eqb _ _ = true |- _ => apply String.eqb_eq in H; subst
         | H : _ || _ = true |- _ => apply orb_true_iff in H
         | H : _ || _ = false |- _ => apply orb_false_iff in H as [? ?]
         end.

(** Whatever the line, once its checksum is valid the body of
    [processNMEALine] returns or panics in a world that is a sentence step
    away from the stamped one, and it panics only on the three kinds of
    PUBX sentence of [may_panic]. *)
Lemma body_step rt l w payload :
  Codec.validateNMEAChecksum l = (payload, true) ->
  wp (processNMEALine_body rt l)
     (fun r w' =>
        sentence_step (stamp l w) w'
        /\ r <> Val tt
        /\ (r = Panic -> may_panic (intSize rt) (Split1 payload ","))) w.
Proof.
  intros Hv. unfold processNMEALine_body. rewrite Hv. cbn [negb].
  apply wp_bind_modify. fold (stamp l w).
  pose proof (sentence_step_refl (stamp l w)) as HR.
  set (x := Split1 payload ",").
  assert (Hne : (0 < length x)%nat).
  { subst x. pose proof (Split1_nonempty payload ","). destruct (Split1 payload ",");
      [contradiction|cbn; lia]. }
  apply wp_bind_index; [intros x0 _ Hx0|lia].
  change (Z.to_nat 0) with 0%nat in Hx0.
  apply wp_bind.
  destruct (String.eqb x0 "PUBX") eqn:Hpubx.
  - apply String.eqb_eq in Hpubx. subst x0.
    apply wp_bind_index.
    2: { intros Hlen. split; [exact HR|]. split; [discriminate|]. intros _.
         split; [exact Hx0|]. left. lia. }
    intros x1 _ Hx1. change (Z.to_nat 1) with 1%nat in Hx1.
    change (String.eqb "PUBX" "GPGSV" || String.eqb "PUBX" "GLGSV") with false.
    cbv iota.
    destruct (String.eqb x1 "00") eqn:H00;
      [|destruct (String.eqb x1 "03") eqn:H03;
        [|destruct (String.eqb x1 "04") eqn:H04]].
    + eapply wp_conseq; [|apply (handlePUBX00_spec rt x _ _ HR)].
      intros r w' (HR' & Hnp & Hnv & _).
      destruct r as [[]|b|]; try contradiction.
      split; [exact HR'|]. split; [discriminate|]. intros Heq; discriminate Heq.
    + apply String.eqb_eq in H03. subst x1.
      eapply wp_conseq; [|apply (handlePUBX03_spec (intSize rt) x _ _ HR)].
      intros r w' (HR' & Hnv & Hfacts).
      destruct r as [[]|b|]; try contradiction.
      * split; [exact HR'|]. split; [discriminate|]. intros Heq; discriminate Heq.
      * split; [exact HR'|]. split; [discriminate|]. intros _.
        destruct (Hfacts (or_introl eq_refl)) as (t & n & Ht & Hn & Hp & _).
        destruct (Hp eq_refl) as [Hpos Hov].
        split; [exact Hx0|]. right. right. split; [exact Hx1|].
        exists t, n. auto.
    + apply String.eqb_eq in H04. subst x1.
      eapply wp_conseq; [|apply (handlePUBX04_spec rt x _ _ HR)].
      intros r w' (HR' & Hp & _).
      destruct r as [[]|b|].
      * apply wp_return. split; [exact HR'|]. split; [discriminate|].
        intros Heq; discriminate Heq.
      * split; [exact HR'|]. split; [discriminate|]. intros Heq; discriminate Heq.
      * split; [exact HR'|]. split; [discriminate|]. intros _.
        split; [exact Hx0|]. right. left. split; [exact Hx1|]. exact (Hp eq_refl).
    + apply wp_pure, wp_return.
      split; [exact HR|]. split; [discriminate|]. intros Heq; discriminate Heq.
  - destruct (String.eqb x0 "GNVTG" || String.eqb x0 "GPVTG") eqn:Hvtg;
      [|destruct (String.eqb x0 "GNGGA" || String.eqb x0 "GPGGA") eqn:Hgga;
        [|destruct (String.eqb x0 "GNRMC" || String.eqb x0 "GPRMC") eqn:Hrmc;
          [|destruct (String.eqb x0 "GNGSA" || String.eqb x0 "GPGSA") eqn:Hgsa]]].
    + eapply wp_conseq; [|apply (handleVTG_spec rt x _ _ HR)].
      intros r w' (HR' & Hnp & Hnv & _).
      destruct r as [[]|b|]; try contradiction.
      split; [exact HR'|]. split; [discriminate|]. intros Heq; discriminate Heq.
    + eapply wp_conseq; [|apply (handleGGA_spec rt x _ _ HR)].
      intros r w' (HR' & Hnp & Hnv & _).
      destruct r as [[]|b|]; try contradiction.
      split; [exact HR'|]. split; [discriminate|]. intros Heq; discriminate Heq.
    + eapply wp_conseq; [|apply (handleRMC_spec rt x _ _ HR)].
      intros r w' (HR' & Hnp & Hnv & _).
      destruct r as [[]|b|]; try contradiction.
      split; [exact HR'|]. split; [discriminate|]. intros Heq; discriminate Heq.
    + eapply wp_conseq; [|apply (handleGSA_spec rt x _ _ HR)].
      intros r w' (HR' & Hnp & Hnv & _).
      destruct r as [[]|b|]; try contradiction.
      split; [exact HR'|]. split; [discriminate|]. intros Heq; discriminate Heq.
    + apply wp_pure.
      destruct (String.eqb x0 "GPGSV" || String.eqb x0 "GLGSV").
      * eapply wp_conseq; [|apply (handleGSV_spec (intSize rt) x _ _ HR)].
        intros r w' (HR' & Hnp & Hnv & _).
        split; [exact HR'|]. split; [exact Hnv|]. intros ->. contradiction.
      * apply wp_return.
        split; [exact HR|]. split; [discriminate|]. intros Heq; discriminate Heq.
Qed.

(** *** Which handler runs *)

Ltac eval_eqb :=
  repeat match goal with
         | |- context [String.eqb ?a ?b] =>
             let v := eval vm_compute in (String.eqb a b) in
             change (String.eqb a b) with v
         end;
  cbn [orb]; cbv iota.

Ltac body_dispatch l w Hv Hx0 :=
  unfold processNMEALine_body; rewrite Hv; cbn [negb];
  unfold bind at 1, modify at 1; cbv beta iota; fold (stamp l w);
  unfold bind at 1, index at 1; cbv beta iota;
  change (0 <=? 0) with true; change (Z.to_nat 0) with 0%nat; cbv iota;
  rewrite Hx0; unfold pure at 1; cbv beta iota;
  eval_eqb.

Lemma bind_no_fallthrough {A B} (m : M A) (k : A -> M B) w :
  (forall a, (m w).1 <> Val a) ->
  bind m k w = (match (m w).1 with
                | Val _ => Panic | Ret b => Ret b | Panic => Panic
                end, (m w).2).
Proof.
  intros H. unfold bind. destruct (m w) as [[a|b|] w1] eqn:E; cbn in *;
    try reflexivity. exfalso. exact (H a eq_refl).
Qed.

Lemma bind_no_fallthrough_unit {B} (m : M unit) (k : unit -> M B) w r w' :
  m w = (r, w') -> r <> Val tt ->
  bind m k w = (match r with
                | Val _ => Panic | Ret b => Ret b | Panic => Panic
                end, w').
Proof.
  intros E H. unfold bind. rewrite E. destruct r as [[]|b|]; [contradiction| |];
    reflexivity.
Qed.

Lemma body_VTG rt l w payload r w' :
  Codec.validateNMEAChecksum l = (payload, true) ->
  Split1 payload "," !! 0%nat = Some "GNVTG"
  \/ Split1 payload "," !! 0%nat = Some "GPVTG" ->
  processNMEALine_body rt l w = (r, w') ->
  handleVTG rt (Split1 payload ",") (stamp l w) = (r, w').
Proof.
  intros Hv Hx0 Hb.
  pose proof (handleVTG_spec rt (Split1 payload ",") _ _
                (sentence_step_refl (stamp l w))) as (_ & _ & Hnv & _).
  destruct (handleVTG rt (Split1 payload ",") (stamp l w)) as [r1 w1] eqn:E.
  cbn [fst snd] in Hnv.
  destruct Hx0 as [Hx0|Hx0]; revert Hb; body_dispatch l w Hv Hx0;
    rewrite (bind_no_fallthrough_unit _ _ _ _ _ E Hnv);
    destruct r1 as [[]|b|]; try contradiction; intros H; exact H.
Qed.

Lemma body_GGA rt l w payload r w' :
  Codec.validateNMEAChecksum l = (payload, true) ->
  Split1 payload "," !! 0%nat = Some "GNGGA"
  \/ Split1 payload "," !! 0%nat = Some "GPGGA" ->
  processNMEALine_body rt l w = (r, w') ->
  handleGGA rt (Split1 payload ",") (stamp l w) = (r, w').
Proof.
  intros Hv Hx0 Hb.
  pose proof (handleGGA_spec rt (Split1 payload ",") _ _
                (sentence_step_refl (stamp l w))) as (_ & _ & Hnv & _).
  destruct (handleGGA rt (Split1 payload ",") (stamp l w)) as [r1 w1] eqn:E.
  cbn [fst snd] in Hnv.
  destruct Hx0 as [Hx0|Hx0]; revert Hb; body_dispatch l w Hv Hx0;
    rewrite (bind_no_fallthrough_unit _ _ _ _ _ E Hnv);
    destruct r1 as [[]|b|]; try contradiction; intros H; exact H.
Qed.

Lemma body_RMC rt l w payload r w' :
  Codec.validateNMEAChecksum l = (payload, true) ->
  Split1 payload "," !! 0%nat = Some "GNRMC"
  \/ Split1 payload "," !! 0%nat = Some "GPRMC" ->
  processNMEALine_body rt l w = (r, w') ->
  handleRMC rt (Split1 payload ",") (stamp l w) = (r, w').
Proof.
  intros Hv Hx0 Hb.
  pose proof (handleRMC_spec rt (Split1 payload ",") _ _
                (sentence_step_refl (stamp l w))) as (_ & _ & Hnv & _).
  destruct (handleRMC rt (Split1 payload ",") (stamp l w)) as [r1 w1] eqn:E.
  cbn [fst snd] in Hnv.
  destruct Hx0 as [Hx0|Hx0]; revert Hb; body_dispatch l w Hv Hx0;
    rewrite (bind_no_fallthrough_unit _ _ _ _ _ E Hnv);
    destruct r1 as [[]|b|]; try contradiction; intros H; exact H.
Qed.

Lemma body_GSA rt l w payload r w' :
  Codec.validateNMEAChecksum l = (payload, true) ->
  Split1 payload "," !! 0%nat = Some "GNGSA"
  \/ Split1 payload "," !! 0%nat = Some "GPGSA" ->
  processNMEALine_body rt l w = (r, w') ->
  handleGSA rt (Split1 payload ",") (stamp l w) = (r, w').
Proof.
  intros Hv Hx0 Hb.
  pose proof (handleGSA_spec rt (Split1 payload ",") _ _
                (sentence_step_refl (stamp l w))) as (_ & _ & Hnv & _).
  destruct (handleGSA rt (Split1 payload ",") (stamp l w)) as [r1 w1] eqn:E.
  cbn [fst snd] in Hnv.
  destruct Hx0 as [Hx0|Hx0]; revert Hb; body_dispatch l w Hv Hx0;
    rewrite (bind_no_fallthrough_unit _ _ _ _ _ E Hnv);
    destruct r1 as [[]|b|]; try contradiction; intros H; exact H.
Qed.

Lemma body_GSV rt l w payload r w' :
  Codec.validateNMEAChecksum l = (payload, true) ->
  Split1 payload "," !! 0%nat = Some "GPGSV"
  \/ Split1 payload "," !! 0%nat = Some "GLGSV" ->
  processNMEALine_body rt l w = (r, w') ->
  handleGSV (intSize rt) (Split1 payload ",") (stamp l w) = (r, w').
Proof.
  intros Hv Hx0 Hb.
  destruct Hx0 as [Hx0|Hx0]; revert Hb; body_dispatch l w Hv Hx0;
    unfold bind at 1, pure at 1; cbv beta iota; intros H; exact H.
Qed.

Ltac body_dispatch_pubx l w Hv Hx0 Hx1 :=
  body_dispatch l w Hv Hx0;
  unfold bind at 1; unfold bind at 1, index at 1; cbv beta iota;
  change (0 <=? 1) with true; change (Z.to_nat 1) with 1%nat; cbv iota;
  rewrite Hx1; unfold pure at 1; cbv beta iota;
  eval_eqb.

Lemma body_PUBX00 rt l w payload r w' :
  Codec.validateNMEAChecksum l = (payload, true) ->
  Split1 payload "," !! 0%nat = Some "PUBX" ->
  Split1 payload "," !! 1%nat = Some "00" ->
  processNMEALine_body rt l w = (r, w') ->
  handlePUBX00 rt (Split1 payload ",") (stamp l w) = (r, w').
Proof.
  intros Hv Hx0 Hx1 Hb.
  pose proof (handlePUBX00_spec rt (Split1 payload ",") _ _
                (sentence_step_refl (stamp l w))) as (_ & _ & Hnv & _).
  destruct (handlePUBX00 rt (Split1 payload ",") (stamp l w)) as [r1 w1] eqn:E.
  cbn [fst snd] in Hnv.
  revert Hb; body_dispatch_pubx l w Hv Hx0 Hx1.
  rewrite E. destruct r1 as [[]|b|]; try contradiction; intros H; exact H.
Qed.

Lemma body_PUBX03 rt l w payload r w' :
  Codec.validateNMEAChecksum l = (payload, true) ->
  Split1 payload "," !! 0%nat = Some "PUBX" ->
  Split1 payload "," !! 1%nat = Some "03" ->
  processNMEALine_body rt l w = (r, w') ->
  handlePUBX03 (intSize rt) (Split1 payload ",") (stamp l w) = (r, w').
Proof.
  intros Hv Hx0 Hx1 Hb.
  pose proof (handlePUBX03_spec (intSize rt) (Split1 payload ",") _ _
                (sentence_step_refl (stamp l w))) as (_ & Hnv & _).
  destruct (handlePUBX03 (intSize rt) (Split1 payload ",") (stamp l w))
    as [r1 w1] eqn:E.
  cbn [fst snd] in Hnv.
  revert Hb; body_dispatch_pubx l w Hv Hx0 Hx1.
  rewrite E. destruct r1 as [[]|b|]; try contradiction; intros H; exact H.
Qed.


(** [processNMEALine] returns true exactly when its body does, and then
    logs the situation. *)
Lemma processNMEALine_true rt l w w' :
  processNMEALine rt l w = (Returned true, w') ->
  exists w1, processNMEALine_body rt l w = (Ret true, w1)
             /\ w' = emit EvLogSituation w1.
Proof.
  unfold processNMEALine. destruct (processNMEALine_body rt l w) as [r w1].
  destruct r as [u|[|]|]; intros H; try discriminate H.
  injection H as <-. exists w1. split; reflexivity.
Qed.

(** ** Every line *)

(** The world [processNMEALine] leaves is the one its body leaves, with at
    most a [logSituation] event added. *)
Lemma processNMEALine_world rt l w :
  let w1 := (processNMEALine_body rt l w).2 in
  (processNMEALine rt l w).2 = w1
  \/ (processNMEALine rt l w).2 = emit EvLogSituation w1.
Proof.
  unfold processNMEALine. destruct (processNMEALine_body rt l w) as [r w1].
  cbn [fst snd]. destruct (_ || DEBUG w1); auto.
Qed.

Lemma sentence_step_emit w0 w e :
  sentence_step w0 w -> sentence_step w0 (emit e w).
Proof.
  intros ((Hc & Hg & Hd & new & He) & Hs & Hm).
  split; [|split; assumption].
  repeat split; try assumption. exists (e :: new). cbn [events emit].
  rewrite He. reflexivity.
Qed.

(** After any line, the world is a sentence step away from the world
    before, stamped if the checksum was valid. *)
Lemma processNMEALine_step rt l w :
  let w' := (processNMEALine rt l w).2 in
  match Codec.validateNMEAChecksum l with
  | (_, true) => sentence_step (stamp l w) w'
  | (_, false) => sentence_step w w'
  end.
Proof.
  intros w'. subst w'.
  destruct (Codec.validateNMEAChecksum l) as [payload [|]] eqn:Hv.
  - pose proof (body_step rt l w payload Hv) as (HR & _). 
    destruct (processNMEALine_world rt l w) as [->| ->];
      [exact HR|apply sentence_step_emit; exact HR].
  - pose proof (body_invalid rt l w payload Hv) as Hb.
    destruct (processNMEALine_world rt l w) as [->| ->]; rewrite Hb; cbn [snd];
      [|apply sentence_step_emit]; apply sentence_step_refl.
Qed.

(** X12. A line whose checksum is not valid changes nothing: the call
    returns false, the situation record (liveness fields included) and the
    satellite map stay as they are, and only the debug setting decides
    whether the situation is logged. *)
Theorem processNMEALine_bad_checksum (rt : GoRuntime) (l msg : string) (w : World) :
  Codec.validateNMEAChecksum l = (msg, false) ->
  processNMEALine rt l w
  = (Returned false, if DEBUG w then emit EvLogSituation w else w).
Proof.
  intros Hv. unfold processNMEALine. rewrite (body_invalid rt l w msg Hv).
  reflexivity.
Qed.

Lemma processNMEALine_bad_checksum_witness :
  processNMEALine (decimal_runtime Int32)
    "$GPGGA,123519.00,4807.038,N,01131.000,E,1,08,0.9,545.4,M,46.9,M,,*00"
    (initWorld (60 * Second) 0)
  = (Returned false, initWorld (60 * Second) 0).
Proof.
  apply (processNMEALine_bad_checksum (decimal_runtime Int32) _
           "Checksum failed. Calculated 0X69; expected 0X0").
  vm_compute. reflexivity.
Defined.


(** X14. A line with a valid checksum is recorded as the last valid
    message, at the current clock value, whatever the rest of the call does
    with it: accept it, reject it, or panic.  The GPS then counts as
    connected. *)
Theorem processNMEALine_liveness (rt : GoRuntime) (l payload : string) (w : World) :
  Codec.validateNMEAChecksum l = (payload, true) ->
  let w' := (processNMEALine rt l w).2 in
  SituationData.LastValidNMEAMessage (mySituation w') = l
  /\ SituationData.LastValidNMEAMessageTime (mySituation w') = stratuxClock w
  /\ isGPSConnected w' = true.
Proof.
  intros Hv w'. pose proof (processNMEALine_step rt l w) as H. cbv zeta in H.
  fold w' in H. rewrite Hv in H.
  destruct H as ((Hc & _) & (_ & Hl & _) & _).
  unfold liveness_part in Hl. injection Hl as Ht Hm.
  cbn [stamp stratuxClock set_mySituation] in Hc.
  split; [exact Hm|]. split; [exact Ht|].
  unfold isGPSConnected. rewrite Ht, Hc. unfold Since. rewrite Z.sub_diag.
  reflexivity.
Qed.

Lemma processNMEALine_liveness_witness :
  isGPSConnected
    (processNMEALine (decimal_runtime Int32) "$PUBX*1F" (initWorld (60 * Second) 0)).2
  = true.
Proof.
  destruct (processNMEALine_liveness (decimal_runtime Int32) "$PUBX*1F" "PUBX"
              (initWorld (60 * Second) 0)) as (_ & _ & H);
    [vm_compute; reflexivity|exact H].
Defined.

(** X15. [processNMEALine] panics only on a checksum-valid sentence whose
    first field is ["PUBX"] and which has no second field, or is a PUBX,04
    with fewer than six fields, or is a PUBX,03 whose satellite count [n]
    is positive and so large that [n*6+3] overflows [int].  No VTG, GGA,
    RMC, GSA or GSV sentence, no PUBX,00 and no unknown sentence makes it
    panic, however malformed. *)
Theorem processNMEALine_panic_only_pubx (rt : GoRuntime) (l : string) (w w' : World) :
  processNMEALine rt l w = (Panicked, w') ->
  exists payload,
    Codec.validateNMEAChecksum l = (payload, true)
    /\ may_panic (intSize rt) (Split1 payload ",").
Proof.
  intros Hrun.
  destruct (Codec.validateNMEAChecksum l) as [payload [|]] eqn:Hv.
  - exists payload. split; [reflexivity|].
    pose proof (body_step rt l w payload Hv) as (_ & _ & Hp).
    apply Hp. unfold processNMEALine in Hrun.
    destruct (processNMEALine_body rt l w) as [r w1]. cbn [fst].
    destruct r as [u|b|]; [discriminate Hrun|discriminate Hrun|reflexivity].
  - unfold processNMEALine in Hrun. rewrite (body_invalid rt l w payload Hv) in Hrun.
    discriminate Hrun.
Qed.

Lemma processNMEALine_panic_only_pubx_witness :
  exists payload,
    Codec.validateNMEAChecksum "$PUBX,03,357913942*29" = (payload, true)
    /\ may_panic Int32 (Split1 payload ",").
Proof.
  apply (processNMEALine_panic_only_pubx (decimal_runtime Int32)
           "$PUBX,03,357913942*29" (initWorld (60 * Second) 0)
           (processNMEALine (decimal_runtime Int32) "$PUBX,03,357913942*29"
              (initWorld (60 * Second) 0)).2).
  lazy. reflexivity.
Defined.


(** X16. The satellite map stays well filed: if every record is stored
    under its own [SatelliteID] before a call of [processNMEALine], the
    same holds after it. *)
Theorem processNMEALine_well_filed (rt : GoRuntime) (l : string) (w : World) :
  well_filed (Satellites w) ->
  well_filed (Satellites (processNMEALine rt l w).2).
Proof.
  intros Hwf. pose proof (processNMEALine_step rt l w) as H. cbv zeta in H.
  destruct (Codec.validateNMEAChecksum l) as [payload [|]];
    destruct H as (_ & _ & _ & Hm); exact (Hm Hwf).
Qed.

Lemma processNMEALine_well_filed_witness :
  well_filed
    (Satellites
       (processNMEALine (decimal_runtime Int32)
          "$GPGSV,3,1,11,03,03,111,00,04,15,270,00,06,01,010,00,13,06,292,00*74"
          (initWorld (60 * Second) 0)).2).
Proof.
  apply (processNMEALine_well_filed (decimal_runtime Int32)).
  intros k s Hk. cbn [Satellites initWorld] in Hk.
  rewrite lookup_empty in Hk. discriminate Hk.
Defined.

(** X17. What a call of [processNMEALine] may stamp.  Each of
    [LastFixLocalTime], [LastGroundTrackTime] and [LastGPSTimeTime] is
    afterwards what it was or the current clock value; and every record of
    the satellite map is afterwards either stamped with the current clock
    value as last tracked, or is the record that was there before, with at
    most [InSolution] changed. *)
Theorem processNMEALine_stamps (rt : GoRuntime) (l : string) (w : World) :
  let w' := (processNMEALine rt l w).2 in
  let s := mySituation w in
  let s' := mySituation w' in
  (SituationData.LastFixLocalTime s' = SituationData.LastFixLocalTime s
   \/ SituationData.LastFixLocalTime s' = stratuxClock w)
  /\ (SituationData.LastGroundTrackTime s' = SituationData.LastGroundTrackTime s
      \/ SituationData.LastGroundTrackTime s' = stratuxClock w)
  /\ (SituationData.LastGPSTimeTime s' = SituationData.LastGPSTimeTime s
      \/ SituationData.LastGPSTimeTime s' = stratuxClock w)
  /\ (forall k r', Satellites w' !! k = Some r' ->
        SatelliteInfo.TimeLastTracked r' = stratuxClock w
        \/ exists r, Satellites w !! k = Some r
                     /\ r' = SatelliteInfo.set_InSolution
                               (SatelliteInfo.InSolution r') r).
Proof.
  intros w' s s'. pose proof (processNMEALine_step rt l w) as H. cbv zeta in H.
  fold w' in H.
  destruct (Codec.validateNMEAChecksum l) as [payload [|]];
    destruct H as (_ & (_ & _ & Hfix & Hgt & Hgps & _) & (Hm & _));
    (split; [exact Hfix|]); (split; [exact Hgt|]); (split; [exact Hgps|]);
    exact Hm.
Qed.

(** X18. [NACp] stays derived from [Accuracy]: if
    [NACp = calculateNACp(Accuracy)] holds before a call of
    [processNMEALine], it holds after it. *)
Theorem processNMEALine_NACp (rt : GoRuntime) (l : string) (w : World) :
  SituationData.NACp (mySituation w)
  = calculateNACp (SituationData.Accuracy (mySituation w)) ->
  let s' := mySituation (processNMEALine rt l w).2 in
  SituationData.NACp s' = calculateNACp (SituationData.Accuracy s').
Proof.
  intros Hn s'. pose proof (processNMEALine_step rt l w) as H. cbv zeta in H.
  destruct (Codec.validateNMEAChecksum l) as [payload [|]];
    destruct H as (_ & (_ & _ & _ & _ & _ & Hnacp) & _); exact (Hnacp Hn).
Qed.

Lemma processNMEALine_NACp_witness :
  let w := set_mySituation (SituationData.set_NACp 11 SituationData.zero)
             (initWorld (60 * Second) 0) in
  let s' := mySituation
              (processNMEALine (decimal_runtime Int32)
                 "$GPGSA,A,3,05,07,,,,,,,,,,,1.0,1.0,1.0*31" w).2 in
  SituationData.NACp s' = calculateNACp (SituationData.Accuracy s').
Proof.
  intros w. apply (processNMEALine_NACp (decimal_runtime Int32)).
  vm_compute. reflexivity.
Defined.

(** ** Accepted sentences *)

Lemma Since_now c : Since c c = 0.
Proof. unfold Since. apply Z.sub_diag. Qed.

(** X19. An accepted VTG sentence: field 5 is the ground speed and field
    1 the course; the course is stored only when the speed is above 3; the
    ground track is stamped and counts as valid; apart from these three
    fields and the two liveness fields the record is as before, and so is
    the satellite map. *)
Theorem vtg_accepted (rt : GoRuntime) (l payload : string) (w w' : World) :
  Codec.validateNMEAChecksum l = (payload, true) ->
  let x := Split1 payload "," in
  x !! 0%nat = Some "GNVTG" \/ x !! 0%nat = Some "GPVTG" ->
  processNMEALine rt l w = (Returned true, w') ->
  let s := mySituation w in
  let s' := mySituation w' in
  (exists t5 t1 gs tc,
      x !! 5%nat = Some t5 /\ ParseFloat rt t5 = Some gs
      /\ x !! 1%nat = Some t1 /\ ParseFloat rt t1 = Some tc
      /\ SituationData.GroundSpeed s' = uint16_of_float64 rt gs
      /\ SituationData.TrueCourse s' =
         if f64_ltb (f64_lit 3 0) gs then float32_of_float64 tc
         else SituationData.TrueCourse s)
  /\ s' = SituationData.set_LastGroundTrackTime (stratuxClock w)
            (SituationData.set_TrueCourse (SituationData.TrueCourse s')
            (SituationData.set_GroundSpeed (SituationData.GroundSpeed s')
            (SituationData.set_LastValidNMEAMessage l
            (SituationData.set_LastValidNMEAMessageTime (stratuxClock w) s))))
  /\ isGPSGroundTrackValid w' = true
  /\ Satellites w' = Satellites w
  /\ events w' = EvLogSituation :: events w.
Proof.
  intros Hv x Hx0 Hrun s s'.
  apply processNMEALine_true in Hrun as (w1 & Hb & ->).
  apply (body_VTG rt l w payload _ _ Hv Hx0) in Hb.
  pose proof (handleVTG_spec rt x _ _ (sentence_step_refl (stamp l w))) as Hs.
  unfold wp in Hs. fold x in Hb. rewrite Hb in Hs. cbn [fst snd] in Hs.
  destruct Hs as (_ & _ & _ & Hf). specialize (Hf eq_refl). cbv zeta in Hf.
  destruct Hf as (Hp & Heq & Hm & He).
  split; [exact Hp|]. split; [exact Heq|].
  split; [|split; [exact Hm|cbn [events emit]; rewrite He; reflexivity]].
  unfold isGPSGroundTrackValid. subst s'.
  change (mySituation (emit EvLogSituation w1)) with (mySituation w1).
  rewrite Heq.
  assert (Hc : stratuxClock (emit EvLogSituation w1) = stratuxClock w).
  { pose proof (handleVTG_spec rt x _ _ (sentence_step_refl (stamp l w))) as Hs.
    unfold wp in Hs. rewrite Hb in Hs. destruct Hs as (((Hc & _) & _) & _).
    exact Hc. }
  rewrite Hc.
  cbn [SituationData.LastGroundTrackTime SituationData.set_LastGroundTrackTime].
  rewrite Since_now. reflexivity.
Qed.

Lemma vtg_accepted_witness :
  isGPSGroundTrackValid
    (processNMEALine (decimal_runtime Int32)
       "$GPVTG,054.7,T,034.4,M,005.5,N,010.2,K*48" (initWorld (60 * Second) 0)).2
  = true.
Proof.
  destruct (vtg_accepted (decimal_runtime Int32)
              "$GPVTG,054.7,T,034.4,M,005.5,N,010.2,K*48"
              "GPVTG,054.7,T,034.4,M,005.5,N,010.2,K"
              (initWorld (60 * Second) 0)
              (processNMEALine (decimal_runtime Int32)
                 "$GPVTG,054.7,T,034.4,M,005.5,N,010.2,K*48"
                 (initWorld (60 * Second) 0)).2)
    as (_ & _ & H & _).
  - vm_compute. reflexivity.
  - right. vm_compute. reflexivity.
  - vm_compute. reflexivity.
  - exact H.
Defined.

(** X20. An accepted GGA sentence: field 6 is the quality (stored modulo
    256, so a sentence with quality 0 is accepted too), fields 9 and 11 the
    altitude and the geoid separation in metres, stored in feet; the height
    above the ellipsoid is their sum; the fix is stamped.  The satellite
    count, the accuracy and [NACp] are not written: apart from the eight
    fields named in the equation and the two liveness fields the record is
    as before. *)
Theorem gga_accepted (rt : GoRuntime) (l payload : string) (w w' : World) :
  Codec.validateNMEAChecksum l = (payload, true) ->
  let x := Split1 payload "," in
  x !! 0%nat = Some "GNGGA" \/ x !! 0%nat = Some "GPGGA" ->
  processNMEALine rt l w = (Returned true, w') ->
  let s := mySituation w in
  let s' := mySituation w' in
  (exists t6 q t9 alt t11 sep,
      x !! 6%nat = Some t6 /\ Atoi (intSize rt) t6 = Some q
      /\ x !! 9%nat = Some t9 /\ ParseFloat rt t9 = Some alt
      /\ x !! 11%nat = Some t11 /\ ParseFloat rt t11 = Some sep
      /\ SituationData.Quality s' = to_uint8 q
      /\ SituationData.Alt s' = float32_of_float64 (f64_mul alt (f64_lit 328084 5))
      /\ SituationData.GeoidSep s'
         = float32_of_float64 (f64_mul sep (f64_lit 328084 5)))
  /\ SituationData.HeightAboveEllipsoid s'
     = f32_add (SituationData.GeoidSep s') (SituationData.Alt s')
  /\ SituationData.LastFixLocalTime s' = stratuxClock w
  /\ s' = SituationData.set_LastFixSinceMidnightUTC
            (SituationData.LastFixSinceMidnightUTC s')
         (SituationData.set_Lat (SituationData.Lat s')
         (SituationData.set_Lng (SituationData.Lng s')
         (SituationData.set_Quality (SituationData.Quality s')
         (SituationData.set_Alt (SituationData.Alt s')
         (SituationData.set_GeoidSep (SituationData.GeoidSep s')
         (SituationData.set_HeightAboveEllipsoid
            (SituationData.HeightAboveEllipsoid s')
         (SituationData.set_LastFixLocalTime
            (SituationData.LastFixLocalTime s')
         (SituationData.set_LastValidNMEAMessage l
         (SituationData.set_LastValidNMEAMessageTime (stratuxClock w) s)))))))))
  /\ (isGPSValid w').1 = GPS_connected w && (0 <? SituationData.Quality s')
  /\ Satellites w' = Satellites w
  /\ events w' = EvLogSituation :: events w.
Proof.
  intros Hv x Hx0 Hrun s s'.
  apply processNMEALine_true in Hrun as (w1 & Hb & ->).
  apply (body_GGA rt l w payload _ _ Hv Hx0) in Hb.
  pose proof (handleGGA_spec rt x _ _ (sentence_step_refl (stamp l w))) as Hs.
  unfold wp in Hs. fold x in Hb. rewrite Hb in Hs. cbn [fst snd] in Hs.
  destruct Hs as (((Hc & Hg & _) & _) & _ & _ & Hf).
  specialize (Hf eq_refl). cbv zeta in Hf.
  destruct Hf as (Hp & Hh & Hfix & Heq & Hm & He).
  split; [exact Hp|]. split; [exact Hh|]. split; [exact Hfix|]. split; [exact Heq|].
  split; [|split; [exact Hm|cbn [events emit]; rewrite He; reflexivity]].
  unfold isGPSValid. subst s'.
  change (mySituation (emit EvLogSituation w1)) with (mySituation w1).
  change (stratuxClock (emit EvLogSituation w1)) with (stratuxClock w1).
  change (GPS_connected (emit EvLogSituation w1)) with (GPS_connected w1).
  rewrite Hfix, Hc, Hg.
  change (stratuxClock (stamp l w)) with (stratuxClock w).
  change (GPS_connected (stamp l w)) with (GPS_connected w).
  rewrite Since_now. change (0 <? 15 * Second) with true. cbn [andb].
  destruct (GPS_connected w && (0 <? SituationData.Quality (mySituation w1)));
    reflexivity.
Qed.

Lemma gga_accepted_witness :
  SituationData.LastFixLocalTime
    (mySituation
       (processNMEALine (decimal_runtime Int32)
          "$GPGGA,123519.00,4807.038,N,01131.000,E,1,08,0.9,545.4,M,46.9,M,,*69"
          (initWorld (60 * Second) 0)).2)
  = 60 * Second.
Proof.
  destruct (gga_accepted (decimal_runtime Int32)
              "$GPGGA,123519.00,4807.038,N,01131.000,E,1,08,0.9,545.4,M,46.9,M,,*69"
              "GPGGA,123519.00,4807.038,N,01131.000,E,1,08,0.9,545.4,M,46.9,M,,"
              (initWorld (60 * Second) 0)
              (processNMEALine (decimal_runtime Int32)
                 "$GPGGA,123519.00,4807.038,N,01131.000,E,1,08,0.9,545.4,M,46.9,M,,*69"
                 (initWorld (60 * Second) 0)).2)
    as (_ & _ & H & _).
  - vm_compute. reflexivity.
  - right. vm_compute. reflexivity.
  - vm_compute. reflexivity.
  - exact H.
Defined.

(** X21. An accepted PUBX,00 sentence leaves a usable fix: the quality is
    1, 2 or 6; the accuracy is twice field 9 and [NACp] is derived from it;
    the altitude is the height above the ellipsoid less the geoid
    separation, which is not written; fix and ground track are stamped, so
    that [isGPSValid] holds whenever the GPS is flagged as connected; field
    18 becomes the satellite count.  The tracked and seen counts, the GPS
    time and the satellite map are as before. *)
Theorem pubx00_accepted (rt : GoRuntime) (l payload : string) (w w' : World) :
  Codec.validateNMEAChecksum l = (payload, true) ->
  let x := Split1 payload "," in
  x !! 0%nat = Some "PUBX" -> x !! 1%nat = Some "00" ->
  processNMEALine rt l w = (Returned true, w') ->
  let s := mySituation w in
  let s' := mySituation w' in
  (SituationData.Quality s' = 1 \/ SituationData.Quality s' = 2
   \/ SituationData.Quality s' = 6)
  /\ (exists t9 hAcc t18 n,
         x !! 9%nat = Some t9 /\ ParseFloat rt t9 = Some hAcc
         /\ x !! 18%nat = Some t18 /\ Atoi (intSize rt) t18 = Some n
         /\ SituationData.Accuracy s'
            = float32_of_float64 (f64_mul hAcc (f64_lit 2 0))
         /\ SituationData.Satellites s' = to_uint16 n)
  /\ SituationData.NACp s' = calculateNACp (SituationData.Accuracy s')
  /\ SituationData.Alt s'
     = f32_sub (SituationData.HeightAboveEllipsoid s') (SituationData.GeoidSep s')
  /\ SituationData.LastFixLocalTime s' = stratuxClock w
  /\ SituationData.LastGroundTrackTime s' = stratuxClock w
  /\ (isGPSValid w').1 = GPS_connected w
  /\ SituationData.GeoidSep s' = SituationData.GeoidSep s
  /\ SituationData.SatellitesTracked s' = SituationData.SatellitesTracked s
  /\ SituationData.SatellitesSeen s' = SituationData.SatellitesSeen s
  /\ SituationData.GPSTime s' = SituationData.GPSTime s
  /\ SituationData.LastGPSTimeTime s' = SituationData.LastGPSTimeTime s
  /\ Satellites w' = Satellites w
  /\ events w' = EvLogSituation :: events w.
Proof.
  intros Hv x Hx0 Hx1 Hrun s s'.
  apply processNMEALine_true in Hrun as (w1 & Hb & ->).
  apply (body_PUBX00 rt l w payload _ _ Hv Hx0 Hx1) in Hb.
  pose proof (handlePUBX00_spec rt x _ _ (sentence_step_refl (stamp l w))) as Hs.
  unfold wp in Hs. fold x in Hb. rewrite Hb in Hs. cbn [fst snd] in Hs.
  destruct Hs as (((Hc & Hg & _) & _) & _ & _ & Hf).
  specialize (Hf eq_refl). cbv zeta in Hf.
  destruct Hf as (Hq & Hp & Hn & Ha & Hfix & Hgt & Hsep & Htr & Hseen & Hgps & Hgpst
                  & Hm & He).
  split; [exact Hq|]. split; [exact Hp|]. split; [exact Hn|]. split; [exact Ha|].
  split; [exact Hfix|]. split; [exact Hgt|].
  split; [|split; [exact Hsep|]; split; [exact Htr|]; split; [exact Hseen|];
           split; [exact Hgps|]; split; [exact Hgpst|]; split; [exact Hm|];
           cbn [events emit]; rewrite He; reflexivity].
  unfold isGPSValid. subst s'.
  change (mySituation (emit EvLogSituation w1)) with (mySituation w1) in *.
  change (stratuxClock (emit EvLogSituation w1)) with (stratuxClock w1).
  change (GPS_connected (emit EvLogSituation w1)) with (GPS_connected w1).
  rewrite Hfix, Hc, Hg.
  change (stratuxClock (stamp l w)) with (stratuxClock w).
  change (GPS_connected (stamp l w)) with (GPS_connected w).
  rewrite Since_now. change (0 <? 15 * Second) with true. cbn [andb].
  assert (Hpos : (0 <? SituationData.Quality (mySituation w1)) = true)
    by (destruct Hq as [->|[->| ->]]; reflexivity).
  rewrite Hpos, andb_true_r. destruct (GPS_connected w); reflexivity.
Qed.

Lemma pubx00_accepted_witness :
  let l := "$PUBX,00,081350.00,4717.113210,N,00833.915187,E,546.589,G3,2.1,2.0,0.007,77.52,0.007,,0.92,1.19,0.77,9,0,0*5F" in
  let w := mkWorld SituationData.zero ∅ (60 * Second) 0 true false [] in
  (isGPSValid (processNMEALine (decimal_runtime Int32) l w).2).1 = true.
Proof.
  intros l w.
  destruct (pubx00_accepted (decimal_runtime Int32) l
              "PUBX,00,081350.00,4717.113210,N,00833.915187,E,546.589,G3,2.1,2.0,0.007,77.52,0.007,,0.92,1.19,0.77,9,0,0"
              w (processNMEALine (decimal_runtime Int32) l w).2)
    as (_ & _ & _ & _ & _ & _ & H & _).
  - vm_compute. reflexivity.
  - vm_compute. reflexivity.
  - vm_compute. reflexivity.
  - vm_compute. reflexivity.
  - exact H.
Defined.





(** ** Satellite sentences write the counters only *)

Lemma counters_only_refl w : counters_only w w.
Proof. split; [destruct (mySituation w)|]; reflexivity. Qed.

Lemma counters_only_trans w1 w2 w3 :
  counters_only w1 w2 -> counters_only w2 w3 -> counters_only w1 w3.
Proof.
  intros [H1 E1] [H2 E2]. split; [|congruence].
  etransitivity; [exact H2|]. rewrite H1. reflexivity.
Qed.

Lemma counters_only_stored r w : counters_only w (stored r w).
Proof.
  unfold stored. rewrite updateConstellation_unfold. split; reflexivity.
Qed.

Lemma gsv_loop_counters_only isz x n : forall i w,
  wp (gsv_loop isz x n i) (fun _ w' => counters_only w w') w.
Proof.
  induction n as [|n IH]; intros i w; cbn [gsv_loop].
  - apply wp_pure, counters_only_refl.
  - apply wp_bind.
    assert (Hsat : wp (gsv_satellite isz x i)
                      (fun r w' => counters_only w w') w).
    { unfold gsv_satellite. repeat wp_sat_step;
        first [apply counters_only_refl | apply counters_only_stored]. }
    eapply wp_conseq; [|exact Hsat].
    intros r w1 H1. destruct r as [[]|b|]; try exact H1.
    eapply wp_conseq; [|apply IH].
    intros r w2 H2. exact (counters_only_trans _ _ _ H1 H2).
Qed.

Lemma handleGSV_counters_only isz x w :
  wp (handleGSV isz x) (fun _ w' => counters_only w w') w.
Proof.
  unfold handleGSV. repeat wp_step; try apply counters_only_refl.
  apply wp_bind. eapply wp_conseq; [|apply gsv_loop_counters_only].
  intros r w1 Hco. destruct r as [[]|b|]; exact Hco.
Qed.

Lemma pubx03_loop_counters_only isz x n : forall i w,
  wp (pubx03_loop isz x n i) (fun _ w' => counters_only w w') w.
Proof.
  induction n as [|n IH]; intros i w; cbn [pubx03_loop].
  - apply wp_pure, counters_only_refl.
  - apply wp_bind.
    assert (Hsat : wp (pubx03_satellite isz x i)
                      (fun r w' => counters_only w w') w).
    { unfold pubx03_satellite. repeat wp_sat_step;
        first [apply counters_only_refl | apply counters_only_stored]. }
    eapply wp_conseq; [|exact Hsat].
    intros r w1 H1. destruct r as [[]|b|]; try exact H1.
    eapply wp_conseq; [|apply IH].
    intros r w2 H2. exact (counters_only_trans _ _ _ H1 H2).
Qed.

Lemma handlePUBX03_counters_only isz x w :
  wp (handlePUBX03 isz x) (fun _ w' => counters_only w w') w.
Proof.
  unfold handlePUBX03. repeat wp_step; try apply counters_only_refl.
  match goal with
  | |- wp _ _ ?w1 =>
      assert (Hw1 : counters_only w w1)
        by (split; [destruct (mySituation w)|]; reflexivity)
  end.
  apply wp_bind. eapply wp_conseq; [|apply pubx03_loop_counters_only].
  intros r w2 Hco.
  destruct r as [[]|b|]; exact (counters_only_trans _ _ _ Hw1 Hco).
Qed.

(** X24. An accepted GSA sentence marks every satellite number of fields
    3-14 as in solution, tracked and seen at the current clock value
    (given a well-filed map); it derives the accuracy from the HDOP of field
    16 (times 4 with quality 2, times 8 otherwise), [NACp] from the
    accuracy, and the vertical accuracy from field 17.  The write-back of
    the scratch copy undoes what the loop's map maintenance did to the
    counters: [SatellitesTracked] and [SatellitesSeen] are afterwards what
    they were before the call, whatever the map now holds. *)
Theorem gsa_accepted (rt : GoRuntime) (l payload : string) (w w' : World) :
  Codec.validateNMEAChecksum l = (payload, true) ->
  let x := Split1 payload "," in
  x !! 0%nat = Some "GNGSA" \/ x !! 0%nat = Some "GPGSA" ->
  processNMEALine rt l w = (Returned true, w') ->
  let s := mySituation w in
  let s' := mySituation w' in
  s' = SituationData.set_Satellites (SituationData.Satellites s')
         (SituationData.set_Accuracy (SituationData.Accuracy s')
         (SituationData.set_NACp (SituationData.NACp s')
         (SituationData.set_AccuracyVert (SituationData.AccuracyVert s')
         (SituationData.set_LastValidNMEAMessage l
         (SituationData.set_LastValidNMEAMessageTime (stratuxClock w) s)))))
  /\ SituationData.SatellitesTracked s' = SituationData.SatellitesTracked s
  /\ SituationData.SatellitesSeen s' = SituationData.SatellitesSeen s
  /\ SituationData.NACp s' = calculateNACp (SituationData.Accuracy s')
  /\ (exists t16 hdop t17 vdop,
         x !! 16%nat = Some t16 /\ ParseFloat rt t16 = Some hdop
         /\ x !! 17%nat = Some t17 /\ ParseFloat rt t17 = Some vdop
         /\ SituationData.Accuracy s'
            = float32_of_float64
                (f64_mul hdop (if SituationData.Quality s =? 2
                               then f64_lit 4 0 else f64_lit 8 0))
         /\ SituationData.AccuracyVert s'
            = float32_of_float64 (f64_mul vdop (f64_lit 5 0)))
  /\ (well_filed (Satellites w) ->
      forall sv, sv ∈ gsa_ids (intSize rt) x ->
        in_solution_now (stratuxClock w) (Satellites w') (classify_nmea sv).2)
  /\ events w' = EvLogSituation :: events w.
Proof.
  intros Hv x Hx0 Hrun s s'.
  apply processNMEALine_true in Hrun as (w1 & Hb & ->).
  apply (body_GSA rt l w payload _ _ Hv Hx0) in Hb.
  pose proof (handleGSA_spec rt x _ _ (sentence_step_refl (stamp l w))) as Hs.
  unfold wp in Hs. fold x in Hb. rewrite Hb in Hs. cbn [fst snd] in Hs.
  destruct Hs as (_ & _ & _ & Hf).
  specialize (Hf eq_refl). cbv zeta in Hf.
  destruct Hf as (Heq & Hn & Hp & Hsat & He).
  split; [exact Heq|].
  split; [exact (f_equal SituationData.SatellitesTracked Heq)|].
  split; [exact (f_equal SituationData.SatellitesSeen Heq)|].
  split; [exact Hn|]. split; [exact Hp|]. split; [exact Hsat|].
  cbn [events emit]. rewrite He. reflexivity.
Qed.

Lemma gsa_accepted_witness :
  let l := "$GPGSA,A,3,05,07,,,,,,,,,,,1.0,1.0,1.0*31" in
  let w := initWorld (60 * Second) 0 in
  let w' := (processNMEALine (decimal_runtime Int32) l w).2 in
  SituationData.SatellitesTracked (mySituation w') = 0
  /\ size (Satellites w') = 2%nat.
Proof.
  intros l w w'. split; [|vm_compute; reflexivity].
  destruct (gsa_accepted (decimal_runtime Int32) l
              "GPGSA,A,3,05,07,,,,,,,,,,,1.0,1.0,1.0" w w')
    as (_ & H & _).
  - vm_compute. reflexivity.
  - right. vm_compute. reflexivity.
  - vm_compute. reflexivity.
  - rewrite H. reflexivity.
Defined.

(** X25. An accepted GSV sentence with satellite blocks (eight fields or
    more) leaves the three counters in agreement, modulo 256, with the map;
    every block's satellite number has, in a well-filed map, a record under
    its identifier, last tracked now; and of the situation record nothing
    but the three counters and the two liveness fields has changed. *)
Theorem gsv_accepted (rt : GoRuntime) (l payload : string) (w w' : World) :
  Codec.validateNMEAChecksum l = (payload, true) ->
  let x := Split1 payload "," in
  x !! 0%nat = Some "GPGSV" \/ x !! 0%nat = Some "GLGSV" ->
  processNMEALine rt l w = (Returned true, w') ->
  (8 <= Z.of_nat (length x) -> counters_agree w')
  /\ (well_filed (Satellites w) ->
      forall j, 0 <= j -> 4 * j + 8 <= Z.of_nat (length x) ->
        exists t sv,
          x !! Z.to_nat (4 + 4 * j) = Some t /\ Atoi (intSize rt) t = Some sv
          /\ tracked_now (stratuxClock w) (Satellites w') (classify_nmea sv).2)
  /\ mySituation w' =
       SituationData.set_SatellitesSeen
         (SituationData.SatellitesSeen (mySituation w'))
       (SituationData.set_SatellitesTracked
         (SituationData.SatellitesTracked (mySituation w'))
       (SituationData.set_Satellites (SituationData.Satellites (mySituation w'))
       (SituationData.set_LastValidNMEAMessage l
       (SituationData.set_LastValidNMEAMessageTime (stratuxClock w)
          (mySituation w)))))
  /\ events w' = EvLogSituation :: events w.
Proof.
  intros Hv x Hx0 Hrun.
  apply processNMEALine_true in Hrun as (w1 & Hb & ->).
  apply (body_GSV rt l w payload _ _ Hv Hx0) in Hb.
  pose proof (handleGSV_spec (intSize rt) x _ _ (sentence_step_refl (stamp l w)))
    as Hs.
  pose proof (handleGSV_counters_only (intSize rt) x (stamp l w)) as Hco.
  unfold wp in Hs, Hco. fold x in Hb. rewrite Hb in Hs, Hco. cbn [fst snd] in Hs, Hco.
  destruct Hs as (_ & _ & _ & Hf).
  specialize (Hf eq_refl). destruct Hf as (Hcnt & Hsat).
  destruct Hco as [Hsit Hev].
  split; [intros Hlen; apply (Hcnt (or_introl Hlen))|].
  split; [exact Hsat|]. split; [exact Hsit|].
  cbn [events emit]. rewrite Hev. reflexivity.
Qed.

Lemma gsv_accepted_witness :
  let l := "$GPGSV,3,1,11,03,03,111,00,04,15,270,00,06,01,010,00,13,06,292,00*74" in
  let w := initWorld (60 * Second) 0 in
  counters_agree (processNMEALine (decimal_runtime Int32) l w).2.
Proof.
  intros l w.
  destruct (gsv_accepted (decimal_runtime Int32) l
              "GPGSV,3,1,11,03,03,111,00,04,15,270,00,06,01,010,00,13,06,292,00"
              w (processNMEALine (decimal_runtime Int32) l w).2)
    as (H & _).
  - vm_compute. reflexivity.
  - left. vm_compute. reflexivity.
  - vm_compute. reflexivity.
  - apply H. vm_compute. discriminate.
Defined.

(** X26. An accepted PUBX,03 sentence announces a count [n] in field 2.
    If [n] is zero or negative the sentence is accepted as it is: no
    satellite is read, the map is not maintained, and [SatellitesTracked]
    becomes [n] modulo 65536.  If [n] is positive and [n*6+3] does not
    overflow [int], the sentence has at least [6n+3] fields, the three
    counters agree, modulo 256, with the map, and every announced satellite
    has, in a well-filed map, a record under its identifier, last tracked
    now.  Either way nothing of the situation record but the three counters
    and the two liveness fields has changed. *)
Theorem pubx03_accepted (rt : GoRuntime) (l payload : string) (w w' : World) :
  Codec.validateNMEAChecksum l = (payload, true) ->
  let x := Split1 payload "," in
  x !! 0%nat = Some "PUBX" -> x !! 1%nat = Some "03" ->
  processNMEALine rt l w = (Returned true, w') ->
  (exists t n,
      x !! 2%nat = Some t /\ Atoi (intSize rt) t = Some n
      /\ (n <= 0 ->
          SituationData.SatellitesTracked (mySituation w') = to_uint16 n
          /\ SituationData.Satellites (mySituation w')
             = SituationData.Satellites (mySituation w)
          /\ SituationData.SatellitesSeen (mySituation w')
             = SituationData.SatellitesSeen (mySituation w)
          /\ Satellites w' = Satellites w)
      /\ (0 < n -> 6 * n + 3 < 2 ^ (int_bits (intSize rt) - 1) ->
          6 * n + 3 <= Z.of_nat (length x)
          /\ counters_agree w'
          /\ (well_filed (Satellites w) ->
              forall j, 0 <= j < n ->
                exists t sv,
                  x !! Z.to_nat (3 + 6 * j) = Some t
                  /\ Atoi (intSize rt) t = Some sv
                  /\ tracked_now (stratuxClock w) (Satellites w')
                                 (classify_pubx03 sv).1.2)))
  /\ mySituation w' =
       SituationData.set_SatellitesSeen
         (SituationData.SatellitesSeen (mySituation w'))
       (SituationData.set_SatellitesTracked
         (SituationData.SatellitesTracked (mySituation w'))
       (SituationData.set_Satellites (SituationData.Satellites (mySituation w'))
       (SituationData.set_LastValidNMEAMessage l
       (SituationData.set_LastValidNMEAMessageTime (stratuxClock w)
          (mySituation w)))))
  /\ events w' = EvLogSituation :: events w.
Proof.
  intros Hv x Hx0 Hx1 Hrun.
  apply processNMEALine_true in Hrun as (w1 & Hb & ->).
  apply (body_PUBX03 rt l w payload _ _ Hv Hx0 Hx1) in Hb.
  pose proof (handlePUBX03_spec (intSize rt) x _ _ (sentence_step_refl (stamp l w)))
    as Hs.
  pose proof (handlePUBX03_counters_only (intSize rt) x (stamp l w)) as Hco.
  unfold wp in Hs, Hco. fold x in Hb. rewrite Hb in Hs, Hco. cbn [fst snd] in Hs, Hco.
  destruct Hs as (_ & _ & Hf).
  destruct (Hf (or_intror eq_refl)) as (t & n & Ht & Hn & _ & Hacc).
  destruct (Hacc eq_refl) as [Hneg Hpos].
  destruct Hco as [Hsit Hev].
  split; [|split; [exact Hsit|cbn [events emit]; rewrite Hev; reflexivity]].
  exists t, n. split; [exact Ht|]. split; [exact Hn|]. split; [|exact Hpos].
  intros Hle. rewrite (Hneg Hle). repeat split.
Qed.

Lemma pubx03_accepted_witness :
  let l := "$PUBX,03,2,5,U,100,45,40,000,138,e,200,30,35,000*12" in
  let w := initWorld (60 * Second) 0 in
  SituationData.SatellitesTracked
    (mySituation (processNMEALine (decimal_runtime Int32) l w).2) = 2.
Proof.
  intros l w.
  destruct (pubx03_accepted (decimal_runtime Int32) l
              "PUBX,03,2,5,U,100,45,40,000,138,e,200,30,35,000"
              w (processNMEALine (decimal_runtime Int32) l w).2)
    as (_ & H & _).
  - vm_compute. reflexivity.
  - vm_compute. reflexivity.
  - vm_compute. reflexivity.
  - vm_compute. reflexivity.
  - rewrite H. vm_compute. reflexivity.
Defined.

(** A PUBX,03 sentence announcing minus five satellites is accepted and
    leaves a tracked count of 65531. *)
Example pubx03_negative_count :
  let r := processNMEALine (decimal_runtime Int32) "$PUBX,03,-5*04"
             (initWorld (60 * Second) 0) in
  r.1 = Returned true
  /\ SituationData.SatellitesTracked (mySituation r.2) = 65531.
Proof. vm_compute. split; reflexivity. Qed.

(** ** A rejected RMC sentence *)

Lemma handleRMC_rejected rt x w :
  wp (handleRMC rt x)
     (fun r w' =>
        r = Ret false ->
        mySituation w' = mySituation w
        /\ Satellites w' = Satellites w
        /\ (events w' = events w
            \/ exists t, events w' = EvExecDate t :: events w
                         /\ (3 * Second < time_Now w - t
                             \/ time_Now w - t < - 3 * Second))) w.
Proof.
  unfold handleRMC.
  repeat wp_step.
  all: try lia.
  all: cbv beta; intros Hr; try discriminate Hr.
  all: try (repeat split; left; reflexivity).
  all: split; [reflexivity|]; split; [reflexivity|]; right; eexists;
    (split; [reflexivity|]);
    match goal with
    | H : _ || _ = true |- _ =>
        apply orb_true_iff in H as [H|H]; [left|right]; apply Z.ltb_lt in H; exact H
    end.
Qed.

Lemma processNMEALine_false rt l w w' :
  processNMEALine rt l w = (Returned false, w') ->
  exists r w1,
    processNMEALine_body rt l w = (r, w1)
    /\ r <> Ret true /\ r <> Panic
    /\ w' = if DEBUG w1 then emit EvLogSituation w1 else w1.
Proof.
  unfold processNMEALine. destruct (processNMEALine_body rt l w) as [r w1].
  intros H. exists r, w1. split; [reflexivity|].
  destruct r as [u|[|]|]; try discriminate H; cbn [orb] in H;
    injection H as <-; repeat split; discriminate.
Qed.

(** X27. A rejected RMC sentence leaves the situation record (the liveness
    fields apart) and the satellite map as they were, as the scratch copy
    promises; but the host clock is set before the position fields are
    looked at, so a sentence rejected for its position may already have run
    [date]: the event log grows by at most that one call, made only when the
    host clock was more than three seconds off, and by the debug log. *)
Theorem rmc_rejected (rt : GoRuntime) (l payload : string) (w w' : World) :
  Codec.validateNMEAChecksum l = (payload, true) ->
  let x := Split1 payload "," in
  x !! 0%nat = Some "GNRMC" \/ x !! 0%nat = Some "GPRMC" ->
  processNMEALine rt l w = (Returned false, w') ->
  let logged := if DEBUG w then [EvLogSituation] else [] in
  mySituation w' =
    SituationData.set_LastValidNMEAMessage l
      (SituationData.set_LastValidNMEAMessageTime (stratuxClock w) (mySituation w))
  /\ Satellites w' = Satellites w
  /\ (events w' = (logged ++ events w)%list
      \/ exists t, events w' = (logged ++ EvExecDate t :: events w)%list
                   /\ (3 * Second < time_Now w - t \/ time_Now w - t < - 3 * Second)).
Proof.
  intros Hv x Hx0 Hrun logged.
  apply processNMEALine_false in Hrun as (r & w1 & Hb & Hnt & Hnp & ->).
  apply (body_RMC rt l w payload _ _ Hv Hx0) in Hb.
  pose proof (handleRMC_spec rt x _ _ (sentence_step_refl (stamp l w))) as Hs.
  pose proof (handleRMC_rejected rt x (stamp l w)) as Hrej.
  unfold wp in Hs, Hrej. fold x in Hb. rewrite Hb in Hs, Hrej.
  cbn [fst snd] in Hs, Hrej.
  destruct Hs as (((_ & _ & Hd & _) & _) & _ & Hnv & _).
  assert (Hr : r = Ret false).
  { destruct r as [[]|[|]|]; try contradiction; reflexivity. }
  destruct (Hrej Hr) as (Hsit & Hmap & Hev).
  change (DEBUG (stamp l w)) with (DEBUG w) in Hd.
  change (time_Now (stamp l w)) with (time_Now w) in Hev.
  change (events (stamp l w)) with (events w) in Hev.
  subst logged. rewrite Hd.
  destruct (DEBUG w); cbn [mySituation Satellites events emit app];
    (split; [exact Hsit|]); (split; [exact Hmap|]);
    (destruct Hev as [->|(t & -> & Ht)]; [left; reflexivity|right; exists t; auto]).
Qed.

Lemma rmc_rejected_witness :
  let rt := fixed_time_runtime Int32 (1000 * Second) in
  let l := "$GPRMC,123519.00,A,48,N,01131.000,E,022.4,084.4,230394,003.1,W*56" in
  let w := initWorld (60 * Second) 0 in
  (processNMEALine rt l w).1 = Returned false
  /\ events (processNMEALine rt l w).2 = [EvExecDate (1000 * Second)]
  /\ Satellites (processNMEALine rt l w).2 = Satellites w.
Proof.
  intros rt l w.
  split; [vm_compute; reflexivity|]. split; [vm_compute; reflexivity|].
  destruct (rmc_rejected rt l
              "GPRMC,123519.00,A,48,N,01131.000,E,022.4,084.4,230394,003.1,W"
              w (processNMEALine rt l w).2)
    as (_ & H & _).
  - vm_compute. reflexivity.
  - right. vm_compute. reflexivity.
  - vm_compute. reflexivity.
  - exact H.
Defined.

(** ** Attitude report *)

Lemma to_int16_range z : -32768 <= to_int16 z < 32768.
Proof.
  unfold to_int16, wrap_signed. change (2 ^ (16 - 1)) with 32768.
  change (2 ^ 16) with 65536.
  pose proof (Z.mod_pos_bound (z + 32768) 65536 ltac:(lia)). lia.
Qed.

Lemma to_uint16_range z : 0 <= to_uint16 z < 65536.
Proof. unfold to_uint16, wrap_unsigned. apply Z.mod_pos_bound. reflexivity. Qed.

Lemma int16_of_float64_range unrep x :
  -32768 <= int16_of_float64 unrep x < 32768.
Proof.
  unfold int16_of_float64. destruct (float_trunc x) as [z|];
    [|apply to_int16_range].
  destruct (Z.leb_spec (-32768) z); [|apply to_int16_range].
  destruct (Z.ltb_spec z 32768); [|apply to_int16_range].
  cbn [andb]. lia.
Qed.

Lemma uint16_of_float64_range rt x : 0 <= uint16_of_float64 rt x < 65536.
Proof.
  unfold uint16_of_float64. destruct (float_trunc x) as [z|];
    [|apply to_uint16_range].
  destruct (Z.leb_spec 0 z); [|apply to_uint16_range].
  destruct (Z.ltb_spec z 65536); [|apply to_uint16_range].
  cbn [andb]. lia.
Qed.

Lemma hi_lo_byte v :
  0 <= hi_byte v < 256 /\ 0 <= lo_byte v < 256
  /\ 256 * hi_byte v + lo_byte v = v mod 65536.
Proof.
  unfold hi_byte, lo_byte.
  change 0xFF with (Z.ones 8). rewrite !Z.land_ones by lia.
  rewrite Z.shiftr_div_pow2 by lia. change (2 ^ 8) with 256.
  unfold to_uint8, wrap_unsigned. change (2 ^ 8) with 256.
  rewrite !Z.mod_mod by lia.
  pose proof (Z.mod_pos_bound (v / 256) 256 ltac:(lia)).
  pose proof (Z.mod_pos_bound v 256 ltac:(lia)).
  split; [lia|]. split; [lia|].
  change 65536 with (256 * 256). rewrite Z.rem_mul_r by lia. lia.
Qed.

(** Two bytes, most significant first, read back as an [int16] or as a
    [uint16]. *)
Lemma be16_signed v :
  -32768 <= v < 32768 -> to_int16 (256 * hi_byte v + lo_byte v) = v.
Proof.
  intros Hv. destruct (hi_lo_byte v) as (_ & _ & ->).
  unfold to_int16, wrap_signed. change (2 ^ (16 - 1)) with 32768.
  change (2 ^ 16) with 65536.
  rewrite Z.add_mod_idemp_l by lia. rewrite Z.mod_small by lia. lia.
Qed.

Lemma be16_unsigned v : 0 <= v < 65536 -> 256 * hi_byte v + lo_byte v = v.
Proof.
  intros Hv. destruct (hi_lo_byte v) as (_ & _ & ->). apply Z.mod_small. exact Hv.
Qed.

Lemma report_constants unrep :
  int16_of_float64 unrep (f64_mul f_zero (f64_lit 10 0)) = 0
  /\ int16_of_float64 unrep (f64_mul (f64_lit 1 0) (f64_lit 10 0)) = 10.
Proof. split; vm_compute; reflexivity. Qed.

Lemma report_constant_bytes :
  hi_byte 0 = 0 /\ lo_byte 0 = 0 /\ hi_byte 10 = 0 /\ lo_byte 10 = 10.
Proof. repeat split. Qed.

(** X28. The attitude report is sixteen bytes: the header [4C 45 01 00];
    roll, pitch and heading, each the sensor value times ten converted to a
    16-bit integer and written most significant byte first, so that reading
    the two bytes back gives that integer again; then slip/skid 0, yaw rate
    0 and G 10.  Every element is a byte. *)
Theorem makeAHRSGDL90Report_layout (rt : GoRuntime) (unrep : float64 -> Z)
    (s : SituationData.t) :
  let msg := makeAHRSGDL90Report rt unrep s in
  let ten := f64_lit 10 0 in
  length msg = 16%nat
  /\ take 4 msg = [0x4c; 0x45; 0x01; 0x00]
  /\ to_int16 (256 * nth 4 msg 0 + nth 5 msg 0)
     = int16_of_float64 unrep (f64_mul (SituationData.Roll s) ten)
  /\ to_int16 (256 * nth 6 msg 0 + nth 7 msg 0)
     = int16_of_float64 unrep (f64_mul (SituationData.Pitch s) ten)
  /\ 256 * nth 8 msg 0 + nth 9 msg 0
     = uint16_of_float64 rt (f64_mul (SituationData.Gyro_heading s) ten)
  /\ drop 10 msg = [0; 0; 0; 0; 0; 10]
  /\ Forall (fun b => 0 <= b < 256) msg.
Proof.
  intros msg ten. subst msg ten. unfold makeAHRSGDL90Report.
  set (roll := int16_of_float64 unrep (f64_mul (SituationData.Roll s) _)).
  set (pitch := int16_of_float64 unrep (f64_mul (SituationData.Pitch s) _)).
  set (hdg := uint16_of_float64 rt _).
  destruct (report_constants unrep) as [-> ->].
  destruct report_constant_bytes as (-> & -> & -> & ->).
  cbv zeta. cbn [replicate list_insert alter list_alter length take drop nth].
  pose proof (int16_of_float64_range unrep
                (f64_mul (SituationData.Roll s) (f64_lit 10 0))) as Hroll.
  pose proof (int16_of_float64_range unrep
                (f64_mul (SituationData.Pitch s) (f64_lit 10 0))) as Hpitch.
  pose proof (uint16_of_float64_range rt
                (f64_mul (SituationData.Gyro_heading s) (f64_lit 10 0))) as Hhdg.
  fold roll in Hroll. fold pitch in Hpitch. fold hdg in Hhdg.
  split; [reflexivity|]. split; [reflexivity|].
  split; [apply be16_signed; exact Hroll|].
  split; [apply be16_signed; exact Hpitch|].
  split; [apply be16_unsigned; exact Hhdg|].
  split; [reflexivity|].
  destruct (hi_lo_byte roll) as (? & ? & _).
  destruct (hi_lo_byte pitch) as (? & ? & _).
  destruct (hi_lo_byte hdg) as (? & ? & _).
  repeat constructor; try assumption; lia.
Qed.

(** ** Serial port set-up *)

Lemma list_Z_eqb_eq a : forall b, list_Z_eqb a b = true -> a = b.
Proof.
  induction a as [|x a IH]; intros [|y b] H; cbn [list_Z_eqb] in H;
    try discriminate H; [reflexivity|].
  apply andb_true_iff in H as [Hx Hr]. apply Z.eqb_eq in Hx.
  rewrite Hx, (IH _ Hr). reflexivity.
Qed.

Lemma initGPSSerial_write_ok (h : Serial.Host) :
  forallb write_ok (initGPSSerial h).2 = true.
Proof.
  unfold initGPSSerial.
  destruct (Serial.Stat_ok h "/dev/vk172"); destruct (Serial.Stat_ok h "/dev/vk162");
    destruct (Serial.Stat_ok h "/dev/prolific0");
    destruct (Serial.Stat_ok h "/dev/ttyAMA0");
    destruct (Serial.OpenPort_ok h 0); destruct (Serial.OpenPort_ok h 1);
    destruct (Serial.OpenPort_ok h 2);
    vm_compute; reflexivity.
Qed.

Lemma is_ubx_frame_sound data :
  is_ubx_frame data = true ->
  exists class id msg,
    data = Codec.makeUBXCFG class id (Z.of_nat (length msg)) msg
    /\ Forall (fun b => 0 <= b < 256) data.
Proof.
  unfold is_ubx_frame. intros H. apply andb_true_iff in H as [He Hb].
  apply list_Z_eqb_eq in He.
  exists (nth 2 data 0), (nth 3 data 0), (ubx_payload data).
  split; [exact He|].
  apply Forall_forall. intros b Hin. apply list_elem_of_In in Hin.
  rewrite forallb_forall in Hb. specialize (Hb b Hin).
  apply andb_true_iff in Hb as [H1 H2].
  apply Z.leb_le in H1. apply Z.ltb_lt in H2. lia.
Qed.

Lemma is_nmea_command_sound data :
  is_nmea_command data = true ->
  exists cmd,
    data = bytes (Codec.makeNMEACmd cmd)
    /\ Codec.validateNMEAChecksum (Codec.makeNMEACmd cmd) = (cmd, true).
Proof.
  unfold is_nmea_command. intros H. apply andb_true_iff in H as [He Hs].
  apply list_Z_eqb_eq in He. apply negb_true_iff in Hs.
  exists (nmea_payload data). split; [exact He|].
  apply validate_makeNMEACmd. exact Hs.
Qed.

(** X29. Whatever the host answers, everything [initGPSSerial] writes to
    a port is well formed: either a UBX frame as [makeUBXCFG] builds it from
    a class, an id and a payload when given the payload's own length (so
    the length written by hand at each call is the right one), made of
    bytes; or the bytes of a command built by [makeNMEACmd] that
    [validateNMEAChecksum] accepts and returns. *)
Theorem initGPSSerial_writes (h : Serial.Host) (port : nat) (data : list Z) :
  Serial.Write port data ∈ (initGPSSerial h).2 ->
  (exists class id msg,
      data = Codec.makeUBXCFG class id (Z.of_nat (length msg)) msg
      /\ Forall (fun b => 0 <= b < 256) data)
  \/ (exists cmd,
         data = bytes (Codec.makeNMEACmd cmd)
         /\ Codec.validateNMEAChecksum (Codec.makeNMEACmd cmd) = (cmd, true)).
Proof.
  intros Hin. apply list_elem_of_In in Hin.
  pose proof (initGPSSerial_write_ok h) as Hall.
  rewrite forallb_forall in Hall. specialize (Hall _ Hin).
  cbn [write_ok] in Hall. apply orb_true_iff in Hall as [Hu|Hn].
  - left. apply is_ubx_frame_sound. exact Hu.
  - right. apply is_nmea_command_sound. exact Hn.
Qed.

Lemma initGPSSerial_writes_witness :
  let h := {| Serial.Stat_ok := fun p => String.eqb p "/dev/ttyAMA0";
              Serial.OpenPort_ok := fun _ => true |} in
  let data := Codec.makeUBXCFG 0x06 0x24 36 ubx_nav in
  (exists class id msg,
      data = Codec.makeUBXCFG class id (Z.of_nat (length msg)) msg
      /\ Forall (fun b => 0 <= b < 256) data)
  \/ (exists cmd,
         data = bytes (Codec.makeNMEACmd cmd)
         /\ Codec.validateNMEAChecksum (Codec.makeNMEACmd cmd) = (cmd, true)).
Proof.
  intros h data. apply (initGPSSerial_writes h 0%nat data).
  vm_compute. right. right. left.
Defined.

(** X30. Unless the SiRF branch is taken and its second [OpenPort] call
    fails, [initGPSSerial] keeps the port discipline: it writes to and
    closes only ports that a successful [OpenPort] call returned and that
    it has not closed since, and at the end every port it opened is closed
    again except the one it assigns to [serialPort].  When it returns true,
    the last thing it did was to open the device at 38400 baud with a read
    timeout of 2.5 s, successfully, and that port is [serialPort]; when it
    returns false, [serialPort] is not assigned. *)
Theorem initGPSSerial_ports (h : Serial.Host) :
  sirf_reopen_fails h = false ->
  let r := initGPSSerial h in
  (exists n, run_trace h r.2 0 []
             = Some (n, match r.1.2 with Some p => [p] | None => [] end))
  /\ (r.1.1 = true ->
      exists dev p,
        last r.2 = Some (Serial.OpenPort dev 38400 (2500 * Millisecond))
        /\ r.1.2 = Some p /\ Serial.OpenPort_ok h p = true)
  /\ (r.1.1 = false -> r.1.2 = None).
Proof.
  intros Hs r. subst r. unfold sirf_reopen_fails in Hs. unfold initGPSSerial.
  destruct (Serial.Stat_ok h "/dev/vk172"); destruct (Serial.Stat_ok h "/dev/vk162");
    destruct (Serial.Stat_ok h "/dev/prolific0");
    destruct (Serial.Stat_ok h "/dev/ttyAMA0");
    destruct (Serial.OpenPort_ok h 0) eqn:E0; destruct (Serial.OpenPort_ok h 1) eqn:E1;
    destruct (Serial.OpenPort_ok h 2) eqn:E2;
    try discriminate Hs; clear Hs;
    cbv beta iota zeta delta [negb fst snd app map ubx_writes sirf_writes run_trace
                              existsb Nat.eqb filter list_filter orb last];
    rewrite ?E0, ?E1, ?E2;
    cbv beta iota zeta delta [negb fst snd app map ubx_writes sirf_writes run_trace
                              existsb Nat.eqb filter list_filter orb last];
    (split; [eexists; reflexivity|]);
    (split; [intros Ht; try discriminate Ht; do 2 eexists;
             (split; [reflexivity|]); (split; [reflexivity|assumption])
            |intros Hf; try discriminate Hf; reflexivity]).
Qed.

Lemma initGPSSerial_ports_witness :
  let h := {| Serial.Stat_ok := fun p => String.eqb p "/dev/ttyAMA0";
              Serial.OpenPort_ok := fun _ => true |} in
  exists dev p,
    last (initGPSSerial h).2 = Some (Serial.OpenPort dev 38400 (2500 * Millisecond))
    /\ (initGPSSerial h).1.2 = Some p /\ Serial.OpenPort_ok h p = true.
Proof.
  intros h.
  destruct (initGPSSerial_ports h) as (_ & H & _);
    [vm_compute; reflexivity|].
  apply H. vm_compute. reflexivity.
Defined.

(** In the SiRF branch the result of the second [OpenPort] call is not
    looked at: if that call fails, six commands are written to the port it
    did not return, and the function still returns true when the third call
    succeeds. *)
Example initGPSSerial_sirf_reopen_unchecked :
  let h := {| Serial.Stat_ok := fun p => String.eqb p "/dev/prolific0";
              Serial.OpenPort_ok := fun n => negb (Nat.eqb n 1) |} in
  sirf_reopen_fails h = true
  /\ run_trace h (initGPSSerial h).2 0 [] = None
  /\ (initGPSSerial h).1 = (true, Some 2%nat).
Proof. vm_compute. repeat split. Qed.
